(** * django-axes: the lockout decision engine

    A shallow embedding of [axes/helpers.py] and [axes/handlers/base.py].

    Python values are modelled as follows.
    - [str] is a list of Unicode code points ([pystr]); [str.encode()] is the
      UTF-8 encoder, which raises on a lone surrogate.
    - [None]-or-[str] values (a username, an IP address) are [option pystr].
    - a [dict] is an insertion-ordered association list with unique keys.
    - exceptions are the [Raise] branch of [result].
    - the global [settings] object is a record passed explicitly.
    - [hashlib.md5] is the MD5 function of RFC 1321 on 32-bit words held in [Z].
    - a [float] is the rational its binary64 value stands for, with the
      rounding of IEEE 754 written out ([Binary64]). *)

From Stdlib Require Import ZArith NArith List Bool Lia.
From Stdlib Require Import Ascii String DecimalString.
From Stdlib Require Import DecimalPos DecimalZ.
From Stdlib Require Import QArith Qround Qabs.
Import ListNotations.
Local Open Scope Z_scope.

(** ** Python values *)

Module Py.

Definition pystr := list N.

(** An ASCII literal of the source as a Python string. *)
Definition str (s : string) : pystr := map N_of_ascii (list_ascii_of_string s).

Fixpoint str_eqb (a b : pystr) : bool :=
  match a, b with
  | [], [] => true
  | x :: a', y :: b' => N.eqb x y && str_eqb a' b'
  | _, _ => false
  end.

Inductive exn :=
| TypeError (msg : string)
| NotImplementedError (msg : string)
| UnicodeEncodeError
| Exception (name : string).

Inductive result (A : Type) :=
| Ok (a : A)
| Raise (e : exn).
Arguments Ok {A} a.
Arguments Raise {A} e.

Definition bind {A B} (m : result A) (k : A -> result B) : result B :=
  match m with
  | Ok a => k a
  | Raise e => Raise e
  end.

(** Truth value of a [None]-or-[str] object: [None] and [''] are false. *)
Definition truthy (v : option pystr) : bool :=
  match v with
  | Some (_ :: _) => true
  | _ => false
  end.

(** [x in l] for a list of strings; [None] equals no string. *)
Definition py_in (x : option pystr) (l : list pystr) : bool :=
  match x with
  | Some a => existsb (str_eqb a) l
  | None => false
  end.

(** [sep.join(l)] *)
Fixpoint join (sep : pystr) (l : list pystr) : pystr :=
  match l with
  | [] => []
  | [x] => x
  | x :: rest => x ++ sep ++ join sep rest
  end.

(** *** dict *)
Section Dict.
Context {K V : Type}.
Variable keqb : K -> K -> bool.

Definition dict := list (K * V).

Fixpoint dict_get (d : dict) (k : K) : option V :=
  match d with
  | [] => None
  | (k', v) :: d' => if keqb k' k then Some v else dict_get d' k
  end.

(** [d[k] = v]: an existing key keeps its position, a new one goes last. *)
Fixpoint dict_set (d : dict) (k : K) (v : V) : dict :=
  match d with
  | [] => [(k, v)]
  | (k', v') :: d' =>
      if keqb k' k then (k', v) :: d' else (k', v') :: dict_set d' k v
  end.

Definition dict_keys (d : dict) : list K := map fst d.
Definition dict_values (d : dict) : list V := map snd d.
End Dict.
Arguments dict : clear implicits.

(** *** UTF-8

    A Python string holds code points below 0x110000; the surrogates
    0xD800..0xDFFF have no UTF-8 form and make [encode] raise. *)
Definition utf8_char (c : N) : result (list Z) :=
  let z := Z.of_N c in
  let cont k := Z.lor 0x80 (Z.land (Z.shiftr z k) 0x3F) in
  if z <? 0x80 then Ok [z]
  else if z <? 0x800 then Ok [Z.lor 0xC0 (Z.shiftr z 6); cont 0]
  else if (0xD800 <=? z) && (z <=? 0xDFFF) then Raise UnicodeEncodeError
  else if z <? 0x10000 then Ok [Z.lor 0xE0 (Z.shiftr z 12); cont 6; cont 0]
  else if z <? 0x110000 then
    Ok [Z.lor 0xF0 (Z.shiftr z 18); cont 12; cont 6; cont 0]
  else Raise UnicodeEncodeError.

Fixpoint encode (s : pystr) : result (list Z) :=
  match s with
  | [] => Ok []
  | c :: s' =>
      bind (utf8_char c) (fun bs =>
      bind (encode s') (fun rest => Ok (bs ++ rest)))
  end.

End Py.
Import Py.

Notation "x <- m ;; k" := (bind m (fun x => k))
  (at level 61, m at next level, right associativity).

(** ** hashlib.md5 (RFC 1321) *)

Module MD5.

Definition mask32 : Z := 0xFFFFFFFF.
Definition add32 (a b : Z) : Z := Z.land (a + b) mask32.
Definition not32 (a : Z) : Z := Z.lxor a mask32.
Definition rotl32 (x c : Z) : Z :=
  Z.lor (Z.land (Z.shiftl x c) mask32) (Z.shiftr x (32 - c)).

Definition K : list Z :=
  [ 0xd76aa478; 0xe8c7b756; 0x242070db; 0xc1bdceee;
    0xf57c0faf; 0x4787c62a; 0xa8304613; 0xfd469501;
    0x698098d8; 0x8b44f7af; 0xffff5bb1; 0x895cd7be;
    0x6b901122; 0xfd987193; 0xa679438e; 0x49b40821;
    0xf61e2562; 0xc040b340; 0x265e5a51; 0xe9b6c7aa;
    0xd62f105d; 0x02441453; 0xd8a1e681; 0xe7d3fbc8;
    0x21e1cde6; 0xc33707d6; 0xf4d50d87; 0x455a14ed;
    0xa9e3e905; 0xfcefa3f8; 0x676f02d9; 0x8d2a4c8a;
    0xfffa3942; 0x8771f681; 0x6d9d6122; 0xfde5380c;
    0xa4beea44; 0x4bdecfa9; 0xf6bb4b60; 0xbebfbc70;
    0x289b7ec6; 0xeaa127fa; 0xd4ef3085; 0x04881d05;
    0xd9d4d039; 0xe6db99e5; 0x1fa27cf8; 0xc4ac5665;
    0xf4292244; 0x432aff97; 0xab9423a7; 0xfc93a039;
    0x655b59c3; 0x8f0ccc92; 0xffeff47d; 0x85845dd1;
    0x6fa87e4f; 0xfe2ce6e0; 0xa3014314; 0x4e0811a1;
    0xf7537e82; 0xbd3af235; 0x2ad7d2bb; 0xeb86d391 ].

Definition R : list Z :=
  [ 7; 12; 17; 22; 7; 12; 17; 22; 7; 12; 17; 22; 7; 12; 17; 22;
    5; 9; 14; 20; 5; 9; 14; 20; 5; 9; 14; 20; 5; 9; 14; 20;
    4; 11; 16; 23; 4; 11; 16; 23; 4; 11; 16; 23; 4; 11; 16; 23;
    6; 10; 15; 21; 6; 10; 15; 21; 6; 10; 15; 21; 6; 10; 15; 21 ].

Definition state : Type := Z * Z * Z * Z.

Definition init : state := (0x67452301, 0xefcdab89, 0x98badcfe, 0x10325476).

(** One of the 64 operations of a block; [M] holds its 16 words. *)
Definition round (M : list Z) (st : state) (i : nat) : state :=
  let '(a, b, c, d) := st in
  let '(f, g) :=
    if (i <? 16)%nat then
      (Z.lor (Z.land b c) (Z.land (not32 b) d), i)
    else if (i <? 32)%nat then
      (Z.lor (Z.land d b) (Z.land (not32 d) c), ((5 * i + 1) mod 16)%nat)
    else if (i <? 48)%nat then
      (Z.lxor (Z.lxor b c) d, ((3 * i + 5) mod 16)%nat)
    else
      (Z.lxor c (Z.lor b (not32 d)), ((7 * i) mod 16)%nat) in
  let x := add32 (add32 (add32 a f) (nth i K 0)) (nth g M 0) in
  (d, add32 b (rotl32 x (nth i R 0)), b, c).

Definition le32 (b0 b1 b2 b3 : Z) : Z :=
  Z.lor b0 (Z.lor (Z.shiftl b1 8) (Z.lor (Z.shiftl b2 16) (Z.shiftl b3 24))).

Fixpoint words (n : nat) (bs : list Z) : list Z :=
  match n, bs with
  | S n', b0 :: b1 :: b2 :: b3 :: rest => le32 b0 b1 b2 b3 :: words n' rest
  | _, _ => []
  end.

Definition block (st : state) (bs : list Z) : state :=
  let '(a0, b0, c0, d0) := st in
  let '(a, b, c, d) := fold_left (round (words 16 bs)) (seq 0 64) st in
  (add32 a0 a, add32 b0 b, add32 c0 c, add32 d0 d).

Fixpoint blocks (n : nat) (bs : list Z) (st : state) : state :=
  match n with
  | O => st
  | S n' => blocks n' (skipn 64 bs) (block st (firstn 64 bs))
  end.

Definition le_bytes (n : nat) (x : Z) : list Z :=
  map (fun i => Z.land (Z.shiftr x (8 * Z.of_nat i)) 0xFF) (seq 0 n).

Definition pad (msg : list Z) : list Z :=
  let len := Z.of_nat (List.length msg) in
  msg ++ [0x80] ++ repeat 0 (Z.to_nat ((55 - len) mod 64))
      ++ le_bytes 8 ((8 * len) mod 2 ^ 64).

(** The 16 bytes of [md5(msg).digest()]. *)
Definition digest (msg : list Z) : list Z :=
  let p := pad msg in
  let '(a, b, c, d) := blocks (List.length p / 64) p init in
  le_bytes 4 a ++ le_bytes 4 b ++ le_bytes 4 c ++ le_bytes 4 d.

Definition hexchars : pystr := str "0123456789abcdef".

Definition hex_byte (b : Z) : pystr :=
  [ nth (Z.to_nat (Z.shiftr b 4)) hexchars 48%N;
    nth (Z.to_nat (Z.land b 0xF)) hexchars 48%N ].

(** [md5(msg).hexdigest()] *)
Definition hexdigest (msg : list Z) : pystr := flat_map hex_byte (digest msg).

End MD5.

(** ** axes.helpers *)

Module Helpers.

(** A credentials [dict]: field name to [None] or a string. *)
Definition Credentials := dict pystr (option pystr).

(** [request.POST], a Django [QueryDict]: each key holds a list of values. *)
Definition QueryDict := dict pystr (list pystr).

(** [QueryDict.get(key, None)]: the last value of the key; [None] when the
    key is missing or its list is empty. *)
Definition querydict_get (q : QueryDict) (key : pystr) : option pystr :=
  match dict_get str_eqb q key with
  | None => None
  | Some [] => None
  | Some (v :: vs) => Some (last vs v)
  end.

Record HttpRequest := {
  axes_ip_address : option pystr;
  method : option pystr;
  POST : QueryDict;
  META : dict pystr pystr
}.

(** The values [settings.AXES_USERNAME_CALLABLE] can take. *)
Inductive username_callable :=
| UC_None
| UC_Callable (f : HttpRequest -> option Credentials -> result (option pystr))
| UC_Str (path : pystr)
| UC_Other (truth : bool).

(** Truth value of the setting: a function object is true, a string is true
    when it is not empty, any other object carries its own truth value. *)
Definition uc_truthy (u : username_callable) : bool :=
  match u with
  | UC_None => false
  | UC_Callable _ => true
  | UC_Str p => truthy (Some p)
  | UC_Other b => b
  end.

(** [datetime.timedelta]: CPython keeps [0 <= seconds < 86400],
    [0 <= microseconds < 10^6] and [|days| <= 999999999]. *)
Record timedelta := {
  days : Z;
  seconds : Z;
  microseconds : Z
}.

Definition timedelta_ok (d : timedelta) : Prop :=
  -999999999 <= days d <= 999999999 /\
  0 <= seconds d < 86400 /\
  0 <= microseconds d < 1000000.

Inductive cooloff_time :=
| CT_None
| CT_Hours (h : Z)
| CT_Delta (d : timedelta).

Record Settings := {
  AXES_ONLY_USER_FAILURES : bool;
  AXES_LOCK_OUT_BY_COMBINATION_USER_AND_IP : bool;
  AXES_USE_USER_AGENT : bool;
  AXES_ONLY_WHITELIST : bool;
  AXES_NEVER_LOCKOUT_WHITELIST : bool;
  AXES_NEVER_LOCKOUT_GET : bool;
  AXES_IP_WHITELIST : option (list pystr);
  AXES_IP_BLACKLIST : option (list pystr);
  AXES_LOCK_OUT_AT_FAILURE : bool;
  AXES_FAILURE_LIMIT : Z;
  AXES_COOLOFF_TIME : cooloff_time;
  AXES_USERNAME_CALLABLE : username_callable;
  AXES_USERNAME_FORM_FIELD : pystr;
  AXES_PROXY_ORDER : pystr;
  AXES_PROXY_COUNT : option Z;
  AXES_PROXY_TRUSTED_IPS : option (list pystr);
  AXES_META_PRECEDENCE_ORDER : list pystr
}.

(** What the helpers call outside of the package: Django's [import_string]
    and [ipware.ip2.get_client_ip]. An imported object that cannot be called
    is a callable that raises. *)
Class Collaborators := {
  import_string :
    pystr -> result (HttpRequest -> option Credentials -> result (option pystr));
  get_client_ip :
    HttpRequest -> pystr -> option Z -> option (list pystr) -> list pystr ->
    option pystr * bool
}.

(** *** get_cool_off *)

(** [timedelta(hours=h)]: normalised; [OverflowError] when the days leave
    the range of the type. *)
Definition timedelta_of_hours (h : Z) : result timedelta :=
  let d := h / 24 in
  if (-999999999 <=? d) && (d <=? 999999999)
  then Ok {| days := d; seconds := (h mod 24) * 3600; microseconds := 0 |}
  else Raise (Exception "OverflowError").

Definition get_cool_off (settings : Settings) : result (option timedelta) :=
  match AXES_COOLOFF_TIME settings with
  | CT_Hours h => delta <- timedelta_of_hours h ;; Ok (Some delta)
  | CT_Delta delta => Ok (Some delta)
  | CT_None => Ok None
  end.

(** *** get_cool_off_iso8601

    [delta.total_seconds()] is a binary64 float. For a duration of whole
    seconds its value is the integer [days * 86400 + seconds], which is below
    2^53 in magnitude (lemma [total_seconds_exact]) and so held exactly; on
    such floats [divmod] is floor division of integers and the [.0f] format
    prints the integer. A duration with a fraction of a second is outside
    this model: [None]. *)
Definition total_seconds (delta : timedelta) : option Z :=
  if microseconds delta =? 0
  then Some (days delta * 86400 + seconds delta)
  else None.

Definition divmod (a b : Z) : Z * Z := (a / b, a mod b).

(** [f'{value:.0f}'] of an integer-valued float. *)
Definition format_0f (value : Z) : pystr :=
  str (NilZero.string_of_int (Z.to_int value)).

Definition get_cool_off_iso8601 (delta : timedelta) : option pystr :=
  match total_seconds delta with
  | None => None
  | Some seconds =>
      let '(minutes, seconds) := divmod seconds 60 in
      let '(hours, minutes) := divmod minutes 60 in
      let '(days, hours) := divmod hours 24 in
      let days_str :=
        if days =? 0 then [] else format_0f days ++ str "D" in
      let time_str :=
        join []
          (map (fun '(value, designator) => format_0f value ++ designator)
             (filter (fun '(value, _) => negb (value =? 0))
                [(hours, str "H"); (minutes, str "M"); (seconds, str "S")])) in
      match time_str with
      | _ :: _ => Some (str "P" ++ days_str ++ str "T" ++ time_str)
      | [] => Some (str "P" ++ days_str)
      end
  end.

(** *** get_client_username *)
Definition get_client_username `{Collaborators}
    (settings : Settings) (request : HttpRequest)
    (credentials : option Credentials) : result (option pystr) :=
  if uc_truthy (AXES_USERNAME_CALLABLE settings) then
    match AXES_USERNAME_CALLABLE settings with
    | UC_Callable f => f request credentials
    | UC_Str path => f <- import_string path ;; f request credentials
    | _ =>
        Raise (TypeError
          "settings.AXES_USERNAME_CALLABLE needs to be a string, callable, or None.")
    end
  else
    match credentials with
    | Some ((_ :: _) as c) =>
        Ok (match dict_get str_eqb c (AXES_USERNAME_FORM_FIELD settings) with
            | Some v => v
            | None => None
            end)
    | _ => Ok (querydict_get (POST request) (AXES_USERNAME_FORM_FIELD settings))
    end.

Definition get_client_ip_address `{Collaborators}
    (settings : Settings) (request : HttpRequest) : option pystr :=
  let '(client_ip_address, _) :=
    get_client_ip request
      (AXES_PROXY_ORDER settings) (AXES_PROXY_COUNT settings)
      (AXES_PROXY_TRUSTED_IPS settings) (AXES_META_PRECEDENCE_ORDER settings) in
  client_ip_address.

Definition meta_get (request : HttpRequest) (key default : pystr) : pystr :=
  match dict_get str_eqb (META request) key with
  | Some v => v
  | None => default
  end.

Definition get_client_user_agent (request : HttpRequest) : pystr :=
  firstn 255 (meta_get request (str "HTTP_USER_AGENT") (str "<unknown>")).

(** *** get_client_parameters *)
Definition get_client_parameters (settings : Settings)
    (username ip_address user_agent : option pystr)
  : dict string (option pystr) :=
  let filter_kwargs : dict string (option pystr) := [] in
  if AXES_ONLY_USER_FAILURES settings then
    dict_set String.eqb filter_kwargs "username"%string username
  else
    let filter_kwargs :=
      if AXES_LOCK_OUT_BY_COMBINATION_USER_AND_IP settings then
        let filter_kwargs :=
          dict_set String.eqb filter_kwargs "username"%string username in
        dict_set String.eqb filter_kwargs "ip_address"%string ip_address
      else
        dict_set String.eqb filter_kwargs "ip_address"%string ip_address in
    if AXES_USE_USER_AGENT settings then
      dict_set String.eqb filter_kwargs "user_agent"%string user_agent
    else filter_kwargs.

(** *** white and black lists *)
Definition is_ip_address_in_whitelist (settings : Settings)
    (ip_address : option pystr) : bool :=
  match AXES_IP_WHITELIST settings with
  | None | Some [] => false
  | Some l => py_in ip_address l
  end.

Definition is_ip_address_in_blacklist (settings : Settings)
    (ip_address : option pystr) : bool :=
  match AXES_IP_BLACKLIST settings with
  | None | Some [] => false
  | Some l => py_in ip_address l
  end.

Definition is_client_ip_address_whitelisted (settings : Settings)
    (request : HttpRequest) : bool :=
  if AXES_NEVER_LOCKOUT_WHITELIST settings
     && is_ip_address_in_whitelist settings (axes_ip_address request)
  then true
  else if AXES_ONLY_WHITELIST settings
          && is_ip_address_in_whitelist settings (axes_ip_address request)
  then true
  else false.

Definition is_client_ip_address_blacklisted (settings : Settings)
    (request : HttpRequest) : bool :=
  if is_ip_address_in_blacklist settings (axes_ip_address request) then true
  else if AXES_ONLY_WHITELIST settings
          && negb (is_ip_address_in_whitelist settings (axes_ip_address request))
  then true
  else false.

Definition is_client_method_whitelisted (settings : Settings)
    (request : HttpRequest) : bool :=
  if AXES_NEVER_LOCKOUT_GET settings
     && match method request with
        | Some m => str_eqb m (str "GET")
        | None => false
        end
  then true
  else false.

(** *** get_client_cache_key *)

(** An [AccessAttempt] object, or any object with these attributes. *)
Record AccessAttempt := {
  username : option pystr;
  ip_address : option pystr;
  user_agent : option pystr
}.

Inductive request_or_attempt :=
| IsHttpRequest (request : HttpRequest)
| IsAttempt (attempt : AccessAttempt).

(** [''.join(value for value in values if value)] *)
Definition join_truthy (values : list (option pystr)) : pystr :=
  join [] (flat_map (fun value =>
                       if truthy value
                       then match value with Some v => [v] | None => [] end
                       else [])
                    values).

Definition get_client_cache_key `{Collaborators}
    (settings : Settings) (x : request_or_attempt)
    (credentials : option Credentials) : result pystr :=
  fields <-
    match x with
    | IsHttpRequest request =>
        username <- get_client_username settings request credentials ;;
        Ok (username,
            get_client_ip_address settings request,
            Some (get_client_user_agent request))
    | IsAttempt attempt =>
        Ok (username attempt, ip_address attempt, user_agent attempt)
    end ;;
  let '(username, ip_address, user_agent) := fields in
  let filter_kwargs :=
    get_client_parameters settings username ip_address user_agent in
  let cache_key_components := join_truthy (dict_values filter_kwargs) in
  bytes <- encode cache_key_components ;;
  let cache_key_digest := MD5.hexdigest bytes in
  Ok (str "axes-" ++ cache_key_digest).

End Helpers.
Import Helpers.

(** ** axes.handlers.base *)

Module Handlers.

(** A handler class: [get_failures] is the virtual method a subclass gives. *)
Class AxesHandler := {
  get_failures : HttpRequest -> option Credentials -> result Z
}.

(** The base class itself. *)
Definition base_handler : AxesHandler := {|
  get_failures := fun _ _ =>
    Raise (NotImplementedError
      "The Axes handler class needs a method definition for get_failures")
|}.

Section Handler.
Context `{AxesHandler}.
Variable settings : Settings.

Definition is_blacklisted (request : HttpRequest)
    (credentials : option Credentials) : bool :=
  if is_client_ip_address_blacklisted settings request then true else false.

Definition is_whitelisted (request : HttpRequest)
    (credentials : option Credentials) : bool :=
  if is_client_ip_address_whitelisted settings request then true
  else if is_client_method_whitelisted settings request then true
  else false.

Definition is_locked (request : HttpRequest)
    (credentials : option Credentials) : result bool :=
  if AXES_LOCK_OUT_AT_FAILURE settings then
    failures <- get_failures request credentials ;;
    Ok (AXES_FAILURE_LIMIT settings <=? failures)
  else Ok false.

Definition is_allowed (request : HttpRequest)
    (credentials : option Credentials) : result bool :=
  if is_blacklisted request credentials then Ok false
  else if is_whitelisted request credentials then Ok true
  else
    locked <- is_locked request credentials ;;
    if locked then Ok false else Ok true.

End Handler.

End Handlers.
Import Handlers.

(** * Properties *)

(** ** Strings and membership *)

Lemma str_eqb_eq (a b : pystr) : str_eqb a b = true <-> a = b.
Proof.
  revert b; induction a as [|x a IH]; intros [|y b]; simpl; split;
    try discriminate; try reflexivity.
  - rewrite andb_true_iff, N.eqb_eq, IH. now intros [-> ->].
  - intros [= -> ->]. rewrite andb_true_iff, N.eqb_eq, IH. now split.
Qed.

Lemma py_in_spec (x : option pystr) (l : list pystr) :
  py_in x l = true <-> exists a, x = Some a /\ In a l.
Proof.
  destruct x as [a|]; simpl.
  - rewrite existsb_exists. split.
    + intros (b & Hb & E). apply str_eqb_eq in E. subst b. now exists a.
    + intros (b & [= <-] & Hb). exists a. split; [exact Hb|]. now apply str_eqb_eq.
  - split; [discriminate|]. now intros (a & E & _).
Qed.

(** The client address is one of the strings of a configured list. *)
Definition ip_member (ip : option pystr) (l : option (list pystr)) : Prop :=
  exists a xs, ip = Some a /\ l = Some xs /\ In a xs.

Lemma in_list_setting (l : option (list pystr)) (ip : option pystr) :
  match l with
  | None | Some [] => false
  | Some xs => py_in ip xs
  end = true <-> ip_member ip l.
Proof.
  unfold ip_member. destruct l as [[|x xs]|].
  - split; [discriminate|]. now intros (a & ys & _ & [= <-] & []).
  - rewrite py_in_spec. split.
    + intros (a & E & Hin). now exists a, (x :: xs).
    + intros (a & ys & E & [= <-] & Hin). now exists a.
  - split; [discriminate|]. now intros (a & ys & _ & E & _).
Qed.

Lemma in_whitelist_iff (s : Settings) (ip : option pystr) :
  is_ip_address_in_whitelist s ip = true <-> ip_member ip (AXES_IP_WHITELIST s).
Proof. apply in_list_setting. Qed.

Lemma in_blacklist_iff (s : Settings) (ip : option pystr) :
  is_ip_address_in_blacklist s ip = true <-> ip_member ip (AXES_IP_BLACKLIST s).
Proof. apply in_list_setting. Qed.

Lemma not_in_whitelist (s : Settings) (ip : option pystr) :
  ~ ip_member ip (AXES_IP_WHITELIST s) ->
  is_ip_address_in_whitelist s ip = false.
Proof.
  intros Hn. destruct (is_ip_address_in_whitelist s ip) eqn:E; [|reflexivity].
  now apply in_whitelist_iff in E.
Qed.

(** ** The decision engine *)

(** A blacklisted request is denied before anything else is looked at. *)
Lemma blacklisted_denied `{AxesHandler} (s : Settings) (r : HttpRequest)
    (c : option Credentials) :
  is_client_ip_address_blacklisted s r = true -> is_allowed s r c = Ok false.
Proof. intros E. unfold is_allowed, is_blacklisted. now rewrite E. Qed.

(** Past the blacklist, a whitelisted request is allowed without a count. *)
Lemma whitelisted_allowed `{AxesHandler} (s : Settings) (r : HttpRequest)
    (c : option Credentials) :
  is_client_ip_address_blacklisted s r = false ->
  is_whitelisted s r c = true ->
  is_allowed s r c = Ok true.
Proof.
  intros Eb Ew. unfold is_allowed, is_blacklisted. now rewrite Eb, Ew.
Qed.

(** Past both lists the verdict is the negation of [is_locked]. *)
Lemma unlisted_allowed `{AxesHandler} (s : Settings) (r : HttpRequest)
    (c : option Credentials) :
  is_blacklisted s r c = false ->
  is_whitelisted s r c = false ->
  is_allowed s r c = (locked <- is_locked s r c ;; Ok (negb locked)).
Proof.
  intros Eb Ew. unfold is_allowed. rewrite Eb, Ew.
  destruct (is_locked s r c) as [[|]|]; reflexivity.
Qed.

(** *** Fixtures *)

Module Fixtures.

Definition settings0 : Settings := {|
  AXES_ONLY_USER_FAILURES := false;
  AXES_LOCK_OUT_BY_COMBINATION_USER_AND_IP := false;
  AXES_USE_USER_AGENT := false;
  AXES_ONLY_WHITELIST := false;
  AXES_NEVER_LOCKOUT_WHITELIST := false;
  AXES_NEVER_LOCKOUT_GET := false;
  AXES_IP_WHITELIST := None;
  AXES_IP_BLACKLIST := None;
  AXES_LOCK_OUT_AT_FAILURE := true;
  AXES_FAILURE_LIMIT := 3;
  AXES_COOLOFF_TIME := CT_None;
  AXES_USERNAME_CALLABLE := UC_None;
  AXES_USERNAME_FORM_FIELD := str "username";
  AXES_PROXY_ORDER := str "left-most";
  AXES_PROXY_COUNT := None;
  AXES_PROXY_TRUSTED_IPS := None;
  AXES_META_PRECEDENCE_ORDER := [str "REMOTE_ADDR"]
|}.

Definition with_lists (s : Settings) (only_wl never_wl never_get : bool)
    (wl bl : option (list pystr)) : Settings := {|
  AXES_ONLY_USER_FAILURES := AXES_ONLY_USER_FAILURES s;
  AXES_LOCK_OUT_BY_COMBINATION_USER_AND_IP :=
    AXES_LOCK_OUT_BY_COMBINATION_USER_AND_IP s;
  AXES_USE_USER_AGENT := AXES_USE_USER_AGENT s;
  AXES_ONLY_WHITELIST := only_wl;
  AXES_NEVER_LOCKOUT_WHITELIST := never_wl;
  AXES_NEVER_LOCKOUT_GET := never_get;
  AXES_IP_WHITELIST := wl;
  AXES_IP_BLACKLIST := bl;
  AXES_LOCK_OUT_AT_FAILURE := AXES_LOCK_OUT_AT_FAILURE s;
  AXES_FAILURE_LIMIT := AXES_FAILURE_LIMIT s;
  AXES_COOLOFF_TIME := AXES_COOLOFF_TIME s;
  AXES_USERNAME_CALLABLE := AXES_USERNAME_CALLABLE s;
  AXES_USERNAME_FORM_FIELD := AXES_USERNAME_FORM_FIELD s;
  AXES_PROXY_ORDER := AXES_PROXY_ORDER s;
  AXES_PROXY_COUNT := AXES_PROXY_COUNT s;
  AXES_PROXY_TRUSTED_IPS := AXES_PROXY_TRUSTED_IPS s;
  AXES_META_PRECEDENCE_ORDER := AXES_META_PRECEDENCE_ORDER s
|}.

Definition with_limit (s : Settings) (at_failure : bool) (limit : Z)
  : Settings := {|
  AXES_ONLY_USER_FAILURES := AXES_ONLY_USER_FAILURES s;
  AXES_LOCK_OUT_BY_COMBINATION_USER_AND_IP :=
    AXES_LOCK_OUT_BY_COMBINATION_USER_AND_IP s;
  AXES_USE_USER_AGENT := AXES_USE_USER_AGENT s;
  AXES_ONLY_WHITELIST := AXES_ONLY_WHITELIST s;
  AXES_NEVER_LOCKOUT_WHITELIST := AXES_NEVER_LOCKOUT_WHITELIST s;
  AXES_NEVER_LOCKOUT_GET := AXES_NEVER_LOCKOUT_GET s;
  AXES_IP_WHITELIST := AXES_IP_WHITELIST s;
  AXES_IP_BLACKLIST := AXES_IP_BLACKLIST s;
  AXES_LOCK_OUT_AT_FAILURE := at_failure;
  AXES_FAILURE_LIMIT := limit;
  AXES_COOLOFF_TIME := AXES_COOLOFF_TIME s;
  AXES_USERNAME_CALLABLE := AXES_USERNAME_CALLABLE s;
  AXES_USERNAME_FORM_FIELD := AXES_USERNAME_FORM_FIELD s;
  AXES_PROXY_ORDER := AXES_PROXY_ORDER s;
  AXES_PROXY_COUNT := AXES_PROXY_COUNT s;
  AXES_PROXY_TRUSTED_IPS := AXES_PROXY_TRUSTED_IPS s;
  AXES_META_PRECEDENCE_ORDER := AXES_META_PRECEDENCE_ORDER s
|}.

Definition with_tracking (s : Settings) (only_user combination agent : bool)
  : Settings := {|
  AXES_ONLY_USER_FAILURES := only_user;
  AXES_LOCK_OUT_BY_COMBINATION_USER_AND_IP := combination;
  AXES_USE_USER_AGENT := agent;
  AXES_ONLY_WHITELIST := AXES_ONLY_WHITELIST s;
  AXES_NEVER_LOCKOUT_WHITELIST := AXES_NEVER_LOCKOUT_WHITELIST s;
  AXES_NEVER_LOCKOUT_GET := AXES_NEVER_LOCKOUT_GET s;
  AXES_IP_WHITELIST := AXES_IP_WHITELIST s;
  AXES_IP_BLACKLIST := AXES_IP_BLACKLIST s;
  AXES_LOCK_OUT_AT_FAILURE := AXES_LOCK_OUT_AT_FAILURE s;
  AXES_FAILURE_LIMIT := AXES_FAILURE_LIMIT s;
  AXES_COOLOFF_TIME := AXES_COOLOFF_TIME s;
  AXES_USERNAME_CALLABLE := AXES_USERNAME_CALLABLE s;
  AXES_USERNAME_FORM_FIELD := AXES_USERNAME_FORM_FIELD s;
  AXES_PROXY_ORDER := AXES_PROXY_ORDER s;
  AXES_PROXY_COUNT := AXES_PROXY_COUNT s;
  AXES_PROXY_TRUSTED_IPS := AXES_PROXY_TRUSTED_IPS s;
  AXES_META_PRECEDENCE_ORDER := AXES_META_PRECEDENCE_ORDER s
|}.

Definition with_username_callable (s : Settings) (u : username_callable)
  : Settings := {|
  AXES_ONLY_USER_FAILURES := AXES_ONLY_USER_FAILURES s;
  AXES_LOCK_OUT_BY_COMBINATION_USER_AND_IP :=
    AXES_LOCK_OUT_BY_COMBINATION_USER_AND_IP s;
  AXES_USE_USER_AGENT := AXES_USE_USER_AGENT s;
  AXES_ONLY_WHITELIST := AXES_ONLY_WHITELIST s;
  AXES_NEVER_LOCKOUT_WHITELIST := AXES_NEVER_LOCKOUT_WHITELIST s;
  AXES_NEVER_LOCKOUT_GET := AXES_NEVER_LOCKOUT_GET s;
  AXES_IP_WHITELIST := AXES_IP_WHITELIST s;
  AXES_IP_BLACKLIST := AXES_IP_BLACKLIST s;
  AXES_LOCK_OUT_AT_FAILURE := AXES_LOCK_OUT_AT_FAILURE s;
  AXES_FAILURE_LIMIT := AXES_FAILURE_LIMIT s;
  AXES_COOLOFF_TIME := AXES_COOLOFF_TIME s;
  AXES_USERNAME_CALLABLE := u;
  AXES_USERNAME_FORM_FIELD := AXES_USERNAME_FORM_FIELD s;
  AXES_PROXY_ORDER := AXES_PROXY_ORDER s;
  AXES_PROXY_COUNT := AXES_PROXY_COUNT s;
  AXES_PROXY_TRUSTED_IPS := AXES_PROXY_TRUSTED_IPS s;
  AXES_META_PRECEDENCE_ORDER := AXES_META_PRECEDENCE_ORDER s
|}.

Definition request_from (ip : option pystr) (verb : string) : HttpRequest := {|
  axes_ip_address := ip;
  method := Some (str verb);
  POST := [];
  META := []
|}.

(** A handler whose store answers every lookup with [n]. *)
Definition counting (n : Z) : AxesHandler := {|
  get_failures := fun _ _ => Ok n
|}.

Definition ip1 : pystr := str "10.0.0.5".
Definition ip2 : pystr := str "192.168.1.9".

(** Outside of the package: no dotted path resolves, and the client address
    is read from [REMOTE_ADDR]. *)
Definition plain : Collaborators := {|
  import_string := fun _ => Raise (Exception "ImportError");
  get_client_ip := fun request _ _ _ _ =>
    (dict_get str_eqb (META request) (str "REMOTE_ADDR"), false)
|}.

End Fixtures.

(** *** Blacklist and whitelist *)

(** C1. A request whose client address is in both [AXES_IP_BLACKLIST] and
    [AXES_IP_WHITELIST], with [AXES_NEVER_LOCKOUT_WHITELIST] on, passes both
    the blacklist test and the whitelist test; [is_allowed] answers [False]
    (denied) because the blacklist test comes first, whatever the handler's
    failure count does. *)
Theorem C1_blacklist_precedes_whitelist `{AxesHandler}
    (s : Settings) (r : HttpRequest) (c : option Credentials) :
  AXES_NEVER_LOCKOUT_WHITELIST s = true ->
  ip_member (axes_ip_address r) (AXES_IP_BLACKLIST s) ->
  ip_member (axes_ip_address r) (AXES_IP_WHITELIST s) ->
  is_blacklisted s r c = true /\
  is_whitelisted s r c = true /\
  is_allowed s r c = Ok false.
Proof.
  intros Hn Hb Hw.
  apply in_blacklist_iff in Hb. apply in_whitelist_iff in Hw.
  assert (Eb : is_client_ip_address_blacklisted s r = true).
  { unfold is_client_ip_address_blacklisted. now rewrite Hb. }
  repeat split.
  - unfold is_blacklisted. now rewrite Eb.
  - unfold is_whitelisted, is_client_ip_address_whitelisted.
    now rewrite Hn, Hw.
  - now apply blacklisted_denied.
Qed.

Lemma C1_witness :
  let s := Fixtures.with_lists Fixtures.settings0 false true false
             (Some [Fixtures.ip1; Fixtures.ip2]) (Some [Fixtures.ip1]) in
  let r := Fixtures.request_from (Some Fixtures.ip1) "POST" in
  is_blacklisted s r None = true /\
  is_whitelisted s r None = true /\
  is_allowed (H := base_handler) s r None = Ok false.
Proof.
  apply (C1_blacklist_precedes_whitelist (H := base_handler)).
  - reflexivity.
  - exists Fixtures.ip1, [Fixtures.ip1]. simpl. auto.
  - exists Fixtures.ip1, [Fixtures.ip1; Fixtures.ip2]. simpl. auto.
Defined.

(** C2. With [AXES_ONLY_WHITELIST] on, a request whose client address is not
    in [AXES_IP_WHITELIST] is classified as blacklisted and [is_allowed]
    answers [False], whether or not the address is in [AXES_IP_BLACKLIST]. *)
Theorem C2_only_whitelist_denies_unlisted `{AxesHandler}
    (s : Settings) (r : HttpRequest) (c : option Credentials) :
  AXES_ONLY_WHITELIST s = true ->
  ~ ip_member (axes_ip_address r) (AXES_IP_WHITELIST s) ->
  is_client_ip_address_blacklisted s r = true /\
  is_allowed s r c = Ok false.
Proof.
  intros Ho Hw. apply not_in_whitelist in Hw.
  assert (Eb : is_client_ip_address_blacklisted s r = true).
  { unfold is_client_ip_address_blacklisted. rewrite Ho, Hw.
    now destruct (is_ip_address_in_blacklist s (axes_ip_address r)). }
  split; [exact Eb | now apply blacklisted_denied].
Qed.

Lemma C2_witness :
  let s := Fixtures.with_lists Fixtures.settings0 true false false
             (Some [Fixtures.ip2]) (Some []) in
  let r := Fixtures.request_from (Some Fixtures.ip1) "POST" in
  is_ip_address_in_blacklist s (axes_ip_address r) = false /\
  is_client_ip_address_blacklisted s r = true /\
  is_allowed (H := Fixtures.counting 0) s r None = Ok false.
Proof.
  split; [reflexivity|].
  apply (C2_only_whitelist_denies_unlisted (H := Fixtures.counting 0)).
  - reflexivity.
  - intros (a & xs & Ea & Exs & Hin). simpl in Ea, Exs.
    injection Ea as <-. injection Exs as <-.
    destruct Hin as [E|[]]. discriminate E.
Defined.

(** C10. With [AXES_ONLY_WHITELIST] on and [AXES_IP_WHITELIST] unset or
    empty, no address is in the whitelist, so every request, whatever its
    client address ([None] included), is classified as blacklisted and
    [is_allowed] answers [False]. *)
Theorem C10_only_whitelist_with_empty_whitelist `{AxesHandler}
    (s : Settings) (r : HttpRequest) (c : option Credentials) :
  AXES_ONLY_WHITELIST s = true ->
  AXES_IP_WHITELIST s = None \/ AXES_IP_WHITELIST s = Some [] ->
  is_ip_address_in_whitelist s (axes_ip_address r) = false /\
  is_client_ip_address_blacklisted s r = true /\
  is_allowed s r c = Ok false.
Proof.
  intros Ho Hw.
  assert (Ew : is_ip_address_in_whitelist s (axes_ip_address r) = false).
  { unfold is_ip_address_in_whitelist. now destruct Hw as [-> | ->]. }
  assert (Eb : is_client_ip_address_blacklisted s r = true).
  { unfold is_client_ip_address_blacklisted. rewrite Ho, Ew.
    now destruct (is_ip_address_in_blacklist s (axes_ip_address r)). }
  repeat split; [exact Ew | exact Eb | now apply blacklisted_denied].
Qed.

Lemma C10_witness :
  let s := Fixtures.with_lists Fixtures.settings0 true true true None None in
  (is_allowed (H := Fixtures.counting 0) s
     (Fixtures.request_from None "GET") None = Ok false) /\
  (is_allowed (H := Fixtures.counting 0) s
     (Fixtures.request_from (Some Fixtures.ip1) "GET") None = Ok false).
Proof.
  split.
  - apply (C10_only_whitelist_with_empty_whitelist (H := Fixtures.counting 0));
      [reflexivity | left; reflexivity].
  - apply (C10_only_whitelist_with_empty_whitelist (H := Fixtures.counting 0));
      [reflexivity | left; reflexivity].
Defined.

(** *** Lockout threshold *)

(** C3. With [AXES_LOCK_OUT_AT_FAILURE] off, [is_locked] answers [False]
    without asking for the count. With it on and a count [n] returned by
    [get_failures], [is_locked] answers [True] exactly when
    [n >= AXES_FAILURE_LIMIT]; for a request that is neither blacklisted nor
    whitelisted [is_allowed] is then [True] exactly when [n] is below the
    limit, so that with a limit of 5 a count of 4 is allowed and a count of 5
    is denied. *)
Theorem C3_lockout_threshold `{AxesHandler}
    (s : Settings) (r : HttpRequest) (c : option Credentials) :
  (AXES_LOCK_OUT_AT_FAILURE s = false -> is_locked s r c = Ok false) /\
  (forall n : Z,
     AXES_LOCK_OUT_AT_FAILURE s = true ->
     get_failures r c = Ok n ->
     (is_locked s r c = Ok true <-> AXES_FAILURE_LIMIT s <= n) /\
     (is_locked s r c = Ok false <-> n < AXES_FAILURE_LIMIT s)) /\
  (forall n : Z,
     is_blacklisted s r c = false ->
     is_whitelisted s r c = false ->
     AXES_LOCK_OUT_AT_FAILURE s = true ->
     get_failures r c = Ok n ->
     (is_allowed s r c = Ok false <-> AXES_FAILURE_LIMIT s <= n) /\
     (is_allowed s r c = Ok true <-> n < AXES_FAILURE_LIMIT s) /\
     (AXES_FAILURE_LIMIT s = 5 -> n = 4 -> is_allowed s r c = Ok true) /\
     (AXES_FAILURE_LIMIT s = 5 -> n = 5 -> is_allowed s r c = Ok false)).
Proof.
  assert (Hlocked : forall n, AXES_LOCK_OUT_AT_FAILURE s = true ->
            get_failures r c = Ok n ->
            is_locked s r c = Ok (AXES_FAILURE_LIMIT s <=? n)).
  { intros n Hl Hn. unfold is_locked. now rewrite Hl, Hn. }
  split; [|split].
  - intros Hl. unfold is_locked. now rewrite Hl.
  - intros n Hl Hn. rewrite (Hlocked n Hl Hn).
    destruct (Z.leb_spec (AXES_FAILURE_LIMIT s) n); split; split;
      intros; try reflexivity; try discriminate; lia.
  - intros n Hb Hw Hl Hn.
    rewrite (unlisted_allowed s r c Hb Hw), (Hlocked n Hl Hn). simpl.
    destruct (Z.leb_spec (AXES_FAILURE_LIMIT s) n); simpl;
      repeat split; intros; try reflexivity; try discriminate; lia.
Qed.

Lemma C3_witness :
  let s := Fixtures.with_limit Fixtures.settings0 true 5 in
  let r := Fixtures.request_from (Some Fixtures.ip1) "POST" in
  is_allowed (H := Fixtures.counting 4) s r None = Ok true /\
  is_allowed (H := Fixtures.counting 5) s r None = Ok false /\
  is_locked (H := base_handler)
    (Fixtures.with_limit Fixtures.settings0 false 5) r None = Ok false.
Proof.
  intros s r. split; [|split].
  - destruct (C3_lockout_threshold (H := Fixtures.counting 4) s r None)
      as (_ & _ & Ha).
    destruct (Ha 4 eq_refl eq_refl eq_refl eq_refl) as (_ & _ & H4 & _).
    exact (H4 eq_refl eq_refl).
  - destruct (C3_lockout_threshold (H := Fixtures.counting 5) s r None)
      as (_ & _ & Ha).
    destruct (Ha 5 eq_refl eq_refl eq_refl eq_refl) as (_ & _ & _ & H5).
    exact (H5 eq_refl eq_refl).
  - destruct (C3_lockout_threshold (H := base_handler)
                (Fixtures.with_limit Fixtures.settings0 false 5) r None)
      as (Hoff & _).
    exact (Hoff eq_refl).
Defined.

(** *** Safe method *)

(** C7 as stated fails: a GET request under [AXES_NEVER_LOCKOUT_GET] whose
    client address is blacklisted is denied. *)
Lemma C7_counterexample :
  let s := Fixtures.with_lists Fixtures.settings0 false false true
             None (Some [Fixtures.ip1]) in
  let r := Fixtures.request_from (Some Fixtures.ip1) "GET" in
  AXES_NEVER_LOCKOUT_GET s = true /\
  method r = Some (str "GET") /\
  is_allowed (H := Fixtures.counting 0) s r None = Ok false.
Proof. repeat split. Qed.

(** C7, amended. A GET request under [AXES_NEVER_LOCKOUT_GET] that the
    blacklist test does not catch is allowed by [is_allowed], whatever
    [get_failures] returns or raises: the count is never asked for. *)
Theorem C7_safe_method_bypass `{AxesHandler}
    (s : Settings) (r : HttpRequest) (c : option Credentials) :
  AXES_NEVER_LOCKOUT_GET s = true ->
  method r = Some (str "GET") ->
  is_client_ip_address_blacklisted s r = false ->
  is_allowed s r c = Ok true.
Proof.
  intros Hg Hm Hb. apply whitelisted_allowed; [exact Hb|].
  unfold is_whitelisted, is_client_method_whitelisted. rewrite Hg, Hm.
  now destruct (is_client_ip_address_whitelisted s r).
Qed.

Lemma C7_witness :
  let s := Fixtures.with_lists
             (Fixtures.with_limit Fixtures.settings0 true 3)
             false false true None (Some [Fixtures.ip2]) in
  let r := Fixtures.request_from (Some Fixtures.ip1) "GET" in
  is_allowed (H := Fixtures.counting 1000) s r None = Ok true /\
  is_allowed (H := base_handler) s r None = Ok true.
Proof.
  split.
  - apply (C7_safe_method_bypass (H := Fixtures.counting 1000)); reflexivity.
  - apply (C7_safe_method_bypass (H := base_handler)); reflexivity.
Defined.

(** ** Tracking parameters and the cache key *)

(** The three tracking modes of [get_client_parameters], written out. *)
Lemma get_client_parameters_cases (s : Settings)
    (u i a : option pystr) :
  get_client_parameters s u i a =
    if AXES_ONLY_USER_FAILURES s then [("username"%string, u)]
    else
      (if AXES_LOCK_OUT_BY_COMBINATION_USER_AND_IP s
       then [("username"%string, u); ("ip_address"%string, i)]
       else [("ip_address"%string, i)])
      ++ (if AXES_USE_USER_AGENT s then [("user_agent"%string, a)] else []).
Proof.
  unfold get_client_parameters.
  destruct (AXES_ONLY_USER_FAILURES s),
    (AXES_LOCK_OUT_BY_COMBINATION_USER_AND_IP s),
    (AXES_USE_USER_AGENT s); reflexivity.
Qed.

(** C5. [get_client_parameters] returns, in insertion order: the username
    alone when [AXES_ONLY_USER_FAILURES] is on (the user agent is not added
    in this mode, whatever [AXES_USE_USER_AGENT] says); otherwise the
    username and the IP address when
    [AXES_LOCK_OUT_BY_COMBINATION_USER_AND_IP] is on, else the IP address
    alone; and in these two modes the user agent comes last exactly when
    [AXES_USE_USER_AGENT] is on. *)
Theorem C5_tracking_parameter_selection (s : Settings)
    (username ip_address user_agent : option pystr) :
  get_client_parameters s username ip_address user_agent =
    match AXES_ONLY_USER_FAILURES s,
          AXES_LOCK_OUT_BY_COMBINATION_USER_AND_IP s,
          AXES_USE_USER_AGENT s with
    | true, _, _ => [("username"%string, username)]
    | false, true, true =>
        [("username"%string, username); ("ip_address"%string, ip_address);
         ("user_agent"%string, user_agent)]
    | false, true, false =>
        [("username"%string, username); ("ip_address"%string, ip_address)]
    | false, false, true =>
        [("ip_address"%string, ip_address); ("user_agent"%string, user_agent)]
    | false, false, false => [("ip_address"%string, ip_address)]
    end.
Proof.
  rewrite get_client_parameters_cases.
  destruct (AXES_ONLY_USER_FAILURES s),
    (AXES_LOCK_OUT_BY_COMBINATION_USER_AND_IP s),
    (AXES_USE_USER_AGENT s); reflexivity.
Qed.

(** The attribute of an attempt that a tracking key names. *)
Definition attempt_field (a : AccessAttempt) (k : string) : option pystr :=
  if String.eqb k "username" then username a
  else if String.eqb k "ip_address" then ip_address a
  else if String.eqb k "user_agent" then user_agent a
  else None.

Definition attempt_parameters (s : Settings) (a : AccessAttempt)
  : dict string (option pystr) :=
  get_client_parameters s (username a) (ip_address a) (user_agent a).

(** Two attempts agree on every field the settings select. *)
Definition agree_on_selected (s : Settings) (a1 a2 : AccessAttempt) : Prop :=
  forall k, In k (dict_keys (attempt_parameters s a1)) ->
            attempt_field a1 k = attempt_field a2 k.

Lemma agree_on_selected_parameters (s : Settings) (a1 a2 : AccessAttempt) :
  agree_on_selected s a1 a2 ->
  attempt_parameters s a1 = attempt_parameters s a2.
Proof.
  unfold agree_on_selected, attempt_parameters.
  rewrite !get_client_parameters_cases.
  intros Hk.
  destruct (AXES_ONLY_USER_FAILURES s),
    (AXES_LOCK_OUT_BY_COMBINATION_USER_AND_IP s),
    (AXES_USE_USER_AGENT s); simpl in *;
    repeat match goal with
      | |- context [(?k, ?f a1)] =>
          let E := fresh "E" in
          assert (E : f a1 = f a2) by (apply (Hk k); tauto);
          rewrite E; clear E
      end; reflexivity.
Qed.

(** The key of an attempt is a function of its selected parameters. *)
Lemma cache_key_of_parameters `{Collaborators} (s : Settings)
    (a : AccessAttempt) (c : option Credentials) :
  get_client_cache_key s (IsAttempt a) c =
    (bytes <- encode (join_truthy (dict_values (attempt_parameters s a))) ;;
     Ok (str "axes-" ++ MD5.hexdigest bytes)).
Proof. reflexivity. Qed.

(** C4. Two attempts that agree on every field selected by
    [get_client_parameters] get the same cache key, whatever their other
    fields and the credentials passed along; and under
    [AXES_ONLY_USER_FAILURES] two attempts that differ in the IP address
    alone get the same key. *)
Theorem C4_cache_key_coalescing `{Collaborators} (s : Settings)
    (a1 a2 : AccessAttempt) (c1 c2 : option Credentials) :
  (agree_on_selected s a1 a2 ->
   get_client_cache_key s (IsAttempt a1) c1 =
   get_client_cache_key s (IsAttempt a2) c2) /\
  (AXES_ONLY_USER_FAILURES s = true ->
   username a1 = username a2 ->
   user_agent a1 = user_agent a2 ->
   get_client_cache_key s (IsAttempt a1) c1 =
   get_client_cache_key s (IsAttempt a2) c2).
Proof.
  split.
  - intros Hag. rewrite !cache_key_of_parameters.
    now rewrite (agree_on_selected_parameters s a1 a2 Hag).
  - intros Ho Hu _. rewrite !cache_key_of_parameters.
    unfold attempt_parameters. rewrite !get_client_parameters_cases, Ho.
    now rewrite Hu.
Qed.

Module KeyFixtures.

Definition alice_home : AccessAttempt := {|
  username := Some (str "alice");
  ip_address := Some Fixtures.ip1;
  user_agent := Some (str "Mozilla")
|}.

Definition alice_away : AccessAttempt := {|
  username := Some (str "alice");
  ip_address := Some Fixtures.ip2;
  user_agent := Some (str "Mozilla")
|}.

Definition bob_home : AccessAttempt := {|
  username := Some (str "bob");
  ip_address := Some Fixtures.ip1;
  user_agent := Some (str "curl")
|}.

Definition only_user : Settings :=
  Fixtures.with_tracking Fixtures.settings0 true true true.

End KeyFixtures.

Lemma C4_witness :
  get_client_cache_key (H := Fixtures.plain) Fixtures.settings0
    (IsAttempt KeyFixtures.alice_home) None =
  get_client_cache_key (H := Fixtures.plain) Fixtures.settings0
    (IsAttempt KeyFixtures.bob_home) (Some []) /\
  get_client_cache_key (H := Fixtures.plain) KeyFixtures.only_user
    (IsAttempt KeyFixtures.alice_home) None =
  get_client_cache_key (H := Fixtures.plain) KeyFixtures.only_user
    (IsAttempt KeyFixtures.alice_away) None.
Proof.
  split.
  - apply (proj1 (C4_cache_key_coalescing (H := Fixtures.plain)
             Fixtures.settings0
             KeyFixtures.alice_home KeyFixtures.bob_home None (Some []))).
    intros k Hin. vm_compute in Hin. destruct Hin as [<- | []]. reflexivity.
  - apply (proj2 (C4_cache_key_coalescing (H := Fixtures.plain)
             KeyFixtures.only_user
             KeyFixtures.alice_home KeyFixtures.alice_away None None));
      reflexivity.
Defined.

(** *** The key, as the specification words it *)

(** The selection of the specification's section 4.2, first match wins. *)
Definition select_tracking_fields (s : Settings) (a : AccessAttempt)
  : list (string * option pystr) :=
  if AXES_ONLY_USER_FAILURES s then
    [("username"%string, username a)]
  else if AXES_LOCK_OUT_BY_COMBINATION_USER_AND_IP s then
    [("username"%string, username a); ("ip_address"%string, ip_address a)]
      ++ (if AXES_USE_USER_AGENT s
          then [("user_agent"%string, user_agent a)] else [])
  else
    [("ip_address"%string, ip_address a)]
      ++ (if AXES_USE_USER_AGENT s
          then [("user_agent"%string, user_agent a)] else []).

(** The values that are present and not empty, in order. *)
Fixpoint nonempty_values (vs : list (option pystr)) : list pystr :=
  match vs with
  | [] => []
  | Some (c :: v) :: rest => (c :: v) :: nonempty_values rest
  | _ :: rest => nonempty_values rest
  end.

(** A hexadecimal digit in lower case: '0'..'9' then 'a'..'f'. *)
Definition hex_digit (d : Z) : N :=
  Z.to_N (if d <? 10 then 48 + d else 87 + d).

Definition is_lower_hex (ch : N) : Prop :=
  (48 <= ch <= 57)%N \/ (97 <= ch <= 102)%N.

(** Two digits per byte, the high one first. *)
Definition lowercase_hex (bytes : list Z) : pystr :=
  flat_map (fun b => [hex_digit (b / 16); hex_digit (b mod 16)]) bytes.

(** Section 4.3: the tag, then the hex rendering of the digest of the UTF-8
    form of the concatenated non-empty selected values. *)
Definition build_key (s : Settings) (a : AccessAttempt) : result pystr :=
  bytes <- encode
             (List.concat (nonempty_values (map snd (select_tracking_fields s a)))) ;;
  Ok (str "axes-" ++ lowercase_hex (MD5.digest bytes)).

Lemma join_empty_separator (l : list pystr) : join [] l = List.concat l.
Proof.
  induction l as [|x [|y l] IH]; simpl in *.
  - reflexivity.
  - now rewrite app_nil_r.
  - now rewrite IH.
Qed.

Lemma join_truthy_concat (vs : list (option pystr)) :
  join_truthy vs = List.concat (nonempty_values vs).
Proof.
  unfold join_truthy. rewrite join_empty_separator. f_equal.
  induction vs as [|v vs IH]; [reflexivity|].
  destruct v as [[|ch v]|]; simpl; rewrite IH; reflexivity.
Qed.

Lemma select_tracking_fields_parameters (s : Settings) (a : AccessAttempt) :
  attempt_parameters s a = select_tracking_fields s a.
Proof.
  unfold attempt_parameters, select_tracking_fields.
  rewrite get_client_parameters_cases.
  destruct (AXES_ONLY_USER_FAILURES s),
    (AXES_LOCK_OUT_BY_COMBINATION_USER_AND_IP s); reflexivity.
Qed.

(** *** The digest: 16 bytes, rendered as 32 lower-case hex digits *)

Lemma le_byte_range (x k : Z) : 0 <= Z.land (Z.shiftr x k) 0xFF < 256.
Proof.
  change 0xFF with (Z.ones 8). rewrite Z.land_ones by lia.
  apply Z.mod_pos_bound. reflexivity.
Qed.

Lemma le_bytes_range (n : nat) (x : Z) :
  Forall (fun b => 0 <= b < 256) (MD5.le_bytes n x).
Proof.
  unfold MD5.le_bytes. apply Forall_forall. intros b Hb.
  apply in_map_iff in Hb. destruct Hb as (i & <- & _). apply le_byte_range.
Qed.

Lemma digest_length (msg : list Z) : List.length (MD5.digest msg) = 16%nat.
Proof.
  unfold MD5.digest.
  destruct (MD5.blocks _ _ _) as [[[a b] c] d]. reflexivity.
Qed.

Lemma digest_range (msg : list Z) :
  Forall (fun b => 0 <= b < 256) (MD5.digest msg).
Proof.
  unfold MD5.digest.
  destruct (MD5.blocks _ _ _) as [[[a b] c] d].
  repeat (apply Forall_app; split); apply le_bytes_range.
Qed.

Lemma hexchars_nth (d : Z) :
  0 <= d < 16 -> nth (Z.to_nat d) MD5.hexchars 48%N = hex_digit d.
Proof.
  intros Hd.
  assert (E : d = 0 \/ d = 1 \/ d = 2 \/ d = 3 \/ d = 4 \/ d = 5 \/ d = 6
              \/ d = 7 \/ d = 8 \/ d = 9 \/ d = 10 \/ d = 11 \/ d = 12
              \/ d = 13 \/ d = 14 \/ d = 15) by lia.
  repeat (destruct E as [-> | E]; [reflexivity|]). now subst d.
Qed.

Lemma hex_byte_digits (b : Z) :
  0 <= b < 256 ->
  MD5.hex_byte b = [hex_digit (b / 16); hex_digit (b mod 16)].
Proof.
  intros Hb. unfold MD5.hex_byte.
  rewrite Z.shiftr_div_pow2 by lia.
  change 0xF with (Z.ones 4). rewrite Z.land_ones by lia.
  change (2 ^ 4) with 16.
  rewrite !hexchars_nth; [reflexivity | |].
  - apply Z.mod_pos_bound. reflexivity.
  - split; [apply Z.div_pos; lia | apply Z.div_lt_upper_bound; lia].
Qed.

Lemma hexdigest_lowercase_hex (msg : list Z) :
  MD5.hexdigest msg = lowercase_hex (MD5.digest msg).
Proof.
  unfold MD5.hexdigest, lowercase_hex.
  generalize (digest_range msg). generalize (MD5.digest msg).
  induction 1 as [|b l Hb _ IH]; cbn [flat_map]; [reflexivity|].
  now rewrite IH, hex_byte_digits.
Qed.

Lemma hex_digit_lower (d : Z) : 0 <= d < 16 -> is_lower_hex (hex_digit d).
Proof.
  intros Hd. unfold is_lower_hex, hex_digit.
  destruct (Z.ltb_spec d 10); lia.
Qed.

Lemma lowercase_hex_shape (bytes : list Z) :
  Forall (fun b => 0 <= b < 256) bytes ->
  List.length (lowercase_hex bytes) = (2 * List.length bytes)%nat /\
  Forall is_lower_hex (lowercase_hex bytes).
Proof.
  induction 1 as [|b l Hb _ [IHl IHf]]; simpl.
  - split; [reflexivity | constructor].
  - split; [lia|].
    constructor; [|constructor; [|exact IHf]]; apply hex_digit_lower.
    + split; [apply Z.div_pos; lia | apply Z.div_lt_upper_bound; lia].
    + apply Z.mod_pos_bound. reflexivity.
Qed.

(** C6. The cache key of an attempt is the tag ['axes-'] followed by the
    lower-case hexadecimal rendering of the MD5 digest of the UTF-8 encoding
    of the concatenation, without separator, of the non-empty selected
    values in insertion order (and the call raises when that string has no
    UTF-8 encoding). The digest has 16 bytes, that is 128 bits, so a key has
    5 + 32 characters, the last 32 of them lower-case hex digits. *)
Theorem C6_cache_key_construction `{Collaborators} (s : Settings)
    (a : AccessAttempt) (c : option Credentials) :
  get_client_cache_key s (IsAttempt a) c = build_key s a /\
  (forall bytes : list Z,
      List.length (MD5.digest bytes) = 16%nat /\
      Forall (fun b => 0 <= b < 256) (MD5.digest bytes)) /\
  (forall key : pystr,
      get_client_cache_key s (IsAttempt a) c = Ok key ->
      exists digits,
        key = str "axes-" ++ digits /\
        List.length digits = 32%nat /\
        Forall is_lower_hex digits).
Proof.
  assert (E : get_client_cache_key s (IsAttempt a) c = build_key s a).
  { rewrite cache_key_of_parameters. unfold build_key.
    rewrite select_tracking_fields_parameters.
    unfold dict_values. rewrite join_truthy_concat.
    destruct (encode _) as [bytes|e]; simpl; [|reflexivity].
    now rewrite hexdigest_lowercase_hex. }
  split; [exact E|]. split.
  - intros bytes. split; [apply digest_length | apply digest_range].
  - intros key. rewrite E. unfold build_key.
    destruct (encode _) as [bytes|e]; simpl; [|discriminate].
    intros [= <-]. exists (lowercase_hex (MD5.digest bytes)).
    destruct (lowercase_hex_shape _ (digest_range bytes)) as [Hl Hf].
    rewrite digest_length in Hl. now repeat split.
Qed.

Lemma C6_witness :
  get_client_cache_key (H := Fixtures.plain) Fixtures.settings0
    (IsAttempt KeyFixtures.alice_home) None =
  Ok (str "axes-0669df0f031fb83e345267a9679bbc6a") /\
  get_client_cache_key (H := Fixtures.plain)
    (Fixtures.with_tracking Fixtures.settings0 false true false)
    (IsAttempt KeyFixtures.alice_home) None =
  Ok (str "axes-fe9c977272ed84c4695c63d26abb179e").
Proof.
  split.
  - rewrite (proj1 (C6_cache_key_construction (H := Fixtures.plain)
                      Fixtures.settings0 KeyFixtures.alice_home None)).
    vm_compute. reflexivity.
  - rewrite (proj1 (C6_cache_key_construction (H := Fixtures.plain)
                      (Fixtures.with_tracking Fixtures.settings0 false true false)
                      KeyFixtures.alice_home None)).
    vm_compute. reflexivity.
Defined.

(** ** Cool-off duration *)

(** A whole-second [timedelta] has an integral [total_seconds()] that a
    binary64 float holds exactly. *)
Lemma total_seconds_exact (delta : timedelta) :
  timedelta_ok delta ->
  microseconds delta = 0 ->
  exists t, total_seconds delta = Some t /\ - 2 ^ 53 < t < 2 ^ 53.
Proof.
  intros (Hd & Hs & _) Hu. unfold total_seconds. rewrite Hu. simpl.
  eexists. split; [reflexivity|]. lia.
Qed.

(** A cool-off configured as a number of hours is such a duration. *)
Lemma get_cool_off_hours (s : Settings) (h : Z) (delta : timedelta) :
  AXES_COOLOFF_TIME s = CT_Hours h ->
  get_cool_off s = Ok (Some delta) ->
  timedelta_ok delta /\ microseconds delta = 0.
Proof.
  unfold get_cool_off, timedelta_of_hours. intros ->.
  destruct (_ && _) eqn:E; simpl; [|discriminate].
  intros [= <-]. apply andb_true_iff in E. destruct E as [E1 E2].
  apply Z.leb_le in E1, E2. unfold timedelta_ok. simpl.
  pose proof (Z.mod_pos_bound h 24 eq_refl). lia.
Qed.

(** A component of the duration: nothing when zero, else digits and letter. *)
Definition component (value : Z) (designator : string) : pystr :=
  if value =? 0 then [] else format_0f value ++ str designator.

Lemma time_str_components (h m s : Z) :
  join []
    (map (fun '(value, designator) => format_0f value ++ designator)
       (filter (fun '(value, _) => negb (value =? 0))
          [(h, str "H"); (m, str "M"); (s, str "S")])) =
  component h "H" ++ component m "M" ++ component s "S".
Proof.
  rewrite join_empty_separator. unfold component.
  cbn [filter].
  destruct (h =? 0), (m =? 0), (s =? 0);
    cbn [negb map List.concat app]; rewrite ?app_nil_r; reflexivity.
Qed.

Lemma component_empty (value : Z) (designator : string) :
  designator <> ""%string ->
  component value designator = [] <-> value = 0.
Proof.
  intros Hd. unfold component. destruct (Z.eqb_spec value 0) as [E|E].
  - tauto.
  - split; [|contradiction]. intros Happ.
    apply app_eq_nil in Happ. destruct Happ as [_ Hs].
    destruct designator; [contradiction | discriminate].
Qed.

Lemma divmod_unique (a b q r : Z) :
  0 <= r < b -> a = b * q + r -> a / b = q /\ a mod b = r.
Proof.
  intros Hr E. split; symmetry.
  - now apply (Z.div_unique_pos a b q r).
  - now apply (Z.mod_unique_pos a b q r).
Qed.

(** ** Username resolution *)

(** C9. When [AXES_USERNAME_CALLABLE] is set (true as a condition) and is
    neither a callable nor a string, [get_client_username] raises
    [TypeError], calling nothing. When it is not set, the call never raises:
    it returns the value found under [AXES_USERNAME_FORM_FIELD] in the
    credentials when these are given and not empty, else in [request.POST],
    and [None] when the field is missing there. *)
Theorem C9_username_resolution `{Collaborators} (s : Settings)
    (r : HttpRequest) (c : option Credentials) :
  (uc_truthy (AXES_USERNAME_CALLABLE s) = true ->
   (forall f, AXES_USERNAME_CALLABLE s <> UC_Callable f) ->
   (forall p, AXES_USERNAME_CALLABLE s <> UC_Str p) ->
   exists msg, get_client_username s r c = Raise (TypeError msg)) /\
  (uc_truthy (AXES_USERNAME_CALLABLE s) = false ->
   (exists u, get_client_username s r c = Ok u) /\
   (forall d,
       c = Some d -> d <> [] ->
       dict_get str_eqb d (AXES_USERNAME_FORM_FIELD s) = None ->
       get_client_username s r c = Ok None) /\
   (forall d v,
       c = Some d -> d <> [] ->
       dict_get str_eqb d (AXES_USERNAME_FORM_FIELD s) = Some v ->
       get_client_username s r c = Ok v) /\
   (c = None \/ c = Some [] ->
    get_client_username s r c =
      Ok (querydict_get (POST r) (AXES_USERNAME_FORM_FIELD s))) /\
   (c = None \/ c = Some [] ->
    dict_get str_eqb (POST r) (AXES_USERNAME_FORM_FIELD s) = None ->
    get_client_username s r c = Ok None)).
Proof.
  unfold get_client_username. split.
  - intros Ht Hf Hp. rewrite Ht.
    destruct (AXES_USERNAME_CALLABLE s) as [|f|p|b].
    + eexists; reflexivity.
    + now destruct (Hf f).
    + now destruct (Hp p).
    + eexists; reflexivity.
  - intros Ht. rewrite Ht. repeat split.
    + destruct c as [[|kv d]|]; eexists; reflexivity.
    + intros d -> Hd Hg. destruct d as [|kv d]; [contradiction|].
      now rewrite Hg.
    + intros d v -> Hd Hg. destruct d as [|kv d]; [contradiction|].
      now rewrite Hg.
    + now intros [-> | ->].
    + intros Hc Hg. unfold querydict_get. rewrite Hg.
      now destruct Hc as [-> | ->].
Qed.

Lemma C9_witness :
  (exists msg,
      get_client_username (H := Fixtures.plain)
        (Fixtures.with_username_callable Fixtures.settings0 (UC_Other true))
        (Fixtures.request_from None "POST") None = Raise (TypeError msg)) /\
  get_client_username (H := Fixtures.plain) Fixtures.settings0
    (Fixtures.request_from None "POST")
    (Some [(str "password", Some (str "hunter2"))]) = Ok None /\
  get_client_username (H := Fixtures.plain) Fixtures.settings0
    (Fixtures.request_from None "POST") None = Ok None.
Proof.
  split; [|split].
  - apply (proj1 (C9_username_resolution (H := Fixtures.plain)
             (Fixtures.with_username_callable Fixtures.settings0
                (UC_Other true))
             (Fixtures.request_from None "POST") None));
      [reflexivity | discriminate | discriminate].
  - destruct (proj2 (C9_username_resolution (H := Fixtures.plain)
                Fixtures.settings0 (Fixtures.request_from None "POST")
                (Some [(str "password", Some (str "hunter2"))])) eq_refl)
      as (_ & Hmiss & _).
    apply (Hmiss [(str "password", Some (str "hunter2"))]);
      [reflexivity | discriminate | reflexivity].
  - destruct (proj2 (C9_username_resolution (H := Fixtures.plain)
                Fixtures.settings0 (Fixtures.request_from None "POST")
                None) eq_refl)
      as (_ & _ & _ & _ & Hpost).
    apply Hpost; [left; reflexivity | reflexivity].
Defined.

(** ** Checks of the models on known values *)

(** The test suite of RFC 1321, one and two blocks. *)
Example md5_empty :
  MD5.hexdigest [] = str "d41d8cd98f00b204e9800998ecf8427e".
Proof. vm_compute. reflexivity. Qed.

Example md5_message_digest :
  (bytes <- encode (str "message digest") ;; Ok (MD5.hexdigest bytes)) =
  Ok (str "f96b697d7cb7938d525a2f31aaf161d0").
Proof. vm_compute. reflexivity. Qed.

Example md5_eighty_digits :
  (bytes <- encode (List.concat (repeat (str "1234567890") 8)) ;;
   Ok (MD5.hexdigest bytes)) =
  Ok (str "57edf4a22be3c955ac49da2e2107b67a").
Proof. vm_compute. reflexivity. Qed.

(** UTF-8 forms of one, two, three and four bytes, and a lone surrogate. *)
Example encode_jose :
  encode [106; 111; 115; 233]%N = Ok [106; 111; 115; 195; 169].
Proof. reflexivity. Qed.

Example encode_euro_clef :
  encode [0x20AC; 0x1D11E]%N = Ok [0xE2; 0x82; 0xAC; 0xF0; 0x9D; 0x84; 0x9E].
Proof. reflexivity. Qed.

Example encode_surrogate : encode [0xD800]%N = Raise UnicodeEncodeError.
Proof. reflexivity. Qed.

(** A key built from a request: username from the form, address from
    [REMOTE_ADDR], user agent from the headers. *)
Example cache_key_of_request :
  get_client_cache_key (H := Fixtures.plain)
    (Fixtures.with_tracking Fixtures.settings0 false true true)
    (IsHttpRequest {|
       axes_ip_address := Some Fixtures.ip1;
       method := Some (str "POST");
       POST := [(str "username", [str "bob"])];
       META := [(str "REMOTE_ADDR", Fixtures.ip1);
                (str "HTTP_USER_AGENT", str "Mozilla")]
     |}) None =
  Ok (str "axes-da8c9d9ac60128c45907285837363328").
Proof. vm_compute. reflexivity. Qed.

(** The scenario of the specification: tracking by address, a limit of 3. *)
Example end_to_end_scenario :
  let r := Fixtures.request_from (Some Fixtures.ip1) "POST" in
  is_allowed (H := Fixtures.counting 3) Fixtures.settings0 r None = Ok false /\
  is_allowed (H := Fixtures.counting 2) Fixtures.settings0 r None = Ok true.
Proof. split; reflexivity. Qed.

(** The base class has no count to give: past both lists the call raises. *)
Example base_handler_raises :
  exists msg,
    is_allowed (H := base_handler) Fixtures.settings0
      (Fixtures.request_from (Some Fixtures.ip1) "POST") None =
    Raise (NotImplementedError msg).
Proof. eexists. reflexivity. Qed.

(** * The remaining helpers of axes.helpers *)

(** ** More of Python *)

Module PyMore.

Section DictOps.
Context {K V : Type}.
Variable keqb : K -> K -> bool.

(** What [d.pop(k, None)] leaves of [d]. *)
Fixpoint dict_pop (d : dict K V) (k : K) : dict K V :=
  match d with
  | [] => []
  | (k', v) :: d' => if keqb k' k then d' else (k', v) :: dict_pop d' k
  end.

(** [d.update(other)]: the items of [other] are set one by one. *)
Definition dict_update (d other : dict K V) : dict K V :=
  fold_left (fun acc kv => dict_set keqb acc (fst kv) (snd kv)) other d.

End DictOps.

(** [s[:n]]: a negative [n] counts from the end. *)
Definition slice_to (n : Z) (s : pystr) : pystr :=
  if 0 <=? n then firstn (Z.to_nat n) s
  else firstn (Z.to_nat (Z.of_nat (List.length s) + n)) s.

(** The objects that reach an f-string in these helpers. *)
Inductive pyval :=
| VNone
| VStr (s : pystr)
| VEmptyList
| VEmptyTuple.

(** [f'{value}'] *)
Definition format_value (value : pyval) : pystr :=
  match value with
  | VNone => str "None"
  | VStr s => s
  | VEmptyList => str "[]"
  | VEmptyTuple => str "()"
  end.

Definition of_optional (v : option pystr) : pyval :=
  match v with
  | Some s => VStr s
  | None => VNone
  end.

Definition lbrace : N := 123.
Definition rbrace : N := 125.
Definition quote : pystr := [34%N].
Definition newline : pystr := [10%N].

Definition ValueError : exn := Exception "ValueError".

(** [template.format(...)] on a template without replacement field: a
    doubled brace gives one brace, a single closing brace or a final
    opening brace raises [ValueError]. An opening brace followed by another
    character starts a replacement field, which is outside this model:
    [None]. *)
Fixpoint format_literal (template : pystr) : option (result pystr) :=
  let emit c rest :=
    match rest with
    | Some (Ok out) => Some (Ok (c :: out))
    | other => other
    end in
  match template with
  | [] => Some (Ok [])
  | c :: rest =>
      if N.eqb c lbrace then
        match rest with
        | [] => Some (Raise ValueError)
        | c' :: rest' =>
            if N.eqb c' lbrace then emit lbrace (format_literal rest')
            else None
        end
      else if N.eqb c rbrace then
        match rest with
        | [] => Some (Raise ValueError)
        | c' :: rest' =>
            if N.eqb c' rbrace then emit rbrace (format_literal rest')
            else Some (Raise ValueError)
        end
      else emit c (format_literal rest)
  end.

End PyMore.
Import PyMore.

Module MoreHelpers.

(** The settings these helpers read besides those of [Settings]. *)
Record MoreSettings := {
  AXES_VERBOSE : bool;
  AXES_PASSWORD_FORM_FIELD : pystr;
  AXES_COOLOFF_MESSAGE : pystr;
  AXES_PERMALOCK_MESSAGE : pystr;
  AXES_LOCKOUT_TEMPLATE : option pystr;
  AXES_LOCKOUT_URL : option pystr
}.

(** *** get_cache_timeout

    [int(cool_off.total_seconds())]; [None] on the outside when the value
    is a float with a fraction, see [total_seconds]. *)
Definition get_cache_timeout (settings : Settings)
  : option (result (option Z)) :=
  match get_cool_off settings with
  | Raise e => Some (Raise e)
  | Ok None => Some (Ok None)
  | Ok (Some cool_off) =>
      match total_seconds cool_off with
      | Some t => Some (Ok (Some t))
      | None => None
      end
  end.

(** *** get_credentials

    The call [get_credentials(username, **kwargs)]. A keyword named
    [username] is the first parameter of the function and no item of
    [kwargs]: when [kwargs] holds that key besides the username given,
    Python refuses the call with [TypeError]. *)
Definition get_credentials (settings : Settings)
    (username : option pystr) (kwargs : Credentials) : result Credentials :=
  match dict_get str_eqb kwargs (str "username") with
  | Some _ =>
      Raise (TypeError
        "get_credentials() got multiple values for argument 'username'")
  | None =>
      let credentials := [(AXES_USERNAME_FORM_FIELD settings, username)] in
      Ok (dict_update str_eqb credentials kwargs)
  end.

(** *** get_client_path_info, get_client_http_accept *)
Definition get_client_path_info (request : HttpRequest) : pystr :=
  firstn 255 (meta_get request (str "PATH_INFO") (str "<unknown>")).

Definition get_client_http_accept (request : HttpRequest) : pystr :=
  firstn 1025 (meta_get request (str "HTTP_ACCEPT") (str "<unknown>")).

(** *** get_client_str *)

(** The [path_info] argument: [None], a string, a list or a tuple. *)
Inductive path_info_arg :=
| PathNone
| PathStr (s : pystr)
| PathList (items : list pystr)
| PathTuple (items : list pystr).

Definition client_str_item (kv : string * pyval) : pystr :=
  str (fst kv) ++ str ": " ++ quote ++ format_value (snd kv) ++ quote.

Definition get_client_str (settings : Settings) (more : MoreSettings)
    (username ip_address user_agent : option pystr)
    (path_info : path_info_arg) : option (result pystr) :=
  let client_dict : dict string pyval :=
    if AXES_VERBOSE more then
      let client_dict :=
        dict_set String.eqb [] "username"%string (of_optional username) in
      let client_dict :=
        dict_set String.eqb client_dict "ip_address"%string
          (of_optional ip_address) in
      dict_set String.eqb client_dict "user_agent"%string
        (of_optional user_agent)
    else
      map (fun kv => (fst kv, of_optional (snd kv)))
        (get_client_parameters settings username ip_address user_agent) in
  let path_info :=
    match path_info with
    | PathList (first :: _) | PathTuple (first :: _) => VStr first
    | PathList [] => VEmptyList
    | PathTuple [] => VEmptyTuple
    | PathStr s => VStr s
    | PathNone => VNone
    end in
  let client_dict :=
    dict_set String.eqb client_dict "path_info"%string path_info in
  let template := join (str ", ") (map client_str_item client_dict) in
  let template := str "{{" ++ template ++ str "}}" in
  format_literal template.

(** *** get_query_str *)

(** [QueryDict.items()]: each key with its last value, or [[]] when the
    key holds no value. *)
Definition querydict_items (q : QueryDict) : list (pystr * pyval) :=
  map (fun kv =>
         (fst kv,
          match snd kv with
          | [] => VEmptyList
          | v :: vs => VStr (last vs v)
          end)) q.

Definition query_str_item (kv : pystr * pyval) : pystr :=
  fst kv ++ str "=" ++ format_value (snd kv).

Definition get_query_str (more : MoreSettings) (query : QueryDict)
    (max_length : Z) : pystr :=
  let query_dict := query in
  let query_dict := dict_pop str_eqb query_dict (str "password") in
  let query_dict :=
    dict_pop str_eqb query_dict (AXES_PASSWORD_FORM_FIELD more) in
  let query_str :=
    join newline (map query_str_item (querydict_items query_dict)) in
  slice_to max_length query_str.

(** *** get_lockout_message *)

(** [bool(delta)]: false for [timedelta(0)] only. *)
Definition timedelta_truthy (delta : timedelta) : bool :=
  negb ((days delta =? 0) && (seconds delta =? 0) && (microseconds delta =? 0)).

Definition cooloff_truthy (c : cooloff_time) : bool :=
  match c with
  | CT_None => false
  | CT_Hours h => negb (h =? 0)
  | CT_Delta delta => timedelta_truthy delta
  end.

Definition get_lockout_message (settings : Settings) (more : MoreSettings)
  : pystr :=
  if cooloff_truthy (AXES_COOLOFF_TIME settings)
  then AXES_COOLOFF_MESSAGE more
  else AXES_PERMALOCK_MESSAGE more.

End MoreHelpers.
Import MoreHelpers.

(** * Further properties *)

(** ** The decision engine as a whole *)

(** X1. The verdict of [is_allowed], case by case: [False] exactly when the
    request is blacklisted, or is not whitelisted and is locked; [True]
    exactly when it is not blacklisted and is whitelisted or not locked; an
    exception exactly when it is on neither list and [is_locked] raises it. *)
Theorem X1_is_allowed_table `{AxesHandler}
    (s : Settings) (r : HttpRequest) (c : option Credentials) :
  (is_allowed s r c = Ok false <->
     is_blacklisted s r c = true \/
     (is_whitelisted s r c = false /\ is_locked s r c = Ok true)) /\
  (is_allowed s r c = Ok true <->
     is_blacklisted s r c = false /\
     (is_whitelisted s r c = true \/ is_locked s r c = Ok false)) /\
  (forall e,
     is_allowed s r c = Raise e <->
     is_blacklisted s r c = false /\ is_whitelisted s r c = false /\
     is_locked s r c = Raise e).
Proof.
  unfold is_allowed.
  destruct (is_blacklisted s r c), (is_whitelisted s r c),
    (is_locked s r c) as [[|]|e']; simpl;
    (split; [|split; [|intros e]]); split;
    try (intros [= ->]); try discriminate; intuition congruence.
Qed.

(** X2. The failure count is asked for only past both lists and with
    [AXES_LOCK_OUT_AT_FAILURE] on: for a request that is blacklisted or
    whitelisted, or with the flag off, any two handlers give the same
    verdict, whatever their [get_failures] returns or raises. *)
Theorem X2_failures_not_consulted (H1 H2 : AxesHandler)
    (s : Settings) (r : HttpRequest) (c : option Credentials) :
  is_blacklisted s r c = true \/
  is_whitelisted s r c = true \/
  AXES_LOCK_OUT_AT_FAILURE s = false ->
  is_allowed (H := H1) s r c = is_allowed (H := H2) s r c.
Proof.
  unfold is_allowed, is_locked. intros [E | [E | E]]; rewrite E.
  - reflexivity.
  - now destruct (is_blacklisted s r c).
  - reflexivity.
Qed.

Lemma X2_witness :
  let s := Fixtures.with_lists Fixtures.settings0 false true false
             (Some [Fixtures.ip1]) None in
  let r := Fixtures.request_from (Some Fixtures.ip1) "POST" in
  is_allowed (H := Fixtures.counting 1000) s r None =
  is_allowed (H := base_handler) s r None.
Proof.
  apply (X2_failures_not_consulted (Fixtures.counting 1000) base_handler).
  right. left. reflexivity.
Defined.

(** X3. With the base class, whose [get_failures] is not implemented,
    [is_allowed] raises [NotImplementedError] exactly for a request on
    neither list while [AXES_LOCK_OUT_AT_FAILURE] is on; in every other case
    it returns a verdict. *)
Theorem X3_base_handler_raises
    (s : Settings) (r : HttpRequest) (c : option Credentials) :
  ((exists msg,
       is_allowed (H := base_handler) s r c = Raise (NotImplementedError msg))
   <->
   is_blacklisted s r c = false /\ is_whitelisted s r c = false /\
   AXES_LOCK_OUT_AT_FAILURE s = true) /\
  ((exists b, is_allowed (H := base_handler) s r c = Ok b) <->
   is_blacklisted s r c = true \/ is_whitelisted s r c = true \/
   AXES_LOCK_OUT_AT_FAILURE s = false).
Proof.
  unfold is_allowed, is_locked.
  destruct (is_blacklisted s r c), (is_whitelisted s r c),
    (AXES_LOCK_OUT_AT_FAILURE s); simpl; split; split;
    try (intros [x Hx]; discriminate Hx);
    try (intros; eexists; reflexivity);
    intuition congruence.
Qed.

(** X4. Under [AXES_ONLY_WHITELIST] the verdict is a function of the two
    lists alone: a request is allowed exactly when its address is in the
    whitelist and not in the blacklist. Failure counts, the GET bypass and
    [AXES_LOCK_OUT_AT_FAILURE] play no part. *)
Theorem X4_only_whitelist_verdict `{AxesHandler}
    (s : Settings) (r : HttpRequest) (c : option Credentials) :
  AXES_ONLY_WHITELIST s = true ->
  is_allowed s r c =
    Ok (is_ip_address_in_whitelist s (axes_ip_address r)
        && negb (is_ip_address_in_blacklist s (axes_ip_address r))).
Proof.
  intros Ho.
  unfold is_allowed, is_blacklisted, is_whitelisted,
    is_client_ip_address_blacklisted, is_client_ip_address_whitelisted.
  rewrite Ho.
  destruct (is_ip_address_in_blacklist s (axes_ip_address r)),
    (is_ip_address_in_whitelist s (axes_ip_address r)),
    (AXES_NEVER_LOCKOUT_WHITELIST s); reflexivity.
Qed.

Lemma X4_witness :
  let s := Fixtures.with_lists Fixtures.settings0 true false false
             (Some [Fixtures.ip1]) None in
  is_allowed (H := Fixtures.counting 1000) s
    (Fixtures.request_from (Some Fixtures.ip1) "POST") None = Ok true /\
  is_allowed (H := Fixtures.counting 0) s
    (Fixtures.request_from (Some Fixtures.ip2) "GET") None = Ok false.
Proof.
  split.
  - rewrite (X4_only_whitelist_verdict (H := Fixtures.counting 1000));
      reflexivity.
  - rewrite (X4_only_whitelist_verdict (H := Fixtures.counting 0));
      reflexivity.
Defined.

(** X5. More failures never unlock: if a count [n] locks a request, every
    count [m >= n] locks it too; and a limit of zero or less locks every
    request whose count is not negative. *)
Theorem X5_lock_monotone (H1 H2 : AxesHandler)
    (s : Settings) (r : HttpRequest) (c : option Credentials) (n m : Z) :
  get_failures (AxesHandler := H1) r c = Ok n ->
  get_failures (AxesHandler := H2) r c = Ok m ->
  AXES_LOCK_OUT_AT_FAILURE s = true ->
  (n <= m ->
   is_locked (H := H1) s r c = Ok true ->
   is_locked (H := H2) s r c = Ok true) /\
  (AXES_FAILURE_LIMIT s <= 0 -> 0 <= n ->
   is_locked (H := H1) s r c = Ok true).
Proof.
  intros E1 E2 Hl. unfold is_locked. rewrite Hl, E1, E2. simpl. split.
  - intros Hnm [= E]. apply Z.leb_le in E. f_equal. apply Z.leb_le. lia.
  - intros Hlim Hn. f_equal. apply Z.leb_le. lia.
Qed.

Lemma X5_witness :
  let r := Fixtures.request_from (Some Fixtures.ip1) "POST" in
  is_locked (H := Fixtures.counting 7) Fixtures.settings0 r None = Ok true /\
  is_locked (H := Fixtures.counting 0)
    (Fixtures.with_limit Fixtures.settings0 true 0) r None = Ok true.
Proof.
  intros r. split.
  - apply (proj1 (X5_lock_monotone (Fixtures.counting 3) (Fixtures.counting 7)
                    Fixtures.settings0 r None 3 7
                    eq_refl eq_refl eq_refl)); [lia | reflexivity].
  - apply (proj2 (X5_lock_monotone (Fixtures.counting 0) (Fixtures.counting 0)
                    (Fixtures.with_limit Fixtures.settings0 true 0) r None 0 0
                    eq_refl eq_refl eq_refl)); simpl; lia.
Defined.

(** X6. A request without a client address is on no list: it is never
    whitelisted by address, and it is blacklisted exactly when
    [AXES_ONLY_WHITELIST] is on. *)
Theorem X6_request_without_address (s : Settings) (r : HttpRequest) :
  axes_ip_address r = None ->
  is_client_ip_address_whitelisted s r = false /\
  is_client_ip_address_blacklisted s r = AXES_ONLY_WHITELIST s.
Proof.
  intros E.
  unfold is_client_ip_address_whitelisted, is_client_ip_address_blacklisted,
    is_ip_address_in_whitelist, is_ip_address_in_blacklist.
  rewrite E.
  destruct (AXES_IP_WHITELIST s) as [[|w ws]|],
    (AXES_IP_BLACKLIST s) as [[|b bs]|],
    (AXES_NEVER_LOCKOUT_WHITELIST s), (AXES_ONLY_WHITELIST s);
    split; reflexivity.
Qed.

Lemma X6_witness :
  let s := Fixtures.with_lists Fixtures.settings0 true true true
             (Some [Fixtures.ip1]) (Some [Fixtures.ip2]) in
  let r := Fixtures.request_from None "GET" in
  is_client_ip_address_whitelisted s r = false /\
  is_client_ip_address_blacklisted s r = true.
Proof.
  apply (X6_request_without_address
           (Fixtures.with_lists Fixtures.settings0 true true true
              (Some [Fixtures.ip1]) (Some [Fixtures.ip2]))
           (Fixtures.request_from None "GET")).
  reflexivity.
Defined.

(** ** More on the cache key *)

(** A code point that has a UTF-8 form. *)
Definition encodable (ch : N) : Prop :=
  ((ch < 0xD800)%N \/ (0xDFFF < ch)%N) /\ (ch < 0x110000)%N.

Lemma utf8_char_cases (ch : N) :
  (encodable ch /\ exists bs, utf8_char ch = Ok bs) \/
  (~ encodable ch /\ utf8_char ch = Raise UnicodeEncodeError).
Proof.
  unfold utf8_char, encodable.
  destruct (Z.ltb_spec (Z.of_N ch) 0x80);
    [left; split; [lia | eexists; reflexivity]|].
  destruct (Z.ltb_spec (Z.of_N ch) 0x800);
    [left; split; [lia | eexists; reflexivity]|].
  destruct (Z.leb_spec 0xD800 (Z.of_N ch));
    destruct (Z.leb_spec (Z.of_N ch) 0xDFFF); simpl;
    try (right; split; [lia | reflexivity]);
    (destruct (Z.ltb_spec (Z.of_N ch) 0x10000);
     [left; split; [lia | eexists; reflexivity]|]);
    (destruct (Z.ltb_spec (Z.of_N ch) 0x110000);
     [left; split; [lia | eexists; reflexivity]
     |right; split; [lia | reflexivity]]).
Qed.

Lemma encode_cases (s : pystr) :
  (Forall encodable s /\ exists bs, encode s = Ok bs) \/
  (~ Forall encodable s /\ encode s = Raise UnicodeEncodeError).
Proof.
  induction s as [|ch s IH]; simpl.
  - left. split; [constructor | eexists; reflexivity].
  - destruct (utf8_char_cases ch) as [(Hc & bs & ->) | (Hc & ->)]; simpl.
    + destruct IH as [(Hs & rest & ->) | (Hs & ->)]; simpl.
      * left. split; [now constructor | eexists; reflexivity].
      * right. split; [|reflexivity]. intros Hf. inversion Hf. contradiction.
    + right. split; [|reflexivity]. intros Hf. inversion Hf. contradiction.
Qed.

(** X7. The key of a request is the key of the attempt that records its
    resolved username, the address ipware reports and its user agent cut to
    255 characters; when the username cannot be resolved the exception
    comes out of the key computation, also in the modes where the username
    is no part of the key. *)
Theorem X7_cache_key_of_request `{Collaborators}
    (s : Settings) (r : HttpRequest) (c : option Credentials) :
  get_client_cache_key s (IsHttpRequest r) c =
    (u <- get_client_username s r c ;;
     get_client_cache_key s
       (IsAttempt {| username := u;
                     ip_address := get_client_ip_address s r;
                     user_agent := Some (get_client_user_agent r) |}) c) /\
  (forall e,
     get_client_username s r c = Raise e ->
     get_client_cache_key s (IsHttpRequest r) c = Raise e) /\
  (forall p,
     AXES_USERNAME_CALLABLE s = UC_Other true ->
     exists msg,
       get_client_cache_key s (IsHttpRequest r) p = Raise (TypeError msg)).
Proof.
  split; [|split].
  - unfold get_client_cache_key.
    destruct (get_client_username s r c); reflexivity.
  - intros e E. unfold get_client_cache_key. now rewrite E.
  - intros p E. unfold get_client_cache_key, get_client_username.
    rewrite E. simpl. eexists. reflexivity.
Qed.

Lemma X7_witness :
  exists msg,
    get_client_cache_key (H := Fixtures.plain)
      (Fixtures.with_username_callable Fixtures.settings0 (UC_Other true))
      (IsHttpRequest (Fixtures.request_from (Some Fixtures.ip1) "POST")) None
    = Raise (TypeError msg).
Proof.
  destruct (X7_cache_key_of_request (H := Fixtures.plain)
              (Fixtures.with_username_callable Fixtures.settings0
                 (UC_Other true))
              (Fixtures.request_from (Some Fixtures.ip1) "POST") None)
    as (_ & _ & Hraise).
  apply (Hraise None). reflexivity.
Defined.

(** X8. The key of an attempt can fail in one way only: it is computed when
    every character of the concatenated selected values has a UTF-8 form,
    and raises [UnicodeEncodeError] otherwise (a lone surrogate). *)
Theorem X8_cache_key_total_on_encodable `{Collaborators}
    (s : Settings) (a : AccessAttempt) (c : option Credentials) :
  let components := join_truthy (dict_values (attempt_parameters s a)) in
  (Forall encodable components <->
   exists key, get_client_cache_key s (IsAttempt a) c = Ok key) /\
  (~ Forall encodable components <->
   get_client_cache_key s (IsAttempt a) c = Raise UnicodeEncodeError) /\
  (forall e,
     get_client_cache_key s (IsAttempt a) c = Raise e ->
     e = UnicodeEncodeError).
Proof.
  intros components. rewrite cache_key_of_parameters. fold components.
  destruct (encode_cases components) as [(Hs & bs & ->) | (Hs & ->)]; simpl.
  - split; [|split].
    + split; [intros _; eexists; reflexivity | intros _; exact Hs].
    + split; [contradiction | discriminate].
    + discriminate.
  - split; [|split].
    + split; [contradiction | intros [key Hk]; discriminate Hk].
    + split; [reflexivity | intros _; exact Hs].
    + now intros e [= <-].
Qed.

Lemma join_truthy_pair (u i : pystr) :
  join_truthy [Some u; Some i] = u ++ i.
Proof.
  rewrite join_truthy_concat.
  destruct u as [|x u], i as [|y i]; simpl; rewrite ?app_nil_r; reflexivity.
Qed.

(** X9. The values are concatenated without a separator, so the key does
    not tell where one value ends: when tracking by username and address
    (no user agent), two attempts whose username followed by address spell
    the same string get the same key, for instance [user1] at [1.2.3.4]
    and [user] at [11.2.3.4]. *)
Theorem X9_cache_key_collision `{Collaborators} (s : Settings)
    (u1 i1 u2 i2 : pystr) (g1 g2 : option pystr)
    (c1 c2 : option Credentials) :
  AXES_ONLY_USER_FAILURES s = false ->
  AXES_LOCK_OUT_BY_COMBINATION_USER_AND_IP s = true ->
  AXES_USE_USER_AGENT s = false ->
  u1 ++ i1 = u2 ++ i2 ->
  get_client_cache_key s
    (IsAttempt {| username := Some u1; ip_address := Some i1;
                  user_agent := g1 |}) c1 =
  get_client_cache_key s
    (IsAttempt {| username := Some u2; ip_address := Some i2;
                  user_agent := g2 |}) c2.
Proof.
  intros Ho Hc Ha E. rewrite !cache_key_of_parameters.
  unfold attempt_parameters. rewrite !get_client_parameters_cases.
  rewrite Ho, Hc, Ha. cbn [app dict_values map snd username ip_address].
  now rewrite !join_truthy_pair, E.
Qed.

Lemma X9_witness :
  let s := Fixtures.with_tracking Fixtures.settings0 false true false in
  get_client_cache_key (H := Fixtures.plain) s
    (IsAttempt {| username := Some (str "user1");
                  ip_address := Some (str "1.2.3.4");
                  user_agent := None |}) None =
  get_client_cache_key (H := Fixtures.plain) s
    (IsAttempt {| username := Some (str "user");
                  ip_address := Some (str "11.2.3.4");
                  user_agent := None |}) None.
Proof.
  apply (X9_cache_key_collision (H := Fixtures.plain)
           (Fixtures.with_tracking Fixtures.settings0 false true false)
           (str "user1") (str "1.2.3.4") (str "user") (str "11.2.3.4"));
    reflexivity.
Defined.

Lemma join_truthy_all_falsy (vs : list (option pystr)) :
  (forall v, In v vs -> truthy v = false) -> join_truthy vs = [].
Proof.
  intros Hv. rewrite join_truthy_concat.
  induction vs as [|v vs IH]; [reflexivity|].
  assert (Ev : truthy v = false) by (apply Hv; now left).
  assert (Er : List.concat (nonempty_values vs) = [])
    by (apply IH; intros w Hw; apply Hv; now right).
  destruct v as [[|ch v]|]; simpl in *; try exact Er. discriminate Ev.
Qed.

(** X10. When every selected value is [None] or empty the key is that of
    the empty string, [axes-d41d8cd98f00b204e9800998ecf8427e]: all such
    attempts, for instance all attempts without a username when tracking
    by username only, share one key. *)
Theorem X10_cache_key_of_nothing `{Collaborators}
    (s : Settings) (a : AccessAttempt) (c : option Credentials) :
  (forall v, In v (dict_values (attempt_parameters s a)) ->
             truthy v = false) ->
  get_client_cache_key s (IsAttempt a) c =
    Ok (str "axes-d41d8cd98f00b204e9800998ecf8427e").
Proof.
  intros Hv. rewrite cache_key_of_parameters.
  rewrite (join_truthy_all_falsy _ Hv). vm_compute. reflexivity.
Qed.

Lemma X10_witness :
  get_client_cache_key (H := Fixtures.plain) KeyFixtures.only_user
    (IsAttempt {| username := None; ip_address := Some Fixtures.ip1;
                  user_agent := Some (str "Mozilla") |}) None =
  Ok (str "axes-d41d8cd98f00b204e9800998ecf8427e").
Proof.
  apply (X10_cache_key_of_nothing (H := Fixtures.plain)).
  intros v [<- | []]. reflexivity.
Defined.

(** ** Dictionaries *)

Section DictFacts.
Context {K V : Type}.
Variable keqb : K -> K -> bool.
Hypothesis keqb_eq : forall a b, keqb a b = true <-> a = b.

Lemma keqb_refl (k : K) : keqb k k = true.
Proof. now apply keqb_eq. Qed.

Lemma keqb_neq (a b : K) : a <> b -> keqb a b = false.
Proof.
  intros Hn. destruct (keqb a b) eqn:E; [|reflexivity].
  apply keqb_eq in E. contradiction.
Qed.

Lemma dict_get_set_same (d : dict K V) (k : K) (v : V) :
  dict_get keqb (dict_set keqb d k v) k = Some v.
Proof.
  induction d as [|[k' v'] d IH]; simpl.
  - now rewrite keqb_refl.
  - destruct (keqb k' k) eqn:E; simpl; rewrite E; [reflexivity | exact IH].
Qed.

Lemma dict_get_set_other (d : dict K V) (k k' : K) (v : V) :
  k <> k' ->
  dict_get keqb (dict_set keqb d k v) k' = dict_get keqb d k'.
Proof.
  intros Hn. induction d as [|[k0 v0] d IH]; simpl.
  - now rewrite keqb_neq.
  - destruct (keqb k0 k) eqn:E; simpl.
    + apply keqb_eq in E. subst k0. now rewrite keqb_neq.
    + now rewrite IH.
Qed.

Lemma dict_get_absent (d : dict K V) (k : K) :
  ~ In k (dict_keys d) -> dict_get keqb d k = None.
Proof.
  induction d as [|[k' v'] d IH]; simpl; [reflexivity|].
  intros Hn. rewrite keqb_neq by tauto. apply IH. tauto.
Qed.

Lemma dict_get_update_absent (other d : dict K V) (k : K) :
  dict_get keqb other k = None ->
  dict_get keqb (dict_update keqb d other) k = dict_get keqb d k.
Proof.
  unfold dict_update. revert d.
  induction other as [|[k' v'] other IH]; intros d; simpl; [reflexivity|].
  destruct (keqb k' k) eqn:E; [discriminate|]. intros Hg.
  rewrite IH by exact Hg. apply dict_get_set_other.
  intros ->. now rewrite keqb_refl in E.
Qed.

Lemma dict_get_update_present (other d : dict K V) (k : K) (v : V) :
  NoDup (dict_keys other) ->
  dict_get keqb other k = Some v ->
  dict_get keqb (dict_update keqb d other) k = Some v.
Proof.
  unfold dict_update. revert d.
  induction other as [|[k' v'] other IH]; intros d Hnd; simpl; [discriminate|].
  inversion Hnd as [|? ? Hnotin Hnd']; subst.
  destruct (keqb k' k) eqn:E.
  - intros [= ->]. apply keqb_eq in E. subst k'.
    change (dict_get keqb (dict_update keqb (dict_set keqb d k v) other) k
            = Some v).
    rewrite dict_get_update_absent by now apply dict_get_absent.
    apply dict_get_set_same.
  - intros Hg. now apply IH.
Qed.

Lemma dict_set_nonempty (d : dict K V) (k : K) (v : V) :
  dict_set keqb d k v <> [].
Proof. destruct d as [|[k' v'] d]; simpl; [|destruct (keqb k' k)]; discriminate. Qed.

Lemma dict_update_nonempty (other d : dict K V) :
  d <> [] -> dict_update keqb d other <> [].
Proof.
  unfold dict_update. revert d.
  induction other as [|[k' v'] other IH]; intros d Hd; simpl; [exact Hd|].
  apply IH. apply dict_set_nonempty.
Qed.

(** Popping a key undoes setting it. *)
Lemma dict_pop_set_same (d : dict K V) (k : K) (v : V) :
  dict_pop keqb (dict_set keqb d k v) k = dict_pop keqb d k.
Proof.
  induction d as [|[k' v'] d IH]; simpl.
  - now rewrite keqb_refl.
  - destruct (keqb k' k) eqn:E; simpl; rewrite E; [reflexivity|].
    now rewrite IH.
Qed.

Lemma dict_pop_set_other (d : dict K V) (k k' : K) (v : V) :
  k <> k' ->
  dict_pop keqb (dict_set keqb d k v) k' =
  dict_set keqb (dict_pop keqb d k') k v.
Proof.
  intros Hn. induction d as [|[k0 v0] d IH]; simpl.
  - now rewrite keqb_neq.
  - destruct (keqb k0 k) eqn:E; simpl.
    + assert (E' : keqb k0 k' = false).
      { apply keqb_neq. apply keqb_eq in E. now subst k0. }
      rewrite E'. simpl. now rewrite E.
    + destruct (keqb k0 k') eqn:E'; simpl; [reflexivity|].
      now rewrite E, IH.
Qed.

(** With distinct keys, popping is filtering. *)
Lemma dict_pop_filter (d : dict K V) (k : K) :
  NoDup (dict_keys d) ->
  dict_pop keqb d k = filter (fun kv => negb (keqb (fst kv) k)) d.
Proof.
  induction d as [|[k' v'] d IH]; simpl; [reflexivity|].
  intros Hnd. inversion Hnd as [|? ? Hnotin Hnd']; subst.
  destruct (keqb k' k) eqn:E; simpl.
  - apply keqb_eq in E. subst k'. symmetry.
    apply forallb_filter_id. apply forallb_forall. intros [k0 v0] Hin.
    simpl. rewrite keqb_neq; [reflexivity|].
    intros ->. apply Hnotin. now apply (in_map fst) in Hin.
  - now rewrite IH.
Qed.

End DictFacts.

(** ** Credentials *)

(** X11. [get_credentials] and [get_client_username] round trip. A
    [kwargs] with the key [username] cannot be passed: the call raises
    [TypeError]. Otherwise, with no username callable set, the username
    read back from the credentials is the one put in, unless [kwargs]
    holds the configured username field (then another name than
    [username]), whose value wins; [request.POST] is not looked at. *)
Theorem X11_credentials_round_trip `{Collaborators}
    (s : Settings) (r : HttpRequest) (u : option pystr)
    (kwargs : Credentials) :
  uc_truthy (AXES_USERNAME_CALLABLE s) = false ->
  NoDup (dict_keys kwargs) ->
  (forall v,
      dict_get str_eqb kwargs (str "username") = Some v ->
      exists msg, get_credentials s u kwargs = Raise (TypeError msg)) /\
  (dict_get str_eqb kwargs (str "username") = None ->
   exists credentials,
     get_credentials s u kwargs = Ok credentials /\
     get_client_username s r (Some credentials) =
       Ok (match dict_get str_eqb kwargs (AXES_USERNAME_FORM_FIELD s) with
           | Some v => v
           | None => u
           end)).
Proof.
  intros Ht Hnd. unfold get_credentials. split.
  - intros v E. rewrite E. eexists. reflexivity.
  - intros E. rewrite E. eexists. split; [reflexivity|].
    unfold get_client_username. rewrite Ht.
    set (field := AXES_USERNAME_FORM_FIELD s).
    assert (Hne : dict_update str_eqb [(field, u)] kwargs <> [])
      by (apply dict_update_nonempty; discriminate).
    destruct (dict_get str_eqb kwargs field) as [v|] eqn:Ef.
    + pose proof (dict_get_update_present str_eqb str_eqb_eq kwargs
                    [(field, u)] field v Hnd Ef) as Hg.
      destruct (dict_update str_eqb [(field, u)] kwargs); [contradiction|].
      now rewrite Hg.
    + pose proof (dict_get_update_absent str_eqb str_eqb_eq kwargs
                    [(field, u)] field Ef) as Hg.
      destruct (dict_update str_eqb [(field, u)] kwargs); [contradiction|].
      rewrite Hg. simpl.
      assert (Er : str_eqb field field = true) by now apply str_eqb_eq.
      now rewrite Er.
Qed.

Definition with_username_field (s : Settings) (field : pystr) : Settings := {|
  AXES_ONLY_USER_FAILURES := AXES_ONLY_USER_FAILURES s;
  AXES_LOCK_OUT_BY_COMBINATION_USER_AND_IP :=
    AXES_LOCK_OUT_BY_COMBINATION_USER_AND_IP s;
  AXES_USE_USER_AGENT := AXES_USE_USER_AGENT s;
  AXES_ONLY_WHITELIST := AXES_ONLY_WHITELIST s;
  AXES_NEVER_LOCKOUT_WHITELIST := AXES_NEVER_LOCKOUT_WHITELIST s;
  AXES_NEVER_LOCKOUT_GET := AXES_NEVER_LOCKOUT_GET s;
  AXES_IP_WHITELIST := AXES_IP_WHITELIST s;
  AXES_IP_BLACKLIST := AXES_IP_BLACKLIST s;
  AXES_LOCK_OUT_AT_FAILURE := AXES_LOCK_OUT_AT_FAILURE s;
  AXES_FAILURE_LIMIT := AXES_FAILURE_LIMIT s;
  AXES_COOLOFF_TIME := AXES_COOLOFF_TIME s;
  AXES_USERNAME_CALLABLE := AXES_USERNAME_CALLABLE s;
  AXES_USERNAME_FORM_FIELD := field;
  AXES_PROXY_ORDER := AXES_PROXY_ORDER s;
  AXES_PROXY_COUNT := AXES_PROXY_COUNT s;
  AXES_PROXY_TRUSTED_IPS := AXES_PROXY_TRUSTED_IPS s;
  AXES_META_PRECEDENCE_ORDER := AXES_META_PRECEDENCE_ORDER s
|}.

Lemma X11_witness :
  let by_email := with_username_field Fixtures.settings0 (str "email") in
  let r := Fixtures.request_from None "POST" in
  (exists credentials,
      get_credentials Fixtures.settings0 (Some (str "alice"))
        [(str "password", Some (str "hunter2"))] = Ok credentials /\
      get_client_username (H := Fixtures.plain) Fixtures.settings0 r
        (Some credentials) = Ok (Some (str "alice"))) /\
  (exists credentials,
      get_credentials by_email (Some (str "alice"))
        [(str "email", Some (str "bob@example.org"))] = Ok credentials /\
      get_client_username (H := Fixtures.plain) by_email r
        (Some credentials) = Ok (Some (str "bob@example.org"))) /\
  (exists msg,
      get_credentials Fixtures.settings0 (Some (str "alice"))
        [(str "username", Some (str "bob"))] = Raise (TypeError msg)).
Proof.
  intros by_email r.
  assert (Hnd : forall (k : pystr) (v : option pystr),
            NoDup (dict_keys [(k, v)])).
  { intros k v. repeat constructor. simpl. tauto. }
  split; [|split].
  - apply (proj2 (X11_credentials_round_trip (H := Fixtures.plain)
                    Fixtures.settings0 r (Some (str "alice"))
                    [(str "password", Some (str "hunter2"))]
                    eq_refl (Hnd _ _))).
    reflexivity.
  - apply (proj2 (X11_credentials_round_trip (H := Fixtures.plain)
                    by_email r (Some (str "alice"))
                    [(str "email", Some (str "bob@example.org"))]
                    eq_refl (Hnd _ _))).
    reflexivity.
  - apply (proj1 (X11_credentials_round_trip (H := Fixtures.plain)
                    Fixtures.settings0 r (Some (str "alice"))
                    [(str "username", Some (str "bob"))]
                    eq_refl (Hnd _ _)) (Some (str "bob"))).
    reflexivity.
Defined.

(** ** Request headers *)

Lemma firstn_short {A} (n : nat) (l : list A) :
  (List.length l <= n)%nat -> firstn n l = l.
Proof. apply firstn_all2. Qed.

(** X12. The user agent and the path are cut to 255 characters and the
    accept header to 1025: the result is never longer, it is the header
    itself when that is short enough, and ['<unknown>'] when the header is
    missing. *)
Theorem X12_header_truncation (r : HttpRequest) :
  ((List.length (get_client_user_agent r) <= 255)%nat /\
   (List.length (get_client_path_info r) <= 255)%nat /\
   (List.length (get_client_http_accept r) <= 1025)%nat) /\
  (forall v,
     dict_get str_eqb (META r) (str "HTTP_USER_AGENT") = Some v ->
     get_client_user_agent r = firstn 255 v /\
     ((List.length v <= 255)%nat -> get_client_user_agent r = v)) /\
  (forall v,
     dict_get str_eqb (META r) (str "PATH_INFO") = Some v ->
     get_client_path_info r = firstn 255 v /\
     ((List.length v <= 255)%nat -> get_client_path_info r = v)) /\
  (forall v,
     dict_get str_eqb (META r) (str "HTTP_ACCEPT") = Some v ->
     get_client_http_accept r = firstn 1025 v /\
     ((List.length v <= 1025)%nat -> get_client_http_accept r = v)) /\
  (dict_get str_eqb (META r) (str "HTTP_USER_AGENT") = None ->
   get_client_user_agent r = str "<unknown>") /\
  (dict_get str_eqb (META r) (str "PATH_INFO") = None ->
   get_client_path_info r = str "<unknown>") /\
  (dict_get str_eqb (META r) (str "HTTP_ACCEPT") = None ->
   get_client_http_accept r = str "<unknown>").
Proof.
  unfold get_client_user_agent, get_client_path_info, get_client_http_accept,
    meta_get.
  split; [repeat split; apply firstn_le_length|].
  split; [|split; [|split; [|split; [|split]]]];
    try (intros v E; rewrite E; split;
         [reflexivity | intros Hl; now apply firstn_short]);
    intros E; rewrite E; reflexivity.
Qed.

Lemma X12_witness :
  let r := {| axes_ip_address := None; method := None; POST := [];
              META := [(str "HTTP_USER_AGENT", repeat 65%N 300);
                       (str "PATH_INFO", str "/login/")] |} in
  get_client_user_agent r = repeat 65%N 255 /\
  get_client_path_info r = str "/login/" /\
  get_client_http_accept r = str "<unknown>".
Proof.
  intros r.
  destruct (X12_header_truncation r) as (_ & Hua & Hpath & _ & _ & _ & Hacc).
  split; [|split].
  - rewrite (proj1 (Hua (repeat 65%N 300) eq_refl)). reflexivity.
  - apply (proj2 (Hpath (str "/login/") eq_refl)). simpl. lia.
  - apply Hacc. reflexivity.
Defined.

(** ** Cool-off: configured hours, cache timeout, rendering *)

(** The hours that fit in a [timedelta]. *)
Definition hours_in_range (h : Z) : Prop :=
  -23999999976 <= h <= 23999999999.

Lemma hours_in_range_days (h : Z) :
  hours_in_range h <->
  (-999999999 <=? h / 24) && (h / 24 <=? 999999999) = true.
Proof.
  unfold hours_in_range.
  rewrite andb_true_iff, !Z.leb_le.
  pose proof (Z.div_mod h 24 ltac:(lia)) as Hd.
  pose proof (Z.mod_pos_bound h 24 eq_refl) as Hm.
  lia.
Qed.

(** X13. A cool-off configured as [h] hours is the duration of exactly
    [3600 * h] whole seconds, in normal form; an [h] whose days do not fit
    the type raises [OverflowError]; no cool-off gives [None] and a
    configured duration is returned as it is. *)
Theorem X13_get_cool_off (s : Settings) :
  (forall h,
     AXES_COOLOFF_TIME s = CT_Hours h -> hours_in_range h ->
     exists delta,
       get_cool_off s = Ok (Some delta) /\
       timedelta_ok delta /\
       total_seconds delta = Some (3600 * h)) /\
  (forall h,
     AXES_COOLOFF_TIME s = CT_Hours h -> ~ hours_in_range h ->
     get_cool_off s = Raise (Exception "OverflowError")) /\
  (AXES_COOLOFF_TIME s = CT_None -> get_cool_off s = Ok None) /\
  (forall delta,
     AXES_COOLOFF_TIME s = CT_Delta delta ->
     get_cool_off s = Ok (Some delta)).
Proof.
  unfold get_cool_off, timedelta_of_hours.
  split; [|split; [|split]].
  - intros h -> Hr. pose proof Hr as Hb.
    apply hours_in_range_days in Hb. rewrite Hb. cbn [bind].
    eexists. split; [reflexivity|].
    apply andb_true_iff in Hb. rewrite !Z.leb_le in Hb.
    pose proof (Z.mod_pos_bound h 24 eq_refl) as Hm.
    split.
    + unfold timedelta_ok. cbn [days seconds microseconds]. lia.
    + unfold total_seconds. cbn [days seconds microseconds].
      change (0 =? 0) with true. cbv iota. f_equal.
      pose proof (Z.div_mod h 24 ltac:(lia)). lia.
  - intros h -> Hr.
    destruct (_ && _) eqn:E; [|reflexivity].
    apply hours_in_range_days in E. contradiction.
  - now intros ->.
  - now intros delta ->.
Qed.

Definition with_cooloff (s : Settings) (c : cooloff_time) : Settings := {|
  AXES_ONLY_USER_FAILURES := AXES_ONLY_USER_FAILURES s;
  AXES_LOCK_OUT_BY_COMBINATION_USER_AND_IP :=
    AXES_LOCK_OUT_BY_COMBINATION_USER_AND_IP s;
  AXES_USE_USER_AGENT := AXES_USE_USER_AGENT s;
  AXES_ONLY_WHITELIST := AXES_ONLY_WHITELIST s;
  AXES_NEVER_LOCKOUT_WHITELIST := AXES_NEVER_LOCKOUT_WHITELIST s;
  AXES_NEVER_LOCKOUT_GET := AXES_NEVER_LOCKOUT_GET s;
  AXES_IP_WHITELIST := AXES_IP_WHITELIST s;
  AXES_IP_BLACKLIST := AXES_IP_BLACKLIST s;
  AXES_LOCK_OUT_AT_FAILURE := AXES_LOCK_OUT_AT_FAILURE s;
  AXES_FAILURE_LIMIT := AXES_FAILURE_LIMIT s;
  AXES_COOLOFF_TIME := c;
  AXES_USERNAME_CALLABLE := AXES_USERNAME_CALLABLE s;
  AXES_USERNAME_FORM_FIELD := AXES_USERNAME_FORM_FIELD s;
  AXES_PROXY_ORDER := AXES_PROXY_ORDER s;
  AXES_PROXY_COUNT := AXES_PROXY_COUNT s;
  AXES_PROXY_TRUSTED_IPS := AXES_PROXY_TRUSTED_IPS s;
  AXES_META_PRECEDENCE_ORDER := AXES_META_PRECEDENCE_ORDER s
|}.

Lemma X13_witness :
  get_cool_off (with_cooloff Fixtures.settings0 (CT_Hours 36)) =
    Ok (Some {| days := 1; seconds := 43200; microseconds := 0 |}) /\
  get_cool_off (with_cooloff Fixtures.settings0 (CT_Hours 24000000000)) =
    Raise (Exception "OverflowError").
Proof.
  destruct (X13_get_cool_off (with_cooloff Fixtures.settings0 (CT_Hours 36)))
    as (Hin & _).
  destruct (X13_get_cool_off
              (with_cooloff Fixtures.settings0 (CT_Hours 24000000000)))
    as (_ & Hout & _).
  split.
  - destruct (Hin 36 eq_refl) as (delta & E & _); [unfold hours_in_range; lia|].
    rewrite E. vm_compute in E. injection E as <-. reflexivity.
  - apply (Hout 24000000000 eq_refl). unfold hours_in_range. lia.
Defined.

(** X14. The cache timeout is [None] without a cool-off, [3600 * h] seconds
    for a cool-off of [h] hours, zero and negative values included, and
    the number of seconds of a duration of whole seconds. *)
Theorem X14_get_cache_timeout (s : Settings) :
  (AXES_COOLOFF_TIME s = CT_None -> get_cache_timeout s = Some (Ok None)) /\
  (forall h,
     AXES_COOLOFF_TIME s = CT_Hours h -> hours_in_range h ->
     get_cache_timeout s = Some (Ok (Some (3600 * h)))) /\
  (forall delta,
     AXES_COOLOFF_TIME s = CT_Delta delta -> microseconds delta = 0 ->
     get_cache_timeout s =
       Some (Ok (Some (days delta * 86400 + seconds delta)))).
Proof.
  unfold get_cache_timeout, get_cool_off, timedelta_of_hours.
  split; [|split].
  - now intros ->.
  - intros h -> Hr. pose proof Hr as Hb.
    apply hours_in_range_days in Hb. rewrite Hb. cbn [bind].
    unfold total_seconds. cbn [days seconds microseconds].
    change (0 =? 0) with true. cbv iota. do 3 f_equal.
    pose proof (Z.div_mod h 24 ltac:(lia)). lia.
  - intros delta -> Hu. unfold total_seconds. now rewrite Hu.
Qed.

Lemma X14_witness :
  get_cache_timeout (with_cooloff Fixtures.settings0 (CT_Hours 2)) =
    Some (Ok (Some 7200)) /\
  get_cache_timeout (with_cooloff Fixtures.settings0 (CT_Hours 0)) =
    Some (Ok (Some 0)) /\
  get_cache_timeout
    (with_cooloff Fixtures.settings0
       (CT_Delta {| days := 0; seconds := 90; microseconds := 0 |})) =
    Some (Ok (Some 90)).
Proof.
  split; [|split].
  - apply (proj1 (proj2 (X14_get_cache_timeout
                           (with_cooloff Fixtures.settings0 (CT_Hours 2))))
             2 eq_refl).
    unfold hours_in_range. lia.
  - apply (proj1 (proj2 (X14_get_cache_timeout
                           (with_cooloff Fixtures.settings0 (CT_Hours 0))))
             0 eq_refl).
    unfold hours_in_range. lia.
  - apply (proj2 (proj2 (X14_get_cache_timeout
                           (with_cooloff Fixtures.settings0
                              (CT_Delta {| days := 0; seconds := 90;
                                           microseconds := 0 |}))))
             _ eq_refl eq_refl).
Defined.

(** The rendering of a duration of [t] whole seconds, by its parts. *)
Definition iso8601_of_parts (d h m s : Z) : pystr :=
  str "P" ++ component d "D" ++
  (if (h =? 0) && (m =? 0) && (s =? 0) then []
   else str "T" ++ component h "H" ++ component m "M" ++ component s "S").

Lemma iso8601_whole_seconds (delta : timedelta) (d h m s : Z) :
  microseconds delta = 0 ->
  days delta * 86400 + seconds delta = d * 86400 + h * 3600 + m * 60 + s ->
  0 <= h < 24 -> 0 <= m < 60 -> 0 <= s < 60 ->
  get_cool_off_iso8601 delta = Some (iso8601_of_parts d h m s).
Proof.
  intros Hu Ht Hh Hm Hs.
  unfold get_cool_off_iso8601, total_seconds, divmod, iso8601_of_parts.
  rewrite Hu.
  cbv beta iota zeta. change (0 =? 0) with true. cbv beta iota.
  rewrite Ht. remember (d * 86400 + h * 3600 + m * 60 + s) as t eqn:Et.
  destruct (divmod_unique t 60 (d * 1440 + h * 60 + m) s Hs) as [Eq1 Es];
    [rewrite Et; ring|].
  destruct (divmod_unique (d * 1440 + h * 60 + m) 60 (d * 24 + h) m Hm)
    as [Eq2 Em]; [ring|].
  destruct (divmod_unique (d * 24 + h) 24 d h Hh) as [Ed Eh]; [ring|].
  rewrite Eq1, Eq2 in *.
  rewrite Es, Em, Eh, Ed, time_str_components.
  fold (component d "D").
  destruct (component h "H" ++ component m "M" ++ component s "S")
    as [|ch rest] eqn:E.
  - apply app_eq_nil in E. destruct E as [E1 E2].
    apply app_eq_nil in E2. destruct E2 as [E2 E3].
    apply component_empty in E1, E2, E3; try discriminate.
    rewrite E1, E2, E3. change ((0 =? 0) && (0 =? 0) && (0 =? 0)) with true.
    cbv iota. now rewrite app_nil_r.
  - destruct ((h =? 0) && (m =? 0) && (s =? 0)) eqn:Ez; [|reflexivity].
    apply andb_true_iff in Ez. destruct Ez as [Ez Ez3].
    apply andb_true_iff in Ez. destruct Ez as [Ez1 Ez2].
    apply Z.eqb_eq in Ez1, Ez2, Ez3. rewrite Ez1, Ez2, Ez3 in E.
    discriminate E.
Qed.

(** X15. A cool-off configured in hours is rendered with days and hours
    only: for [h] hours, ['P'], the days [h // 24] with ['D'] when not zero,
    and ['T'] with the hours [h % 24] and ['H'] when not zero; minutes and
    seconds never appear. *)
Theorem X15_iso8601_of_hours (s : Settings) (h : Z) :
  AXES_COOLOFF_TIME s = CT_Hours h ->
  hours_in_range h ->
  exists delta,
    get_cool_off s = Ok (Some delta) /\
    get_cool_off_iso8601 delta =
      Some (str "P" ++ component (h / 24) "D" ++
            (if h mod 24 =? 0 then []
             else str "T" ++ format_0f (h mod 24) ++ str "H")).
Proof.
  intros Ec Hr. unfold get_cool_off, timedelta_of_hours. rewrite Ec.
  pose proof Hr as Hb. apply hours_in_range_days in Hb. rewrite Hb.
  cbn [bind]. eexists. split; [reflexivity|].
  pose proof (Z.mod_pos_bound h 24 eq_refl) as Hm.
  rewrite (iso8601_whole_seconds _ (h / 24) (h mod 24) 0 0);
    simpl; try lia; try reflexivity.
  unfold iso8601_of_parts. do 2 f_equal.
  change (0 =? 0) with true. rewrite !andb_true_r.
  unfold component at 2 3 4.
  destruct (h mod 24 =? 0); [reflexivity|].
  change (0 =? 0) with true. cbv iota. now rewrite !app_nil_r.
Qed.

Lemma X15_witness :
  exists delta,
    get_cool_off (with_cooloff Fixtures.settings0 (CT_Hours 50)) =
      Ok (Some delta) /\
    get_cool_off_iso8601 delta = Some (str "P2DT2H").
Proof.
  destruct (X15_iso8601_of_hours
              (with_cooloff Fixtures.settings0 (CT_Hours 50)) 50 eq_refl)
    as (delta & E1 & E2); [unfold hours_in_range; lia|].
  exists delta. split; [exact E1|]. rewrite E2. reflexivity.
Defined.

(** X16. For a duration of whole seconds the rendering is the bare ['P']
    exactly when the duration is zero; every other duration gets at least
    one component. *)
Theorem X16_bare_P_iff_zero (delta : timedelta) :
  microseconds delta = 0 ->
  (get_cool_off_iso8601 delta = Some (str "P") <->
   days delta * 86400 + seconds delta = 0).
Proof.
  intros Hu. set (t := days delta * 86400 + seconds delta).
  pose proof (Z.div_mod t 60 ltac:(lia)) as D1.
  pose proof (Z.div_mod (t / 60) 60 ltac:(lia)) as D2.
  pose proof (Z.div_mod (t / 60 / 60) 24 ltac:(lia)) as D3.
  pose proof (Z.mod_pos_bound t 60 eq_refl) as B1.
  pose proof (Z.mod_pos_bound (t / 60) 60 eq_refl) as B2.
  pose proof (Z.mod_pos_bound (t / 60 / 60) 24 eq_refl) as B3.
  rewrite (iso8601_whole_seconds delta (t / 60 / 60 / 24)
             (t / 60 / 60 mod 24) (t / 60 mod 60) (t mod 60) Hu);
    [|fold t; lia|exact B3|exact B2|exact B1].
  unfold iso8601_of_parts.
  set (d := t / 60 / 60 / 24) in *. set (h := t / 60 / 60 mod 24) in *.
  set (m := t / 60 mod 60) in *. set (sec := t mod 60) in *.
  split.
  - intros [= E]. apply app_eq_nil in E. destruct E as [Ed Et].
    apply component_empty in Ed; [|discriminate].
    destruct ((h =? 0) && (m =? 0) && (sec =? 0)) eqn:Ez; [|discriminate Et].
    apply andb_true_iff in Ez. destruct Ez as [Ez Ez3].
    apply andb_true_iff in Ez. destruct Ez as [Ez1 Ez2].
    apply Z.eqb_eq in Ez1, Ez2, Ez3. lia.
  - intros E0.
    assert (Ed : d = 0) by lia. assert (Eh : h = 0) by lia.
    assert (Em : m = 0) by lia. assert (Es : sec = 0) by lia.
    rewrite Ed, Eh, Em, Es. reflexivity.
Qed.

Lemma X16_witness :
  get_cool_off_iso8601 {| days := 0; seconds := 0; microseconds := 0 |}
    = Some (str "P") /\
  get_cool_off_iso8601 {| days := 0; seconds := 1; microseconds := 0 |}
    <> Some (str "P").
Proof.
  split.
  - apply (X16_bare_P_iff_zero
             {| days := 0; seconds := 0; microseconds := 0 |} eq_refl).
    reflexivity.
  - intros E.
    apply (X16_bare_P_iff_zero
             {| days := 0; seconds := 1; microseconds := 0 |} eq_refl) in E.
    discriminate E.
Defined.

(** ** The query string for the log *)

Lemma filter_filter {A} (f g : A -> bool) (l : list A) :
  filter g (filter f l) = filter (fun x => f x && g x) l.
Proof.
  induction l as [|x l IH]; simpl; [reflexivity|].
  destruct (f x); simpl; [destruct (g x)|]; now rewrite IH.
Qed.

Lemma NoDup_keys_filter {K V} (f : K * V -> bool) (d : dict K V) :
  NoDup (dict_keys d) -> NoDup (dict_keys (filter f d)).
Proof.
  unfold dict_keys. induction d as [|kv d IH]; simpl; [constructor|].
  intros Hnd. inversion Hnd as [|? ? Hnotin Hnd']; subst.
  destruct (f kv); simpl; [|now apply IH].
  constructor; [|now apply IH].
  intros Hin. apply Hnotin. apply in_map_iff in Hin.
  destruct Hin as (x & Ex & Hx). apply filter_In in Hx.
  apply in_map_iff. exists x. tauto.
Qed.

Lemma slice_to_length (n : Z) (s : pystr) :
  0 <= n -> (Z.of_nat (List.length (slice_to n s)) <= n).
Proof.
  intros Hn. unfold slice_to.
  destruct (Z.leb_spec 0 n); [|lia].
  pose proof (firstn_le_length (Z.to_nat n) s). lia.
Qed.

(** X17. The passwords never reach the query string: the result does not
    change when the value stored under ['password'], or under
    [AXES_PASSWORD_FORM_FIELD], is replaced by any other, or when such a
    field is added to a query without one. *)
Theorem X17_query_str_hides_password (more : MoreSettings)
    (q : QueryDict) (max_length : Z) (secret : list pystr) :
  get_query_str more (dict_set str_eqb q (str "password") secret) max_length
    = get_query_str more q max_length /\
  get_query_str more
    (dict_set str_eqb q (AXES_PASSWORD_FORM_FIELD more) secret) max_length
    = get_query_str more q max_length.
Proof.
  unfold get_query_str. split.
  - now rewrite (dict_pop_set_same str_eqb str_eqb_eq).
  - destruct (str_eqb (AXES_PASSWORD_FORM_FIELD more) (str "password")) eqn:E.
    + apply str_eqb_eq in E. rewrite E.
      now rewrite (dict_pop_set_same str_eqb str_eqb_eq).
    + rewrite (dict_pop_set_other str_eqb str_eqb_eq).
      * now rewrite (dict_pop_set_same str_eqb str_eqb_eq).
      * intros Heq. rewrite Heq in E.
        assert (Er : str_eqb (str "password") (str "password") = true)
          by now apply str_eqb_eq.
        rewrite Er in E. discriminate E.
Qed.

(** X18. The query string is the items of the query other than the two
    password fields, in their order, as [key=value] lines (the last value
    of a key), cut to [max_length]; with [max_length >= 0] it is never
    longer than that. *)
Theorem X18_query_str_shape (more : MoreSettings)
    (q : QueryDict) (max_length : Z) :
  (NoDup (dict_keys q) ->
   get_query_str more q max_length =
     slice_to max_length
       (join newline
          (map query_str_item
             (querydict_items
                (filter (fun kv =>
                           negb (str_eqb (fst kv) (str "password"))
                           && negb (str_eqb (fst kv)
                                      (AXES_PASSWORD_FORM_FIELD more)))
                        q))))) /\
  (0 <= max_length ->
   Z.of_nat (List.length (get_query_str more q max_length)) <= max_length).
Proof.
  split.
  - intros Hnd. unfold get_query_str.
    rewrite (dict_pop_filter str_eqb str_eqb_eq q _ Hnd).
    rewrite (dict_pop_filter str_eqb str_eqb_eq _ _
               (NoDup_keys_filter _ q Hnd)).
    now rewrite filter_filter.
  - intros Hn. unfold get_query_str. now apply slice_to_length.
Qed.

Lemma X18_witness :
  let more := {| AXES_VERBOSE := false;
                 AXES_PASSWORD_FORM_FIELD := str "pwd";
                 AXES_COOLOFF_MESSAGE := str "locked for a while";
                 AXES_PERMALOCK_MESSAGE := str "locked";
                 AXES_LOCKOUT_TEMPLATE := None;
                 AXES_LOCKOUT_URL := None |} in
  let q := [(str "username", [str "al"; str "bob"]);
            (str "password", [str "hunter2"]);
            (str "next", []);
            (str "pwd", [str "s3cret"])] in
  get_query_str more q 1024 = str "username=bob" ++ newline ++ str "next=[]" /\
  get_query_str more q 8 = str "username".
Proof.
  intros more q.
  assert (Hnd : NoDup (dict_keys q)).
  { repeat constructor; simpl; intuition discriminate. }
  split.
  - rewrite (proj1 (X18_query_str_shape more q 1024) Hnd). reflexivity.
  - rewrite (proj1 (X18_query_str_shape more q 8) Hnd). reflexivity.
Defined.

(** ** The client string for the log *)

Definition brace_free (s : pystr) : bool :=
  forallb (fun ch => negb (N.eqb ch lbrace) && negb (N.eqb ch rbrace)) s.

Lemma brace_free_app (a b : pystr) :
  brace_free (a ++ b) = brace_free a && brace_free b.
Proof. apply forallb_app. Qed.

Lemma format_literal_closing (t : pystr) :
  brace_free t = true ->
  format_literal (t ++ str "}}") = Some (Ok (t ++ str "}")).
Proof.
  induction t as [|ch t IH]; [reflexivity|].
  cbn [brace_free forallb]. intros Hb.
  apply andb_true_iff in Hb. destruct Hb as [Hc Ht].
  apply andb_true_iff in Hc. destruct Hc as [Hl Hr].
  apply negb_true_iff in Hl, Hr.
  cbn [app format_literal]. rewrite Hl, Hr.
  fold (brace_free t) in Ht. now rewrite (IH Ht).
Qed.

Lemma format_literal_wrapped (t : pystr) :
  brace_free t = true ->
  format_literal (str "{{" ++ t ++ str "}}") = Some (Ok (str "{" ++ t ++ str "}")).
Proof.
  intros Hb. change (str "{{" ++ t ++ str "}}")
    with (lbrace :: lbrace :: (t ++ str "}}")).
  cbn [format_literal]. change (N.eqb lbrace lbrace) with true. cbv iota.
  now rewrite (format_literal_closing t Hb).
Qed.

Lemma format_literal_single_closing (pre post : pystr) :
  brace_free pre = true ->
  (forall rest, post <> rbrace :: rest) ->
  format_literal (pre ++ rbrace :: post) = Some (Raise ValueError).
Proof.
  intros Hb Hpost. induction pre as [|ch pre IH].
  - cbn [app format_literal]. change (N.eqb rbrace lbrace) with false.
    change (N.eqb rbrace rbrace) with true. cbv iota.
    destruct post as [|ch' post]; [reflexivity|].
    destruct (N.eqb_spec ch' rbrace) as [->|Hn]; [|reflexivity].
    now destruct (Hpost post).
  - cbn [brace_free forallb] in Hb.
    apply andb_true_iff in Hb. destruct Hb as [Hc Ht].
    apply andb_true_iff in Hc. destruct Hc as [Hl Hr].
    apply negb_true_iff in Hl, Hr.
    cbn [app format_literal]. rewrite Hl, Hr.
    fold (brace_free pre) in Ht. now rewrite (IH Ht).
Qed.

(** The value logged for the [path_info] argument. *)
Definition path_info_value (p : path_info_arg) : pyval :=
  match p with
  | PathNone => VNone
  | PathStr s => VStr s
  | PathList [] => VEmptyList
  | PathTuple [] => VEmptyTuple
  | PathList (first :: _) | PathTuple (first :: _) => VStr first
  end.

(** The items of the client string: all three fields when verbose, else
    the tracked ones; the path comes last. *)
Definition client_str_items (s : Settings) (more : MoreSettings)
    (u i a : option pystr) (p : path_info_arg) : list (string * pyval) :=
  (if AXES_VERBOSE more
   then [("username"%string, of_optional u);
         ("ip_address"%string, of_optional i);
         ("user_agent"%string, of_optional a)]
   else map (fun kv => (fst kv, of_optional (snd kv)))
          (get_client_parameters s u i a))
  ++ [("path_info"%string, path_info_value p)].

Lemma get_client_str_template (s : Settings) (more : MoreSettings)
    (u i a : option pystr) (p : path_info_arg) :
  get_client_str s more u i a p =
    format_literal
      (str "{{"
       ++ join (str ", ") (map client_str_item (client_str_items s more u i a p))
       ++ str "}}").
Proof.
  unfold get_client_str, client_str_items.
  rewrite get_client_parameters_cases.
  assert (Ep : match p with
               | PathNone => VNone
               | PathStr s0 => VStr s0
               | PathList [] => VEmptyList
               | PathList (first :: _) => VStr first
               | PathTuple [] => VEmptyTuple
               | PathTuple (first :: _) => VStr first
               end = path_info_value p)
    by (destruct p as [|?|[|? ?]|[|? ?]]; reflexivity).
  rewrite Ep.
  destruct (AXES_VERBOSE more), (AXES_ONLY_USER_FAILURES s),
    (AXES_LOCK_OUT_BY_COMBINATION_USER_AND_IP s), (AXES_USE_USER_AGENT s);
    reflexivity.
Qed.

Lemma brace_free_join (sep : pystr) (l : list pystr) :
  brace_free sep = true ->
  Forall (fun x => brace_free x = true) l ->
  brace_free (join sep l) = true.
Proof.
  intros Hsep Hl. induction Hl as [|x l Hx Hl IH]; [reflexivity|].
  destruct l as [|y l]; [exact Hx|].
  change (join sep (x :: y :: l)) with (x ++ sep ++ join sep (y :: l)).
  now rewrite !brace_free_app, Hx, Hsep, IH.
Qed.

Definition value_brace_free (v : pyval) : Prop :=
  brace_free (format_value v) = true.

(** X19. When none of the logged values holds a brace, the client string
    is the items [key: "value"] joined by commas between one pair of
    braces (a missing value reads [None]), with the path as the last
    item. *)
Theorem X19_client_str_plain (s : Settings) (more : MoreSettings)
    (u i a : option pystr) (p : path_info_arg) :
  Forall (fun kv => value_brace_free (snd kv))
    (client_str_items s more u i a p) ->
  get_client_str s more u i a p =
    Some (Ok (str "{"
              ++ join (str ", ")
                   (map client_str_item (client_str_items s more u i a p))
              ++ str "}")).
Proof.
  intros Hv. rewrite get_client_str_template.
  apply format_literal_wrapped. apply brace_free_join; [reflexivity|].
  apply Forall_map.
  assert (Hk : Forall (fun kv : string * pyval =>
                         brace_free (str (fst kv)) = true)
                 (client_str_items s more u i a p)).
  { unfold client_str_items. rewrite get_client_parameters_cases.
    destruct (AXES_VERBOSE more), (AXES_ONLY_USER_FAILURES s),
      (AXES_LOCK_OUT_BY_COMBINATION_USER_AND_IP s), (AXES_USE_USER_AGENT s);
      repeat constructor. }
  revert Hk. induction Hv as [|kv l Hx Hl IH]; intros Hk; [constructor|].
  inversion Hk as [|? ? Hkx Hkl]; subst.
  constructor; [|now apply IH].
  unfold client_str_item. rewrite !brace_free_app, Hkx, Hx. reflexivity.
Qed.

Definition more0 : MoreSettings := {|
  AXES_VERBOSE := false;
  AXES_PASSWORD_FORM_FIELD := str "password";
  AXES_COOLOFF_MESSAGE := str "Account locked: too many login attempts. Please try again later";
  AXES_PERMALOCK_MESSAGE := str "Account locked: too many login attempts. Contact an admin to unlock your account.";
  AXES_LOCKOUT_TEMPLATE := None;
  AXES_LOCKOUT_URL := None
|}.

Lemma X19_witness :
  get_client_str Fixtures.settings0 more0
    (Some (str "alice")) None (Some (str "Mozilla"))
    (PathList [str "/login/"; str "/other/"]) =
  Some (Ok (str "{ip_address: " ++ quote ++ str "None" ++ quote
            ++ str ", path_info: " ++ quote ++ str "/login/" ++ quote
            ++ str "}")).
Proof.
  rewrite X19_client_str_plain; [reflexivity|].
  repeat constructor.
Defined.

(** X20. A single closing brace in the username makes [get_client_str]
    raise [ValueError] whenever the username is logged (verbose mode, or
    tracking by username): the values are pasted into the template before
    [format] reads it. So do [}] alone, [a}b] and a username ending in
    [}]. *)
Theorem X20_client_str_closing_brace (s : Settings) (more : MoreSettings)
    (u1 u2 : pystr) (i a : option pystr) (p : path_info_arg) :
  AXES_VERBOSE more = true \/
  AXES_ONLY_USER_FAILURES s = true \/
  AXES_LOCK_OUT_BY_COMBINATION_USER_AND_IP s = true ->
  brace_free u1 = true ->
  (forall rest, u2 <> rbrace :: rest) ->
  get_client_str s more (Some (u1 ++ rbrace :: u2)) i a p =
    Some (Raise ValueError).
Proof.
  intros Hmode Hb Hpost. rewrite get_client_str_template.
  assert (Hshape : exists tail,
    join (str ", ")
      (map client_str_item
         (client_str_items s more (Some (u1 ++ rbrace :: u2)) i a p)) =
    (str "username: " ++ quote ++ u1) ++ rbrace :: (u2 ++ quote ++ tail)).
  { unfold client_str_items. rewrite get_client_parameters_cases.
    destruct (AXES_VERBOSE more) eqn:Ev;
      [|destruct (AXES_ONLY_USER_FAILURES s) eqn:Eo;
        [|destruct (AXES_LOCK_OUT_BY_COMBINATION_USER_AND_IP s) eqn:Ec;
          [|exfalso; destruct Hmode as [H1|[H1|H1]]; discriminate H1]]];
      cbn [map app]; unfold client_str_item at 1;
      cbn [fst snd of_optional format_value];
      match goal with
      | |- context [join ?sep (?x :: ?y :: ?l)] =>
          change (join sep (x :: y :: l)) with (x ++ sep ++ join sep (y :: l))
      end;
      eexists; change (str "username: ") with (str "username" ++ str ": ");
      rewrite <- !app_assoc; cbn [app]; reflexivity. }
  destruct Hshape as [tail ->].
  change (str "{{" ++ ((str "username: " ++ quote ++ u1)
                        ++ rbrace :: u2 ++ quote ++ tail) ++ str "}}")
    with (lbrace :: lbrace ::
            (((str "username: " ++ quote ++ u1)
              ++ rbrace :: u2 ++ quote ++ tail) ++ str "}}")).
  cbn [format_literal]. change (N.eqb lbrace lbrace) with true. cbv iota.
  rewrite <- app_assoc, <- app_comm_cons.
  rewrite format_literal_single_closing; [reflexivity | |].
  - rewrite !brace_free_app, Hb. reflexivity.
  - intros rest E. destruct u2 as [|ch u2].
    + discriminate E.
    + injection E as -> _. now destruct (Hpost u2).
Qed.

Lemma X20_witness :
  get_client_str KeyFixtures.only_user more0
    (Some (str "}")) (Some Fixtures.ip1) None (PathStr (str "/login/")) =
  Some (Raise ValueError) /\
  get_client_str KeyFixtures.only_user more0
    (Some (str "a}b")) (Some Fixtures.ip1) None (PathStr (str "/login/")) =
  Some (Raise ValueError).
Proof.
  split.
  - apply (X20_client_str_closing_brace KeyFixtures.only_user more0 [] []);
      [right; left; reflexivity | reflexivity | discriminate].
  - apply (X20_client_str_closing_brace KeyFixtures.only_user more0
             (str "a") (str "b"));
      [right; left; reflexivity | reflexivity | discriminate].
Defined.

(** ** The lockout response *)

Lemma hours_zero_iff (h : Z) :
  (h / 24 =? 0) && (h mod 24 * 3600 =? 0) && (0 =? 0) = (h =? 0).
Proof.
  pose proof (Z.div_mod h 24 ltac:(lia)) as Hd.
  destruct (Z.eqb_spec h 0) as [->|Hn]; [reflexivity|].
  destruct (Z.eqb_spec (h / 24) 0) as [E1|E1]; [|reflexivity].
  destruct (Z.eqb_spec (h mod 24 * 3600) 0) as [E2|E2]; [|reflexivity].
  lia.
Qed.

(** The two tests of the cool-off, on the setting and on the duration made
    from it, agree. *)
Lemma cool_off_truthy_agree (s : Settings) (cool_off : option timedelta) :
  get_cool_off s = Ok cool_off ->
  match cool_off with
  | Some delta => timedelta_truthy delta
  | None => false
  end = cooloff_truthy (AXES_COOLOFF_TIME s).
Proof.
  unfold get_cool_off, timedelta_of_hours, cooloff_truthy.
  destruct (AXES_COOLOFF_TIME s) as [|h|delta].
  - now intros [= <-].
  - destruct (_ && _); cbn [bind]; [|discriminate].
    intros [= <-]. unfold timedelta_truthy.
    cbn [days seconds microseconds]. now rewrite hours_zero_iff.
  - now intros [= <-].
Qed.

(** ** Reading a rendered duration back *)


(** The letters of a rendering; digits and the sign are not among them. *)
Definition is_designator (ch : N) : bool := existsb (N.eqb ch) (str "PDTHMS").

(** The rendering cut after each letter: the characters before it, and it. *)
Fixpoint tokens (acc : pystr) (s : pystr) : list (pystr * N) :=
  match s with
  | [] => []
  | ch :: rest =>
      if is_designator ch then (rev acc, ch) :: tokens [] rest
      else tokens (ch :: acc) rest
  end.

Definition parse_int (l : pystr) : option Z :=
  option_map Z.of_int
    (NilZero.int_of_string (string_of_list_ascii (map ascii_of_N l))).

(** The number written before the letter [ch], zero when there is none. *)
Definition part (ch : N) (toks : list (pystr * N)) : option Z :=
  match find (fun t => N.eqb (snd t) ch) toks with
  | Some (num, _) => parse_int num
  | None => Some 0
  end.

(** The whole seconds a rendering stands for. *)
Definition parse_iso8601 (s : pystr) : option Z :=
  let toks := tokens [] s in
  match part 68 toks, part 72 toks, part 77 toks, part 83 toks with
  | Some d, Some h, Some m, Some sec =>
      Some (d * 86400 + h * 3600 + m * 60 + sec)
  | _, _, _, _ => None
  end.

Lemma parse_int_format (z : Z) : parse_int (format_0f z) = Some z.
Proof.
  unfold parse_int, format_0f, str.
  rewrite map_map.
  rewrite (map_ext _ (fun a => a)) by (intros a; apply ascii_N_embedding).
  rewrite map_id, string_of_list_ascii_of_string.
  rewrite NilZero.isi.
  - simpl. f_equal. apply DecimalZ.of_to.
  - destruct z; simpl; try discriminate.
    intros [= E]. now apply (Unsigned.to_uint_nonnil p).
  - destruct z; simpl; try discriminate.
    intros [= E]. now apply (Unsigned.to_uint_nonnil p).
Qed.

Definition no_designator (s : pystr) : Prop :=
  Forall (fun ch => is_designator ch = false) s.

Lemma uint_no_designator (d : Decimal.uint) :
  no_designator (str (NilEmpty.string_of_uint d)).
Proof.
  induction d; simpl; constructor; try reflexivity; assumption.
Qed.

Lemma format_0f_no_designator (z : Z) : no_designator (format_0f z).
Proof.
  unfold format_0f, NilZero.string_of_int, NilZero.string_of_uint.
  destruct (Z.to_int z) as [d|d]; destruct d;
    try (repeat constructor; fail);
    try (apply (uint_no_designator (Decimal.D0 d)));
    try (apply (uint_no_designator (Decimal.D1 d)));
    try (apply (uint_no_designator (Decimal.D2 d)));
    try (apply (uint_no_designator (Decimal.D3 d)));
    try (apply (uint_no_designator (Decimal.D4 d)));
    try (apply (uint_no_designator (Decimal.D5 d)));
    try (apply (uint_no_designator (Decimal.D6 d)));
    try (apply (uint_no_designator (Decimal.D7 d)));
    try (apply (uint_no_designator (Decimal.D8 d)));
    try (apply (uint_no_designator (Decimal.D9 d)));
    (constructor; [reflexivity|]);
    first [ apply (uint_no_designator (Decimal.D0 d))
          | apply (uint_no_designator (Decimal.D1 d))
          | apply (uint_no_designator (Decimal.D2 d))
          | apply (uint_no_designator (Decimal.D3 d))
          | apply (uint_no_designator (Decimal.D4 d))
          | apply (uint_no_designator (Decimal.D5 d))
          | apply (uint_no_designator (Decimal.D6 d))
          | apply (uint_no_designator (Decimal.D7 d))
          | apply (uint_no_designator (Decimal.D8 d))
          | apply (uint_no_designator (Decimal.D9 d))
          | repeat constructor ].
Qed.

Lemma tokens_number (num : pystr) (ch : N) (acc rest : pystr) :
  no_designator num ->
  is_designator ch = true ->
  tokens acc (num ++ ch :: rest) = (rev acc ++ num, ch) :: tokens [] rest.
Proof.
  intros Hnum Hch. revert acc.
  induction Hnum as [|x num Hx Hnum IH]; intros acc; cbn [app tokens].
  - now rewrite Hch, app_nil_r.
  - rewrite Hx, IH. cbn [rev]. now rewrite <- app_assoc.
Qed.

Lemma tokens_component (v : Z) (designator : string) (ch : N)
    (rest : pystr) :
  str designator = [ch] ->
  is_designator ch = true ->
  tokens [] (component v designator ++ rest) =
    (if v =? 0 then [] else [(format_0f v, ch)]) ++ tokens [] rest.
Proof.
  intros Hd Hch. unfold component. destruct (v =? 0); [reflexivity|].
  rewrite Hd, <- app_assoc. cbn [app].
  now rewrite (tokens_number _ ch [] rest (format_0f_no_designator v) Hch).
Qed.

Lemma parse_iso8601_of_parts (d h m s : Z) :
  parse_iso8601 (iso8601_of_parts d h m s) =
    Some (d * 86400 + h * 3600 + m * 60 + s).
Proof.
  unfold parse_iso8601, iso8601_of_parts.
  change (str "P" ++ ?x) with (80%N :: x). cbn [tokens].
  change (is_designator 80) with true. cbv iota.
  rewrite (tokens_component d "D" 68 _ eq_refl eq_refl).
  pose proof (parse_int_format d) as Pd.
  pose proof (parse_int_format h) as Ph.
  pose proof (parse_int_format m) as Pm.
  pose proof (parse_int_format s) as Ps.
  match goal with
  | |- context [tokens [] ?x] =>
      assert (Htime :
        tokens [] x
        = if (h =? 0) && (m =? 0) && (s =? 0) then []
          else ([], 84%N) ::
               (if h =? 0 then [] else [(format_0f h, 72%N)]) ++
               (if m =? 0 then [] else [(format_0f m, 77%N)]) ++
               (if s =? 0 then [] else [(format_0f s, 83%N)]))
  end.
  { destruct ((h =? 0) && (m =? 0) && (s =? 0)); [reflexivity|].
    change (str "T" ++ ?x) with (84%N :: x). cbn [tokens].
    change (is_designator 84) with true. cbv iota.
    rewrite (tokens_component h "H" 72 _ eq_refl eq_refl).
    rewrite (tokens_component m "M" 77 _ eq_refl eq_refl).
    rewrite <- (app_nil_r (component s "S")).
    rewrite (tokens_component s "S" 83 _ eq_refl eq_refl).
    cbn [tokens]. now rewrite !app_nil_r. }
  rewrite Htime. clear Htime.
  generalize dependent (format_0f d). generalize dependent (format_0f h).
  generalize dependent (format_0f m). generalize dependent (format_0f s).
  intros fs Ps fm Pm fh Ph fd Pd.
  unfold part.
  destruct (Z.eqb_spec d 0) as [->|Hd], (Z.eqb_spec h 0) as [->|Hh],
    (Z.eqb_spec m 0) as [->|Hm], (Z.eqb_spec s 0) as [->|Hs];
    cbn [andb app find snd N.eqb Pos.eqb];
    rewrite ?Pd, ?Ph, ?Pm, ?Ps; reflexivity.
Qed.

(** X24. The rendering of a duration of whole seconds can be read back:
    splitting it at its letters gives the days, hours, minutes and seconds
    again, so two such durations with the same rendering have the same
    length. *)
Theorem X24_iso8601_round_trip (delta1 delta2 : timedelta)
    (iso : pystr) :
  microseconds delta1 = 0 ->
  microseconds delta2 = 0 ->
  get_cool_off_iso8601 delta1 = Some iso ->
  parse_iso8601 iso = Some (days delta1 * 86400 + seconds delta1) /\
  (get_cool_off_iso8601 delta2 = Some iso ->
   days delta1 * 86400 + seconds delta1 =
   days delta2 * 86400 + seconds delta2).
Proof.
  assert (Hparse : forall delta out,
            microseconds delta = 0 ->
            get_cool_off_iso8601 delta = Some out ->
            parse_iso8601 out = Some (days delta * 86400 + seconds delta)).
  { intros delta out Hu. set (t := days delta * 86400 + seconds delta).
    pose proof (Z.div_mod t 60 ltac:(lia)) as D1.
    pose proof (Z.div_mod (t / 60) 60 ltac:(lia)) as D2.
    pose proof (Z.div_mod (t / 60 / 60) 24 ltac:(lia)) as D3.
    pose proof (Z.mod_pos_bound t 60 eq_refl) as B1.
    pose proof (Z.mod_pos_bound (t / 60) 60 eq_refl) as B2.
    pose proof (Z.mod_pos_bound (t / 60 / 60) 24 eq_refl) as B3.
    rewrite (iso8601_whole_seconds delta (t / 60 / 60 / 24)
               (t / 60 / 60 mod 24) (t / 60 mod 60) (t mod 60) Hu);
      [|fold t; lia|exact B3|exact B2|exact B1].
    intros [= <-]. rewrite parse_iso8601_of_parts. f_equal. lia. }
  intros Hu1 Hu2 E1. split; [now apply Hparse|].
  intros E2. apply (Hparse _ _ Hu1) in E1. apply (Hparse _ _ Hu2) in E2.
  rewrite E1 in E2. now injection E2.
Qed.

Lemma X24_witness :
  parse_iso8601 (str "P1DT1H2M3S") = Some 90123.
Proof.
  apply (X24_iso8601_round_trip
           {| days := 1; seconds := 3723; microseconds := 0 |}
           {| days := 1; seconds := 3723; microseconds := 0 |}
           (str "P1DT1H2M3S") eq_refl eq_refl eq_refl).
Defined.

(** * Durations in float arithmetic, and the lockout response *)

(** ** Python's float

    A finite binary64 value is held as the rational it stands for, in
    lowest terms. An operation computes the exact result and rounds it to
    the nearest binary64 value, ties to even, as IEEE 754 arithmetic does.
    Signed zeros, infinities and NaN are left out: a zero is never printed
    by the code below, and the values of a [timedelta] stay far below
    2^1024. *)

Module Binary64.

(** [floor (log2 x)] for [x > 0]. *)
Definition ilog2 (x : Q) : Z :=
  let n := Qnum x in
  let d := Zpos (Qden x) in
  let k := Z.log2 n - Z.log2 d in
  if (if 0 <=? k then d * 2 ^ k <=? n else d <=? n * 2 ^ (- k))
  then k else k - 1.

(** The integer nearest to [x], the even one of two at equal distance. *)
Definition round_half_even (x : Q) : Z :=
  let f := Qfloor x in
  match Qcompare (x - inject_Z f) (1 # 2) with
  | Lt => f
  | Gt => f + 1
  | Eq => if Z.even f then f else f + 1
  end.

(** [x / 2^e] and [m * 2^e]. *)
Definition scale_down (x : Q) (e : Z) : Q :=
  if 0 <=? e then (x / inject_Z (2 ^ e))%Q else (x * inject_Z (2 ^ (- e)))%Q.

Definition scale_up (m e : Z) : Q :=
  if 0 <=? e then inject_Z (m * 2 ^ e)
  else Qred (Qmake m (Z.to_pos (2 ^ (- e)))).

(** Rounding to binary64: 53 significant bits, exponent not below -1074. *)
Definition round64 (x : Q) : Q :=
  let x := Qred x in
  if Qeq_bool x 0 then 0%Q
  else
    let e := Z.max (ilog2 (Qabs x) - 52) (-1074) in
    scale_up (round_half_even (scale_down x e)) e.

Definition fadd (a b : Q) : Q := round64 (a + b).
Definition fsub (a b : Q) : Q := round64 (a - b).
Definition fdiv (a b : Q) : Q := round64 (a / b).

(** C's [fmod]: exact, with the sign of [a]. *)
Definition Qtrunc (x : Q) : Z :=
  if Qle_bool 0 x then Qfloor x else Qceiling x.

Definition fmod (a b : Q) : Q :=
  Qred (a - inject_Z (Qtrunc (a / b)) * b).

Definition floor (a : Q) : Q := inject_Z (Qfloor a).

Definition is_zero (a : Q) : bool := Qeq_bool a 0.
Definition flt (a b : Q) : bool := negb (Qle_bool b a).

(** [divmod(vx, wx)] of two floats, after [float_divmod] of CPython. *)
Definition float_divmod (vx wx : Q) : Q * Q :=
  let rest := fmod vx wx in
  let div := fdiv (fsub vx rest) wx in
  let '(rest, div) :=
    if negb (is_zero rest) then
      if xorb (flt wx 0) (flt rest 0) then (fadd rest wx, fsub div 1)
      else (rest, div)
    else (0%Q, div) in
  let floordiv :=
    if negb (is_zero div) then
      let floordiv := floor div in
      if flt (1 # 2) (fsub div floordiv) then fadd floordiv 1 else floordiv
    else 0%Q in
  (floordiv, rest).

(** [f'{x:.0f}']: the nearest integer, ties to even, and the sign of [x]. *)
Definition format_0f (x : Q) : pystr :=
  let n := round_half_even x in
  if flt x 0 && (n =? 0) then str "-0" else Helpers.format_0f n.

End Binary64.

Module Durations.
Import Binary64.

(** [delta.total_seconds()]: the microseconds divided by 10^6, as one
    correctly rounded division of integers. *)
Definition total_seconds (delta : timedelta) : Q :=
  let us := (days delta * 86400 + seconds delta) * 1000000
            + microseconds delta in
  fdiv (inject_Z us) (inject_Z 1000000).

Definition get_cool_off_iso8601 (delta : timedelta) : pystr :=
  let seconds := total_seconds delta in
  let '(minutes, seconds) := float_divmod seconds 60 in
  let '(hours, minutes) := float_divmod minutes 60 in
  let '(days, hours) := float_divmod hours 24 in
  let days_str :=
    if negb (is_zero days) then format_0f days ++ str "D" else [] in
  let time_str :=
    join []
      (map (fun '(value, designator) => format_0f value ++ designator)
         (filter (fun '(value, _) => negb (is_zero value))
            [(hours, str "H"); (minutes, str "M"); (seconds, str "S")])) in
  match time_str with
  | _ :: _ => str "P" ++ days_str ++ str "T" ++ time_str
  | [] => str "P" ++ days_str
  end.

(** [int(cool_off.total_seconds())]: the float cut towards zero. *)
Definition get_cache_timeout (settings : Settings) : result (option Z) :=
  cool_off <- get_cool_off settings ;;
  match cool_off with
  | None => Ok None
  | Some cool_off => Ok (Some (Qtrunc (total_seconds cool_off)))
  end.

End Durations.

(** ** The float operations on integers below 2^53 are exact *)

Module Binary64Facts.
Local Open Scope Q_scope.
Import Binary64.

Lemma Qred_inject_Z (z : Z) : Qred (inject_Z z) = inject_Z z.
Proof.
  unfold inject_Z, Qred.
  pose proof (Z.ggcd_gcd z 1) as Hg.
  pose proof (Z.ggcd_correct_divisors z 1) as Hd.
  destruct (Z.ggcd z 1) as (g, (a, b)). simpl in *.
  rewrite Z.gcd_1_r in Hg. subst g. destruct Hd as [Ha Hb].
  rewrite Z.mul_1_l in Ha, Hb. rewrite <- Ha, <- Hb. reflexivity.
Qed.

Lemma inject_Z_eq0 (z : Z) : inject_Z z == 0 -> z = 0%Z.
Proof. intros E. now apply (proj1 (inject_Z_injective z 0)). Qed.

Lemma round_half_even_proper (x y : Q) :
  x == y -> round_half_even x = round_half_even y.
Proof.
  intros E. unfold round_half_even.
  rewrite (Qfloor_comp x y E).
  assert (E' : x - inject_Z (Qfloor y) == y - inject_Z (Qfloor y))
    by now rewrite E.
  now rewrite (Qcompare_comp _ _ E' (1 # 2) (1 # 2) (Qeq_refl _)).
Qed.

Lemma round_half_even_inject (z : Z) : round_half_even (inject_Z z) = z.
Proof.
  unfold round_half_even. rewrite Qfloor_Z.
  assert (E : inject_Z z - inject_Z z == 0) by ring.
  now rewrite (Qcompare_comp _ _ E (1 # 2) (1 # 2) (Qeq_refl _)).
Qed.

Lemma round64_proper (x y : Q) : x == y -> round64 x = round64 y.
Proof.
  intros E. unfold round64. now rewrite (Qred_complete x y E).
Qed.

Lemma ilog2_inject (z : Z) : (0 < z)%Z -> ilog2 (inject_Z z) = Z.log2 z.
Proof.
  intros Hz. unfold ilog2, inject_Z. cbn [Qnum Qden].
  change (Z.log2 1) with 0%Z. rewrite Z.sub_0_r.
  pose proof (Z.log2_nonneg z) as Hn.
  pose proof (Z.log2_spec z Hz) as [Hl _].
  destruct (Z.leb_spec 0 (Z.log2 z)); [|lia].
  destruct (Z.leb_spec (1 * 2 ^ Z.log2 z) z); [reflexivity | lia].
Qed.

Lemma scale_round_trip (z e : Z) :
  (e <= 0)%Z ->
  scale_up (round_half_even (scale_down (inject_Z z) e)) e = inject_Z z.
Proof.
  intros He. unfold scale_down, scale_up.
  destruct (Z.leb_spec 0 e) as [H0|H0].
  - assert (e = 0)%Z by lia. subst e. change (2 ^ 0)%Z with 1%Z.
    assert (E : inject_Z z / inject_Z 1 == inject_Z z) by (field).
    rewrite (round_half_even_proper _ _ E), round_half_even_inject.
    now rewrite Z.mul_1_r.
  - rewrite <- inject_Z_mult, round_half_even_inject.
    rewrite <- (Qred_inject_Z z). apply Qred_complete.
    assert (Hp : (0 < 2 ^ (- e))%Z) by (apply Z.pow_pos_nonneg; lia).
    unfold Qeq, inject_Z. cbn [Qnum Qden].
    rewrite Z2Pos.id by exact Hp. ring.
Qed.

Lemma round64_inject (z : Z) :
  (Z.abs z < 2 ^ 53)%Z -> round64 (inject_Z z) = inject_Z z.
Proof.
  intros Hz. unfold round64. rewrite Qred_inject_Z.
  destruct (Z.eq_dec z 0) as [->|Hn]; [reflexivity|].
  assert (Eb : Qeq_bool (inject_Z z) 0 = false).
  { destruct (Qeq_bool (inject_Z z) 0) eqn:E; [|reflexivity].
    apply Qeq_bool_eq, inject_Z_eq0 in E. contradiction. }
  rewrite Eb.
  assert (Ea : Qabs (inject_Z z) = inject_Z (Z.abs z)) by reflexivity.
  rewrite Ea, ilog2_inject by lia.
  assert (Hl : (Z.log2 (Z.abs z) < 53)%Z)
    by (apply Z.log2_lt_pow2; lia).
  pose proof (Z.log2_nonneg (Z.abs z)).
  rewrite Z.max_l by lia.
  apply scale_round_trip. lia.
Qed.

Lemma fadd_inject (a b : Z) :
  (Z.abs (a + b) < 2 ^ 53)%Z ->
  fadd (inject_Z a) (inject_Z b) = inject_Z (a + b).
Proof.
  intros H. unfold fadd. rewrite <- inject_Z_plus. now apply round64_inject.
Qed.

Lemma fsub_inject (a b : Z) :
  (Z.abs (a - b) < 2 ^ 53)%Z ->
  fsub (inject_Z a) (inject_Z b) = inject_Z (a - b).
Proof.
  intros H. unfold fsub.
  rewrite (round64_proper _ (inject_Z (a - b))).
  - now apply round64_inject.
  - unfold Z.sub. rewrite inject_Z_plus, inject_Z_opp. ring.
Qed.

Lemma fdiv_inject (q b : Z) :
  b <> 0%Z -> (Z.abs q < 2 ^ 53)%Z ->
  fdiv (inject_Z (q * b)) (inject_Z b) = inject_Z q.
Proof.
  intros Hb Hq. unfold fdiv.
  rewrite (round64_proper _ (inject_Z q)).
  - now apply round64_inject.
  - rewrite inject_Z_mult. field.
    intros E. apply inject_Z_eq0 in E. contradiction.
Qed.

Lemma is_zero_inject (z : Z) : is_zero (inject_Z z) = (z =? 0)%Z.
Proof.
  unfold is_zero. destruct (Z.eqb_spec z 0) as [->|Hn]; [reflexivity|].
  destruct (Qeq_bool (inject_Z z) 0) eqn:E; [|reflexivity].
  apply Qeq_bool_eq, inject_Z_eq0 in E. contradiction.
Qed.

Lemma Qle_bool_inject (a b : Z) :
  Qle_bool (inject_Z a) (inject_Z b) = (a <=? b)%Z.
Proof.
  unfold Qle_bool, inject_Z. cbn [Qnum Qden]. now rewrite !Z.mul_1_r.
Qed.

Lemma flt_inject (a b : Z) : flt (inject_Z a) (inject_Z b) = (a <? b)%Z.
Proof.
  unfold flt. rewrite Qle_bool_inject.
  destruct (Z.leb_spec b a), (Z.ltb_spec a b); try reflexivity; lia.
Qed.

Lemma floor_inject (z : Z) : floor (inject_Z z) = inject_Z z.
Proof. unfold floor. now rewrite Qfloor_Z. Qed.

Lemma Qtrunc_div (a b : Z) :
  (0 < b)%Z -> Qtrunc (inject_Z a / inject_Z b) = Z.quot a b.
Proof.
  intros Hb. unfold Qtrunc.
  assert (Hbq : ~ inject_Z b == 0).
  { intros E. apply inject_Z_eq0 in E. lia. }
  destruct (Z.le_gt_cases 0 a) as [Ha|Ha].
  - assert (Hle : Qle_bool 0 (inject_Z a / inject_Z b) = true).
    { apply Qle_bool_iff. apply Qle_shift_div_l.
      - change 0%Q with (inject_Z 0). rewrite <- Zlt_Qlt. exact Hb.
      - rewrite Qmult_0_l. change 0%Q with (inject_Z 0).
        rewrite <- Zle_Qle. exact Ha. }
    rewrite Hle, <- Zdiv_Qdiv. symmetry. apply Z.quot_div_nonneg; lia.
  - assert (Hle : Qle_bool 0 (inject_Z a / inject_Z b) = false).
    { destruct (Qle_bool 0 (inject_Z a / inject_Z b)) eqn:E; [|reflexivity].
      apply Qle_bool_iff in E. exfalso.
      assert (Hneg : inject_Z a / inject_Z b < 0).
      { apply Qlt_shift_div_r.
        - change 0%Q with (inject_Z 0). rewrite <- Zlt_Qlt. exact Hb.
        - rewrite Qmult_0_l. change 0%Q with (inject_Z 0).
          rewrite <- Zlt_Qlt. exact Ha. }
      apply (Qlt_not_le _ _ Hneg E). }
    rewrite Hle. unfold Qceiling.
    assert (En : - (inject_Z a / inject_Z b) == inject_Z (- a) / inject_Z b)
      by (rewrite inject_Z_opp; field; exact Hbq).
    rewrite (Qfloor_comp _ _ En), <- Zdiv_Qdiv.
    rewrite <- (Z.opp_involutive a) at 2.
    rewrite Z.quot_opp_l by lia.
    rewrite Z.quot_div_nonneg by lia. reflexivity.
Qed.

Lemma fmod_inject (a b : Z) :
  (0 < b)%Z -> fmod (inject_Z a) (inject_Z b) = inject_Z (Z.rem a b).
Proof.
  intros Hb. unfold fmod. rewrite Qtrunc_div by exact Hb.
  rewrite <- (Qred_inject_Z (Z.rem a b)). apply Qred_complete.
  rewrite <- inject_Z_mult.
  pose proof (Z.quot_rem' a b) as E.
  assert (Er : Z.rem a b = (a - Z.quot a b * b)%Z) by lia.
  rewrite Er. unfold Z.sub. rewrite inject_Z_plus, inject_Z_opp. ring.
Qed.

(** On integers the float [divmod] is floor division. *)
Lemma float_divmod_inject (t w : Z) :
  (0 < w < 2 ^ 10)%Z -> (Z.abs t < 2 ^ 52)%Z ->
  float_divmod (inject_Z t) (inject_Z w) =
    (inject_Z (t / w), inject_Z (t mod w)).
Proof.
  intros Hw Ht. unfold float_divmod.
  assert (Hw0 : (0 < w)%Z) by lia.
  rewrite fmod_inject by exact Hw0.
  pose proof (Z.quot_rem' t w) as Eqr.
  pose proof (Z.rem_bound_abs t w ltac:(lia)) as Hrb.
  assert (Hq : (Z.abs (Z.quot t w) <= Z.abs t)%Z).
  { rewrite <- Z.quot_abs by lia.
    rewrite Z.quot_div_nonneg by lia.
    apply Z.div_le_upper_bound; [lia|].
    assert (0 <= Z.abs t)%Z by lia. nia. }
  rewrite fsub_inject by lia.
  replace (t - Z.rem t w)%Z with (Z.quot t w * w)%Z by lia.
  rewrite fdiv_inject by lia.
  rewrite !is_zero_inject.
  change 0%Q with (inject_Z 0). change 1%Q with (inject_Z 1).
  rewrite !flt_inject.
  pose proof (Z.div_mod t w ltac:(lia)) as Edm.
  pose proof (Z.mod_pos_bound t w Hw0) as Hmb.
  assert (Hwneg : (w <? 0)%Z = false) by (apply Z.ltb_ge; lia).
  rewrite Hwneg. cbn [xorb].
  assert (Hcases :
    (Z.rem t w = 0 /\ t mod w = 0 /\ t / w = Z.quot t w)%Z \/
    (0 < Z.rem t w /\ t mod w = Z.rem t w /\ t / w = Z.quot t w)%Z \/
    (Z.rem t w < 0 /\ t mod w = Z.rem t w + w /\ t / w = Z.quot t w - 1)%Z).
  { destruct (Z.lt_trichotomy (Z.rem t w) 0) as [Hn|[Hz|Hp]].
    - right. right. split; [exact Hn|].
      assert (E1 : (t = w * (Z.quot t w - 1) + (Z.rem t w + w))%Z) by lia.
      assert (Hb2 : (0 <= Z.rem t w + w < w)%Z) by lia.
      split.
      + symmetry. apply (Z.mod_unique_pos t w (Z.quot t w - 1)); assumption.
      + symmetry. apply (Z.div_unique_pos t w (Z.quot t w - 1) (Z.rem t w + w));
          assumption.
    - left. split; [exact Hz|].
      assert (E1 : (t = w * Z.quot t w + 0)%Z) by lia.
      split.
      + symmetry. apply (Z.mod_unique_pos t w (Z.quot t w)); [lia|exact E1].
      + symmetry. apply (Z.div_unique_pos t w (Z.quot t w) 0); [lia|exact E1].
    - right. left. split; [exact Hp|].
      assert (E1 : (t = w * Z.quot t w + Z.rem t w)%Z) by lia.
      split.
      + symmetry. apply (Z.mod_unique_pos t w (Z.quot t w)); [lia|exact E1].
      + symmetry. apply (Z.div_unique_pos t w (Z.quot t w) (Z.rem t w));
          [lia|exact E1]. }
  assert (Hfinal : forall d r : Z,
    (Z.abs d < 2 ^ 53)%Z ->
    (let floordiv :=
       if negb (is_zero (inject_Z d))
       then
         let floordiv := floor (inject_Z d) in
         if flt (1 # 2) (fsub (inject_Z d) floordiv)
         then fadd floordiv (inject_Z 1) else floordiv
       else inject_Z 0 in
     (floordiv, inject_Z r)) = (inject_Z d, inject_Z r)).
  { intros d r Hd. cbv zeta. rewrite is_zero_inject.
    destruct (Z.eqb_spec d 0) as [->|Hd0]; [reflexivity|].
    cbn [negb]. rewrite floor_inject, fsub_inject by (rewrite Z.sub_diag; simpl; lia).
    rewrite Z.sub_diag. reflexivity. }
  destruct Hcases as [(Hr & Hm & Hd) | [(Hr & Hm & Hd) | (Hr & Hm & Hd)]].
  - rewrite Hr. cbn [Z.eqb negb]. rewrite Hm, Hd. apply Hfinal. lia.
  - assert (E0 : (Z.rem t w =? 0)%Z = false) by (apply Z.eqb_neq; lia).
    assert (E1 : (Z.rem t w <? 0)%Z = false) by (apply Z.ltb_ge; lia).
    rewrite E0, E1. cbn [negb]. rewrite Hm, Hd. apply Hfinal. lia.
  - assert (E0 : (Z.rem t w =? 0)%Z = false) by (apply Z.eqb_neq; lia).
    assert (E1 : (Z.rem t w <? 0)%Z = true) by (apply Z.ltb_lt; lia).
    rewrite E0, E1. cbn [negb].
    rewrite fadd_inject, fsub_inject by lia.
    rewrite Hm, Hd. apply Hfinal. lia.
Qed.

Lemma format_0f_inject (z : Z) :
  Binary64.format_0f (inject_Z z) = Helpers.format_0f z.
Proof.
  unfold Binary64.format_0f. rewrite round_half_even_inject.
  change 0%Q with (inject_Z 0). rewrite flt_inject.
  destruct (Z.ltb_spec z 0), (Z.eqb_spec z 0); try reflexivity. lia.
Qed.

End Binary64Facts.

(** ** The duration format on every [timedelta] *)

Module DurationFacts.
Import Binary64 Binary64Facts.

(** The days, hours, minutes and seconds that [get_cool_off_iso8601]
    computes, as floats. *)
Definition duration_parts (delta : timedelta) : Q * Q * Q * Q :=
  let seconds := Durations.total_seconds delta in
  let '(minutes, seconds) := float_divmod seconds 60 in
  let '(hours, minutes) := float_divmod minutes 60 in
  let '(days, hours) := float_divmod hours 24 in
  (days, hours, minutes, seconds).

(** A component: nothing when the value is zero, else the value printed
    with no decimals and the letter. *)
Definition float_component (value : Q) (designator : string) : pystr :=
  if is_zero value then [] else format_0f value ++ str designator.

Lemma float_time_str (h m s : Q) :
  join []
    (map (fun '(value, designator) => format_0f value ++ designator)
       (filter (fun '(value, _) => negb (is_zero value))
          [(h, str "H"); (m, str "M"); (s, str "S")])) =
  float_component h "H" ++ float_component m "M" ++ float_component s "S".
Proof.
  rewrite join_empty_separator. unfold float_component.
  cbn [filter].
  destruct (is_zero h), (is_zero m), (is_zero s);
    cbn [negb map List.concat app]; rewrite ?app_nil_r; reflexivity.
Qed.

Lemma float_component_empty (value : Q) (designator : string) :
  designator <> ""%string ->
  float_component value designator = [] <-> is_zero value = true.
Proof.
  intros Hd. unfold float_component. destruct (is_zero value).
  - tauto.
  - split; [|discriminate]. intros Happ.
    apply app_eq_nil in Happ. destruct Happ as [_ Hs].
    destruct designator; [contradiction | discriminate].
Qed.

Lemma iso8601_structure (delta : timedelta) :
  let '(d, h, m, s) := duration_parts delta in
  Durations.get_cool_off_iso8601 delta =
    str "P" ++ float_component d "D" ++
    (if is_zero h && is_zero m && is_zero s then []
     else str "T" ++ float_component h "H" ++ float_component m "M"
            ++ float_component s "S").
Proof.
  unfold duration_parts, Durations.get_cool_off_iso8601.
  destruct (float_divmod (Durations.total_seconds delta) 60) as [minutes s].
  destruct (float_divmod minutes 60) as [hours m].
  destruct (float_divmod hours 24) as [d h].
  rewrite float_time_str.
  assert (Hd : (if negb (is_zero d) then format_0f d ++ str "D" else []) =
               float_component d "D")
    by (unfold float_component; destruct (is_zero d); reflexivity).
  rewrite Hd.
  destruct (float_component h "H" ++ float_component m "M"
            ++ float_component s "S") as [|ch rest] eqn:E.
  - apply app_eq_nil in E. destruct E as [E1 E2].
    apply app_eq_nil in E2. destruct E2 as [E2 E3].
    apply float_component_empty in E1, E2, E3; try discriminate.
    rewrite E1, E2, E3. cbn [andb]. now rewrite app_nil_r.
  - destruct (is_zero h && is_zero m && is_zero s) eqn:Ez; [|reflexivity].
    apply andb_true_iff in Ez. destruct Ez as [Ez Ez3].
    apply andb_true_iff in Ez. destruct Ez as [Ez1 Ez2].
    unfold float_component in E. rewrite Ez1, Ez2, Ez3 in E.
    discriminate E.
Qed.

(** *** Whole seconds *)

Lemma div_abs_le (t w : Z) : 0 < w -> Z.abs (t / w) <= Z.abs t.
Proof.
  intros Hw.
  pose proof (Z.div_mod t w ltac:(lia)) as E.
  pose proof (Z.mod_pos_bound t w Hw) as B.
  destruct (Z.le_gt_cases 0 t).
  - assert (0 <= t / w) by (apply Z.div_pos; lia). nia.
  - assert (t / w < 0) by (apply Z.div_lt_upper_bound; lia). nia.
Qed.

Lemma total_seconds_whole (delta : timedelta) :
  microseconds delta = 0 ->
  Z.abs (days delta * 86400 + seconds delta) < 2 ^ 53 ->
  Durations.total_seconds delta =
    inject_Z (days delta * 86400 + seconds delta).
Proof.
  intros Hu Ht. unfold Durations.total_seconds. rewrite Hu, Z.add_0_r.
  apply fdiv_inject; [discriminate | exact Ht].
Qed.

Lemma duration_parts_whole (delta : timedelta) :
  microseconds delta = 0 ->
  Z.abs (days delta * 86400 + seconds delta) < 2 ^ 52 ->
  let t := days delta * 86400 + seconds delta in
  duration_parts delta =
    (inject_Z (t / 60 / 60 / 24), inject_Z (t / 60 / 60 mod 24),
     inject_Z (t / 60 mod 60), inject_Z (t mod 60)).
Proof.
  intros Hu Ht t. unfold duration_parts.
  rewrite total_seconds_whole by (try exact Hu; lia). fold t.
  pose proof (div_abs_le t 60 ltac:(lia)) as B1.
  pose proof (div_abs_le (t / 60) 60 ltac:(lia)) as B2.
  change 60%Q with (inject_Z 60). change 24%Q with (inject_Z 24).
  rewrite (float_divmod_inject t 60) by (unfold t; lia).
  rewrite (float_divmod_inject (t / 60) 60) by (unfold t in *; lia).
  rewrite (float_divmod_inject (t / 60 / 60) 24) by (unfold t in *; lia).
  reflexivity.
Qed.

Lemma float_component_inject (z : Z) (designator : string) :
  float_component (inject_Z z) designator = component z designator.
Proof.
  unfold float_component, component.
  now rewrite is_zero_inject, format_0f_inject.
Qed.

(** On a duration of whole seconds the integer rendering of [Helpers] is
    the rendering in float arithmetic. *)
Lemma whole_seconds_agree (delta : timedelta) :
  microseconds delta = 0 ->
  Z.abs (days delta * 86400 + seconds delta) < 2 ^ 52 ->
  Helpers.get_cool_off_iso8601 delta =
    Some (Durations.get_cool_off_iso8601 delta).
Proof.
  intros Hu Ht. set (t := days delta * 86400 + seconds delta).
  pose proof (iso8601_structure delta) as Hs.
  rewrite (duration_parts_whole delta Hu Ht) in Hs. fold t in Hs.
  rewrite Hs, !float_component_inject, !is_zero_inject.
  pose proof (Z.div_mod t 60 ltac:(lia)) as D1.
  pose proof (Z.div_mod (t / 60) 60 ltac:(lia)) as D2.
  pose proof (Z.div_mod (t / 60 / 60) 24 ltac:(lia)) as D3.
  pose proof (Z.mod_pos_bound t 60 eq_refl) as B1.
  pose proof (Z.mod_pos_bound (t / 60) 60 eq_refl) as B2.
  pose proof (Z.mod_pos_bound (t / 60 / 60) 24 eq_refl) as B3.
  rewrite (iso8601_whole_seconds delta (t / 60 / 60 / 24)
             (t / 60 / 60 mod 24) (t / 60 mod 60) (t mod 60) Hu);
    [reflexivity|fold t; lia|exact B3|exact B2|exact B1].
Qed.

Lemma timedelta_ok_bound (delta : timedelta) :
  timedelta_ok delta ->
  Z.abs (days delta * 86400 + seconds delta) < 2 ^ 52.
Proof. intros (Hd & Hs & _). lia. Qed.

End DurationFacts.

(** C8. For every duration [get_cool_off_iso8601] gives ['P'], then the
    days and ['D'] when the days are not zero, then, when any of the three
    is not zero, ['T'] followed by the hours and ['H'], the minutes and
    ['M'], the seconds and ['S'], each only when not zero; the values are
    those of the float [divmod] chain on [total_seconds()], printed with
    no decimals. For a duration of whole seconds they are its days, hours,
    minutes and seconds as integers. So 1 hour 30 minutes gives
    ['PT1H30M'], 2 days give ['P2D'] and the zero duration gives ['P']. *)
Theorem C8_duration_format :
  (forall delta : timedelta,
      let '(d, h, m, s) := DurationFacts.duration_parts delta in
      Durations.get_cool_off_iso8601 delta =
        str "P" ++ DurationFacts.float_component d "D" ++
        (if Binary64.is_zero h && Binary64.is_zero m && Binary64.is_zero s
         then []
         else str "T" ++ DurationFacts.float_component h "H"
                ++ DurationFacts.float_component m "M"
                ++ DurationFacts.float_component s "S")) /\
  (forall (delta : timedelta) (d h m s : Z),
      timedelta_ok delta ->
      microseconds delta = 0 ->
      days delta * 86400 + seconds delta = d * 86400 + h * 3600 + m * 60 + s ->
      0 <= h < 24 -> 0 <= m < 60 -> 0 <= s < 60 ->
      Durations.get_cool_off_iso8601 delta =
        str "P" ++ component d "D" ++
        (if (h =? 0) && (m =? 0) && (s =? 0) then []
         else str "T" ++ component h "H" ++ component m "M"
                ++ component s "S")) /\
  Durations.get_cool_off_iso8601
    {| days := 0; seconds := 5400; microseconds := 0 |} = str "PT1H30M" /\
  Durations.get_cool_off_iso8601
    {| days := 2; seconds := 0; microseconds := 0 |} = str "P2D" /\
  Durations.get_cool_off_iso8601
    {| days := 0; seconds := 0; microseconds := 0 |} = str "P".
Proof.
  split; [exact DurationFacts.iso8601_structure|].
  split; [|repeat split; vm_compute; reflexivity].
  intros delta d h m s Hok Hu Ht Hh Hm Hs.
  pose proof (DurationFacts.whole_seconds_agree delta Hu
                (DurationFacts.timedelta_ok_bound delta Hok)) as Ha.
  rewrite (iso8601_whole_seconds delta d h m s Hu Ht Hh Hm Hs) in Ha.
  injection Ha as <-. reflexivity.
Qed.

Lemma C8_witness :
  Durations.get_cool_off_iso8601
    {| days := 1; seconds := 3723; microseconds := 0 |}
    = str "P1DT1H2M3S" /\
  Durations.get_cool_off_iso8601
    {| days := -1; seconds := 86399; microseconds := 0 |}
    = str "P-1DT23H59M59S" /\
  Durations.get_cool_off_iso8601
    {| days := 0; seconds := 59; microseconds := 600000 |}
    = str "PT60S" /\
  Durations.get_cool_off_iso8601
    {| days := 0; seconds := 0; microseconds := 400000 |}
    = str "PT0S".
Proof.
  destruct C8_duration_format as (Hall & Hwhole & _).
  split; [|split; [|split]].
  - rewrite (Hwhole {| days := 1; seconds := 3723; microseconds := 0 |}
               1 1 2 3);
      [reflexivity | unfold timedelta_ok; simpl; lia | reflexivity
      | reflexivity | lia | lia | lia].
  - rewrite (Hwhole {| days := -1; seconds := 86399; microseconds := 0 |}
               (-1) 23 59 59);
      [reflexivity | unfold timedelta_ok; simpl; lia | reflexivity
      | reflexivity | lia | lia | lia].
  - generalize (Hall {| days := 0; seconds := 59; microseconds := 600000 |}).
    vm_compute. exact (fun H => H).
  - generalize (Hall {| days := 0; seconds := 0; microseconds := 400000 |}).
    vm_compute. exact (fun H => H).
Defined.

(** ** The integer model of [Helpers] inside the float model

    [Helpers.total_seconds], [Helpers.get_cool_off_iso8601] and
    [get_cache_timeout] of [MoreHelpers] compute on durations of whole
    seconds in integer arithmetic. Whatever they compute is what the float
    functions of [Durations] compute. *)

Lemma integer_rendering_sound (delta : timedelta) (out : pystr) :
  timedelta_ok delta ->
  Helpers.get_cool_off_iso8601 delta = Some out ->
  Durations.get_cool_off_iso8601 delta = out.
Proof.
  intros Hok E.
  assert (Hu : microseconds delta = 0).
  { unfold Helpers.get_cool_off_iso8601, Helpers.total_seconds in E.
    destruct (Z.eqb_spec (microseconds delta) 0); [assumption|discriminate]. }
  rewrite (DurationFacts.whole_seconds_agree delta Hu
             (DurationFacts.timedelta_ok_bound delta Hok)) in E.
  now injection E.
Qed.

Lemma Qtrunc_inject (z : Z) : Binary64.Qtrunc (inject_Z z) = z.
Proof.
  unfold Binary64.Qtrunc.
  destruct (Qle_bool 0 (inject_Z z)); [apply Qfloor_Z | apply Qceiling_Z].
Qed.

Lemma integer_timeout_sound (s : Settings) (r : result (option Z)) :
  (forall delta, get_cool_off s = Ok (Some delta) -> timedelta_ok delta) ->
  MoreHelpers.get_cache_timeout s = Some r ->
  Durations.get_cache_timeout s = r.
Proof.
  unfold MoreHelpers.get_cache_timeout, Durations.get_cache_timeout.
  intros Hok.
  destruct (get_cool_off s) as [[delta|]|e]; cbn [bind].
  - specialize (Hok delta eq_refl).
    unfold Helpers.total_seconds.
    destruct (Z.eqb_spec (microseconds delta) 0) as [Hu|Hu]; [|discriminate].
    intros [= <-].
    rewrite (DurationFacts.total_seconds_whole delta Hu).
    + now rewrite Qtrunc_inject.
    + pose proof (DurationFacts.timedelta_ok_bound delta Hok). lia.
  - now intros [= <-].
  - now intros [= <-].
Qed.

(** ** get_lockout_response *)

Module Responses.

Inductive context_value :=
| CInt (n : Z)
| CStr (s : pystr).

Definition Context := dict string context_value.

(** Django's response classes and [render]. The helper hands over the
    arguments; what comes back, a response or an exception (a template
    that does not exist, a redirect to a scheme that is not allowed), is
    Django's. *)
Class Django (response : Type) := {
  JsonResponse : Context -> Z -> result response;
  render : HttpRequest -> pystr -> Context -> Z -> result response;
  HttpResponseRedirect : pystr -> result response;
  HttpResponse : pystr -> Z -> result response
}.

(** Django's [request.is_ajax()]. *)
Definition is_ajax (request : HttpRequest) : bool :=
  match dict_get str_eqb (META request) (str "HTTP_X_REQUESTED_WITH") with
  | Some v => str_eqb v (str "XMLHttpRequest")
  | None => false
  end.

Definition get_lockout_response `{Collaborators} {response} `{Django response}
    (settings : Settings) (more : MoreSettings) (request : HttpRequest)
    (credentials : option Credentials) : result response :=
  let status := 403 in
  username <- get_client_username settings request credentials ;;
  let context : Context :=
    [("failure_limit"%string, CInt (AXES_FAILURE_LIMIT settings));
     ("username"%string,
      CStr (if truthy username
            then match username with Some u => u | None => [] end
            else []))] in
  cool_off <- get_cool_off settings ;;
  let context :=
    match cool_off with
    | Some delta =>
        if timedelta_truthy delta then
          dict_update String.eqb context
            [("cooloff_time"%string,
              CStr (Durations.get_cool_off_iso8601 delta))]
        else context
    | None => context
    end in
  if is_ajax request then JsonResponse context status
  else if truthy (AXES_LOCKOUT_TEMPLATE more) then
    render request
      (match AXES_LOCKOUT_TEMPLATE more with Some t => t | None => [] end)
      context status
  else if truthy (AXES_LOCKOUT_URL more) then
    HttpResponseRedirect
      (match AXES_LOCKOUT_URL more with Some u => u | None => [] end)
  else HttpResponse (get_lockout_message settings more) status.

End Responses.
Import Responses.

(** The context of a lockout response: the limit, the username or [''],
    and the rendered cool-off when there is one that is not zero. *)
Definition lockout_context (s : Settings) (u : option pystr)
    (cool_off : option timedelta) : Context :=
  [("failure_limit"%string, CInt (AXES_FAILURE_LIMIT s));
   ("username"%string, CStr (match u with Some name => name | None => [] end))]
  ++ match cool_off with
     | Some delta =>
         if timedelta_truthy delta
         then [("cooloff_time"%string,
                CStr (Durations.get_cool_off_iso8601 delta))]
         else []
     | None => []
     end.

(** The response built from a context, by precedence. *)
Definition respond {response} `{Django response}
    (s : Settings) (more : MoreSettings) (r : HttpRequest)
    (context : Context) : result response :=
  if is_ajax r then JsonResponse context 403
  else
    match AXES_LOCKOUT_TEMPLATE more with
    | Some (ch :: t) => render r (ch :: t) context 403
    | _ =>
        match AXES_LOCKOUT_URL more with
        | Some (ch :: url) => HttpResponseRedirect (ch :: url)
        | _ => HttpResponse (get_lockout_message s more) 403
        end
    end.

Lemma get_lockout_response_respond `{Collaborators} {response}
    `{Django response} (s : Settings) (more : MoreSettings)
    (r : HttpRequest) (c : option Credentials) :
  get_lockout_response s more r c =
    (u <- get_client_username s r c ;;
     cool_off <- get_cool_off s ;;
     respond s more r (lockout_context s u cool_off)).
Proof.
  unfold get_lockout_response, respond, lockout_context.
  destruct (get_client_username s r c) as [u|e]; [|reflexivity].
  destruct (get_cool_off s) as [cool_off|e]; [|reflexivity].
  cbn [bind].
  assert (Hu : (if truthy u
                then match u with Some name => name | None => [] end
                else []) = match u with Some name => name | None => [] end)
    by (destruct u as [[|ch u]|]; reflexivity).
  rewrite Hu.
  assert (Hc :
    match cool_off with
    | Some delta =>
        if timedelta_truthy delta
        then dict_update String.eqb
               [("failure_limit"%string, CInt (AXES_FAILURE_LIMIT s));
                ("username"%string,
                 CStr match u with Some name => name | None => [] end)]
               [("cooloff_time"%string,
                 CStr (Durations.get_cool_off_iso8601 delta))]
        else [("failure_limit"%string, CInt (AXES_FAILURE_LIMIT s));
              ("username"%string,
               CStr match u with Some name => name | None => [] end)]
    | None => [("failure_limit"%string, CInt (AXES_FAILURE_LIMIT s));
               ("username"%string,
                CStr match u with Some name => name | None => [] end)]
    end =
    [("failure_limit"%string, CInt (AXES_FAILURE_LIMIT s));
     ("username"%string,
      CStr match u with Some name => name | None => [] end)]
    ++ match cool_off with
       | Some delta =>
           if timedelta_truthy delta
           then [("cooloff_time"%string,
                  CStr (Durations.get_cool_off_iso8601 delta))]
           else []
       | None => []
       end).
  { destruct cool_off as [delta|]; [destruct (timedelta_truthy delta)|];
      reflexivity. }
  rewrite Hc.
  destruct (is_ajax r); [reflexivity|].
  destruct (AXES_LOCKOUT_TEMPLATE more) as [[|ch t]|];
    destruct (AXES_LOCKOUT_URL more) as [[|ch' url]|]; reflexivity.
Qed.

(** X21. Which response a lockout gets, once the username and the cool-off
    are resolved: [JsonResponse] for an AJAX request, else [render] of the
    template when one is set, else [HttpResponseRedirect] when a URL is
    set, else [HttpResponse] with the lockout message; status 403 is
    passed to all of them but the redirect, and what Django returns or
    raises there is the result. *)
Theorem X21_lockout_response_kind `{Collaborators} {response}
    `{Django response} (s : Settings) (more : MoreSettings)
    (r : HttpRequest) (c : option Credentials)
    (u : option pystr) (cool_off : option timedelta) :
  get_client_username s r c = Ok u ->
  get_cool_off s = Ok cool_off ->
  let context := lockout_context s u cool_off in
  (is_ajax r = true ->
   get_lockout_response s more r c = JsonResponse context 403) /\
  (is_ajax r = false ->
   forall t, AXES_LOCKOUT_TEMPLATE more = Some t -> t <> [] ->
   get_lockout_response s more r c = render r t context 403) /\
  (is_ajax r = false ->
   truthy (AXES_LOCKOUT_TEMPLATE more) = false ->
   forall url, AXES_LOCKOUT_URL more = Some url -> url <> [] ->
   get_lockout_response s more r c = HttpResponseRedirect url) /\
  (is_ajax r = false ->
   truthy (AXES_LOCKOUT_TEMPLATE more) = false ->
   truthy (AXES_LOCKOUT_URL more) = false ->
   get_lockout_response s more r c =
     HttpResponse (get_lockout_message s more) 403).
Proof.
  intros Eu Ec context. rewrite get_lockout_response_respond, Eu, Ec.
  cbn [bind]. fold context. unfold respond.
  split; [|split; [|split]].
  - now intros ->.
  - intros -> t -> Ht. destruct t; [contradiction | reflexivity].
  - intros -> Et url -> Hurl.
    destruct (AXES_LOCKOUT_TEMPLATE more) as [[|ch t]|];
      try discriminate Et; (destruct url; [contradiction | reflexivity]).
  - intros -> Et Eurl.
    destruct (AXES_LOCKOUT_TEMPLATE more) as [[|ch t]|];
      try discriminate Et;
      destruct (AXES_LOCKOUT_URL more) as [[|ch' url]|];
      try discriminate Eurl; reflexivity.
Qed.

(** X22. The context handed to [JsonResponse] or [render] holds the failure
    limit and the username, as the empty string when there is none. It
    holds the rendered cool-off under [cooloff_time] exactly when the
    setting is true as a condition, which is when the lockout message is
    the cool-off message; a cool-off of zero hours or of zero length, like
    none, is reported as a permanent lock and gets no [cooloff_time]. *)
Theorem X22_lockout_response_context `{Collaborators} {response}
    `{Django response} (s : Settings) (more : MoreSettings)
    (r : HttpRequest) (c : option Credentials)
    (u : option pystr) (cool_off : option timedelta) :
  get_client_username s r c = Ok u ->
  get_cool_off s = Ok cool_off ->
  exists context : Context,
    (is_ajax r = true ->
     get_lockout_response s more r c = JsonResponse context 403) /\
    (is_ajax r = false ->
     forall t, AXES_LOCKOUT_TEMPLATE more = Some t -> t <> [] ->
     get_lockout_response s more r c = render r t context 403) /\
    dict_get String.eqb context "failure_limit"%string
      = Some (CInt (AXES_FAILURE_LIMIT s)) /\
    dict_get String.eqb context "username"%string
      = Some (CStr (match u with Some name => name | None => [] end)) /\
    (cooloff_truthy (AXES_COOLOFF_TIME s) = false ->
     dict_get String.eqb context "cooloff_time"%string = None /\
     get_lockout_message s more = AXES_PERMALOCK_MESSAGE more) /\
    (AXES_COOLOFF_TIME s = CT_None \/ AXES_COOLOFF_TIME s = CT_Hours 0 \/
     AXES_COOLOFF_TIME s
       = CT_Delta {| days := 0; seconds := 0; microseconds := 0 |} ->
     dict_get String.eqb context "cooloff_time"%string = None) /\
    (cooloff_truthy (AXES_COOLOFF_TIME s) = true ->
     exists delta,
       cool_off = Some delta /\
       dict_get String.eqb context "cooloff_time"%string
         = Some (CStr (Durations.get_cool_off_iso8601 delta)) /\
       get_lockout_message s more = AXES_COOLOFF_MESSAGE more).
Proof.
  intros Eu Ec. exists (lockout_context s u cool_off).
  pose proof (cool_off_truthy_agree s cool_off Ec) as Ht.
  split; [|split].
  - intros Ha. rewrite get_lockout_response_respond, Eu, Ec.
    cbn [bind]. unfold respond. now rewrite Ha.
  - intros Ha t Et Hne. rewrite get_lockout_response_respond, Eu, Ec.
    cbn [bind]. unfold respond. rewrite Ha, Et.
    destruct t; [contradiction | reflexivity].
  - unfold lockout_context, get_lockout_message.
    split; [reflexivity|]. split; [reflexivity|].
    assert (Hfalse : cooloff_truthy (AXES_COOLOFF_TIME s) = false ->
              dict_get String.eqb
                ([("failure_limit"%string, CInt (AXES_FAILURE_LIMIT s));
                  ("username"%string,
                   CStr match u with Some name => name | None => [] end)]
                 ++ match cool_off with
                    | Some delta =>
                        if timedelta_truthy delta
                        then [("cooloff_time"%string,
                               CStr (Durations.get_cool_off_iso8601 delta))]
                        else []
                    | None => []
                    end) "cooloff_time"%string = None).
    { rewrite <- Ht. intros Ef.
      destruct cool_off as [delta|]; [rewrite Ef|]; reflexivity. }
    split; [|split].
    + intros Ef. split; [now apply Hfalse | now rewrite Ef].
    + intros [E | [E | E]]; apply Hfalse; rewrite E; reflexivity.
    + rewrite <- Ht. intros Et. destruct cool_off as [delta|]; [|discriminate Et].
      rewrite Et. exists delta. repeat split.
Qed.

(** X23. [get_lockout_response] raises exactly in three cases: the
    username cannot be resolved; or it can and the configured hours
    overflow; or both succeed and Django raises while building the
    response. The first two come before the kind of response is looked
    at, so they stop a redirect too, which uses neither value. *)
Theorem X23_lockout_response_errors `{Collaborators} {response}
    `{Django response} (s : Settings) (more : MoreSettings)
    (r : HttpRequest) (c : option Credentials) (e : exn) :
  get_lockout_response s more r c = Raise e <->
  get_client_username s r c = Raise e \/
  ((exists u, get_client_username s r c = Ok u) /\
   get_cool_off s = Raise e) \/
  (exists u cool_off,
      get_client_username s r c = Ok u /\
      get_cool_off s = Ok cool_off /\
      respond s more r (lockout_context s u cool_off) = Raise e).
Proof.
  rewrite get_lockout_response_respond.
  destruct (get_client_username s r c) as [u|e1]; cbn [bind].
  - destruct (get_cool_off s) as [cool_off|e2]; cbn [bind].
    + split.
      * intros E. right. right. now exists u, cool_off.
      * intros [E | [[_ E] | (u' & co' & [= <-] & [= <-] & E)]];
          [discriminate E | discriminate E | exact E].
    + split.
      * intros [= ->]. right. left. split; [now exists u | reflexivity].
      * intros [E | [[_ E] | (u' & co' & _ & E & _)]];
          [discriminate E | now injection E as -> | discriminate E].
  - split.
    + intros [= ->]. now left.
    + intros [E | [[[u E] _] | (u' & co' & E & _)]];
        [now injection E as -> | discriminate E | discriminate E].
Qed.

(** *** A Django that records what it is asked for *)

Inductive built :=
| Json (context : Context) (status : Z)
| Page (template : pystr) (context : Context) (status : Z)
| Redirect (url : pystr)
| Plain (content : pystr) (status : Z).

(** Every response is built, but a template other than [lockout.html] does
    not exist. *)
Definition recording : Django built := {|
  JsonResponse := fun context status => Ok (Json context status);
  render := fun _ template context status =>
    if str_eqb template (str "lockout.html")
    then Ok (Page template context status)
    else Raise (Exception "TemplateDoesNotExist");
  HttpResponseRedirect := fun url => Ok (Redirect url);
  HttpResponse := fun content status => Ok (Plain content status)
|}.

Definition with_response (more : MoreSettings)
    (template url : option pystr) : MoreSettings := {|
  AXES_VERBOSE := AXES_VERBOSE more;
  AXES_PASSWORD_FORM_FIELD := AXES_PASSWORD_FORM_FIELD more;
  AXES_COOLOFF_MESSAGE := AXES_COOLOFF_MESSAGE more;
  AXES_PERMALOCK_MESSAGE := AXES_PERMALOCK_MESSAGE more;
  AXES_LOCKOUT_TEMPLATE := template;
  AXES_LOCKOUT_URL := url
|}.

Definition ajax_request : HttpRequest := {|
  axes_ip_address := Some Fixtures.ip1;
  method := Some (str "POST");
  POST := [(str "username", [str "alice"])];
  META := [(str "HTTP_X_REQUESTED_WITH", str "XMLHttpRequest")]
|}.

Definition form_request : HttpRequest := {|
  axes_ip_address := Some Fixtures.ip1;
  method := Some (str "POST");
  POST := [(str "username", [str "alice"])];
  META := []
|}.

Lemma X21_witness :
  get_lockout_response (H := Fixtures.plain) (H0 := recording)
    (with_cooloff Fixtures.settings0
       (CT_Delta {| days := 0; seconds := 59; microseconds := 600000 |}))
    (with_response more0 (Some (str "lockout.html")) (Some (str "/locked/")))
    ajax_request None =
  Ok (Json [("failure_limit"%string, CInt 3);
            ("username"%string, CStr (str "alice"));
            ("cooloff_time"%string, CStr (str "PT60S"))] 403) /\
  get_lockout_response (H := Fixtures.plain) (H0 := recording)
    Fixtures.settings0
    (with_response more0 (Some (str "missing.html")) (Some (str "/locked/")))
    form_request None =
  Raise (Exception "TemplateDoesNotExist") /\
  get_lockout_response (H := Fixtures.plain) (H0 := recording)
    Fixtures.settings0
    (with_response more0 (Some (str "")) (Some (str "/locked/")))
    form_request None =
  Ok (Redirect (str "/locked/")).
Proof.
  split; [|split].
  - rewrite (proj1 (X21_lockout_response_kind (H := Fixtures.plain)
                      (H0 := recording)
                      (with_cooloff Fixtures.settings0
                         (CT_Delta {| days := 0; seconds := 59;
                                      microseconds := 600000 |}))
                      (with_response more0 (Some (str "lockout.html"))
                         (Some (str "/locked/")))
                      ajax_request None
                      (Some (str "alice"))
                      (Some {| days := 0; seconds := 59;
                               microseconds := 600000 |})
                      eq_refl eq_refl) eq_refl).
    vm_compute. reflexivity.
  - rewrite (proj1 (proj2 (X21_lockout_response_kind (H := Fixtures.plain)
                      (H0 := recording) Fixtures.settings0
                      (with_response more0 (Some (str "missing.html"))
                         (Some (str "/locked/")))
                      form_request None
                      (Some (str "alice")) None eq_refl eq_refl))
               eq_refl (str "missing.html") eq_refl);
      [reflexivity | discriminate].
  - rewrite (proj1 (proj2 (proj2 (X21_lockout_response_kind
                      (H := Fixtures.plain)
                      (H0 := recording) Fixtures.settings0
                      (with_response more0 (Some (str ""))
                         (Some (str "/locked/")))
                      form_request None
                      (Some (str "alice")) None eq_refl eq_refl)))
               eq_refl eq_refl (str "/locked/") eq_refl);
      [reflexivity | discriminate].
Defined.

Lemma X22_witness :
  exists context : Context,
    get_lockout_response (H := Fixtures.plain) (H0 := recording)
      (with_cooloff Fixtures.settings0 (CT_Hours 0))
      more0 ajax_request (Some []) = Ok (Json context 403) /\
    dict_get String.eqb context "cooloff_time"%string = None /\
    dict_get String.eqb context "username"%string
      = Some (CStr (str "alice")).
Proof.
  destruct (X22_lockout_response_context (H := Fixtures.plain)
              (H0 := recording)
              (with_cooloff Fixtures.settings0 (CT_Hours 0))
              more0 ajax_request (Some [])
              (Some (str "alice"))
              (Some {| days := 0; seconds := 0; microseconds := 0 |})
              eq_refl eq_refl)
    as (context & Hjson & _ & _ & Hname & Hzero & _ & _).
  exists context. split; [exact (Hjson eq_refl)|].
  split; [exact (proj1 (Hzero eq_refl)) | exact Hname].
Defined.

(** *** Checks of the float model on known values *)

(** [0.1], the nearest binary64 value to one tenth. *)
Example round64_tenth :
  Binary64.round64 (1 # 10) = (3602879701896397 # 36028797018963968)%Q.
Proof. vm_compute. reflexivity. Qed.

(** The longest [timedelta] has more microseconds than a float holds: its
    seconds round up to a whole number. *)
Example total_seconds_max :
  Durations.total_seconds
    {| days := 999999999; seconds := 86399; microseconds := 999999 |}
  = inject_Z 86400000000000.
Proof. vm_compute. reflexivity. Qed.

(** [divmod(-1e-20, 60.0)] is [(-1.0, 60.0)]: the remainder is rounded. *)
Example float_divmod_tiny_negative :
  Binary64.float_divmod
    (Binary64.round64 (-1 # 100000000000000000000)) 60
  = (inject_Z (-1), inject_Z 60).
Proof. vm_compute. reflexivity. Qed.

Example format_0f_ties :
  Binary64.format_0f (1 # 2) = str "0" /\
  Binary64.format_0f (3 # 2) = str "2" /\
  Binary64.format_0f (5 # 2) = str "2" /\
  Binary64.format_0f (-1 # 2) = str "-0".
Proof. repeat split. Qed.

Example cache_timeout_of_fractions :
  Durations.get_cache_timeout
    (with_cooloff Fixtures.settings0
       (CT_Delta {| days := 0; seconds := 1; microseconds := 500000 |}))
  = Ok (Some 1) /\
  Durations.get_cache_timeout
    (with_cooloff Fixtures.settings0
       (CT_Delta {| days := -1; seconds := 86398; microseconds := 500000 |}))
  = Ok (Some (-1)).
Proof. split; vm_compute; reflexivity. Qed.
